(** * Teacher review bot (MongoDB edition): vote ledger, rate limiter,
      content filter, submission and moderation hand-off.

    A shallow embedding of [main.py.py].  Python [int] is [Z], a Python
    [str] is the [string] of its UTF-8 bytes, read by code points where the
    source counts or classifies characters (module [Text]), a MongoDB
    collection keyed by [_id] is a [gmap], the
    in-memory caches are [gset]s / [gmap]s.  Every [async def] of the source
    runs to completion between two events of the same worker, so a handler
    is a function from the world before to a result and the world after;
    the one place where the source's [await] points matter (two voters on
    the same post) is modelled by splitting [cast_vote] at its awaits. *)

From stdpp Require Import base option list gmap strings pretty sorting.
From Stdlib Require Import ZArith Lia Ascii.

Local Open Scope string_scope.
Local Open Scope Z_scope.

(** Python's [str(n)] for an [int]: decimal digits with a leading minus. *)
Definition str (n : Z) : string := pretty n.

(* ====================================================================== *)
(** ** Vote ledger: [Database.cast_vote] *)
(* ====================================================================== *)

Module Votes.

(** A document of the [votes] collection: [{_id, up, down, voters}]. *)
Record VoteDoc := mkVoteDoc {
  up     : Z;
  down   : Z;
  voters : gmap string string;
}.

(** The [{"up": up, "down": down}] dict handed back to [cb_vote]. *)
Record Counts := mkCounts { c_up : Z; c_down : Z }.

Definition counts_of (doc : VoteDoc) : Counts :=
  {| c_up := up doc; c_down := down doc |}.

(** [doc = {"_id": mid, "up": 0, "down": 0, "voters": {}}] *)
Definition fresh_doc : VoteDoc := {| up := 0; down := 0; voters := ∅ |}.

(** First half of [cast_vote], up to and including
    [doc = await self._votes.find_one({"_id": mid})] and the default. *)
Definition read_doc (msg_id : Z) (votes : gmap string VoteDoc) : VoteDoc :=
  default fresh_doc (votes !! str msg_id).

(** Second half of [cast_vote]: everything computed from the document that
    was read, and the [update_one(..., {"$set": ...}, upsert=True)] applied
    to the store as it is at that moment. *)
Definition decide_vote (msg_id uid : Z) (direction : string) (doc : VoteDoc)
    (votes : gmap string VoteDoc) : (bool * Counts) * gmap string VoteDoc :=
  let mid  := str msg_id in
  let uidk := str uid in
  let prev := voters doc !! uidk in
  if decide (prev = Some direction) then ((false, counts_of doc), votes)
  else
    let up0   := up doc in
    let down0 := down doc in
    let up1   := if decide (prev = Some "up")   then Z.max 0 (up0 - 1)   else up0 in
    let down1 := if decide (prev = Some "down") then Z.max 0 (down0 - 1) else down0 in
    let up2   := if decide (direction = "up")   then up1 + 1   else up1 in
    let down2 := if decide (direction = "down") then down1 + 1 else down1 in
    let voters' := <[uidk := direction]> (voters doc) in
    ((true, {| c_up := up2; c_down := down2 |}),
     <[mid := {| up := up2; down := down2; voters := voters' |}]> votes).

Definition cast_vote (msg_id uid : Z) (direction : string)
    (votes : gmap string VoteDoc) : (bool * Counts) * gmap string VoteDoc :=
  decide_vote msg_id uid direction (read_doc msg_id votes) votes.

(** A sequence of calls [(uid, direction)] on one post, one after the other. *)
Definition cast_votes (msg_id : Z) (calls : list (Z * string))
    (votes : gmap string VoteDoc) : gmap string VoteDoc :=
  foldl (λ vs c, (cast_vote msg_id c.1 c.2 vs).2) votes calls.

(** How many voters of a document are recorded with choice [d]. *)
Definition tally (d : string) (m : gmap string string) : Z :=
  Z.of_nat (size (filter (λ kv, kv.2 = d) m)).

(** The distinct voters of a sequence of calls. *)
Definition voters_of (calls : list (Z * string)) : gset Z :=
  list_to_set (calls.*1).

Definition is_direction (d : string) : Prop := d = "up" ∨ d = "down".

(** The direction a user voted last in a sequence of calls, if any. *)
Definition choice_after (uid : Z) (o : option string)
    (calls : list (Z * string)) : option string :=
  foldl (λ o c, if decide (c.1 = uid) then Some c.2 else o) o calls.

Definition last_choice (uid : Z) (calls : list (Z * string)) : option string :=
  choice_after uid None calls.

Definition opposite (d : string) : string :=
  if decide (d = "up") then "down" else "up".

(** The count that belongs to direction [d]. *)
Definition count_for (d : string) (c : Counts) : Z :=
  if decide (d = "up") then c_up c else c_down c.

(** The ledger invariant of one document, for the set [S] of users who have
    voted on the post so far. *)
Record ledger_inv (doc : VoteDoc) (S : gset Z) : Prop := {
  inv_up   : up doc = tally "up" (voters doc);
  inv_down : down doc = tally "down" (voters doc);
  inv_dir  : ∀ k v, voters doc !! k = Some v → is_direction v;
  inv_dom  : ∀ k, is_Some (voters doc !! k) ↔ ∃ u, u ∈ S ∧ k = str u;
  inv_size : size (voters doc) = size S;
}.

(** *** Two calls whose awaits interleave

    [cast_vote] awaits twice: [find_one] and [update_one].  Another
    coroutine (or another worker process on the same database) may run
    between the two.  A schedule says in which order the halves of two calls
    A and B run. *)
Inductive step := ReadA | ReadB | WriteA | WriteB.

Record Race := mkRace {
  store : gmap string VoteDoc;
  seenA : option VoteDoc;
  seenB : option VoteDoc;
}.

Definition run_step (msg_id : Z) (a b : Z * string) (r : Race) (s : step) : Race :=
  match s with
  | ReadA => {| store := store r; seenA := Some (read_doc msg_id (store r)); seenB := seenB r |}
  | ReadB => {| store := store r; seenA := seenA r; seenB := Some (read_doc msg_id (store r)) |}
  | WriteA =>
      match seenA r with
      | Some doc => {| store := (decide_vote msg_id a.1 a.2 doc (store r)).2;
                       seenA := None; seenB := seenB r |}
      | None => r
      end
  | WriteB =>
      match seenB r with
      | Some doc => {| store := (decide_vote msg_id b.1 b.2 doc (store r)).2;
                       seenA := seenA r; seenB := None |}
      | None => r
      end
  end.

Definition run_schedule (msg_id : Z) (a b : Z * string) (sched : list step)
    (votes : gmap string VoteDoc) : gmap string VoteDoc :=
  store (foldl (run_step msg_id a b) {| store := votes; seenA := None; seenB := None |} sched).

End Votes.

(* ====================================================================== *)
(** ** Text: [len], [str.strip], [str.lower], [re.findall(r"\w+", ...)] and
       the profanity filter *)
(* ====================================================================== *)

(** A Python [str] is a sequence of code points.  It is held here as the
    [string] of its UTF-8 bytes, which is what a string literal of this file
    is; [chunks] reads the code points back, each with the bytes that encode
    it, and [len], [strip] and the filter work on code points.  White space,
    word characters, lower case and the two properties the lower-casing of a
    capital sigma looks at are those of the Unicode tables of CPython 3.11
    (Unicode 14.0).  A byte that is no part of a UTF-8 sequence, which the
    encoding of a [str] never holds, is read as U+FFFD; a [str] with a lone
    surrogate has no UTF-8 encoding and is not represented. *)
Module Text.

Definition code (c : ascii) : N := N_of_ascii c.

Definition between (lo hi n : N) : bool := ((lo <=? n) && (n <=? hi))%N.

Definition in_ranges (t : list (N * N)) (c : N) : bool :=
  existsb (λ r, between r.1 r.2 c) t.

Fixpoint assoc (c : N) (t : list (N * N)) : option N :=
  match t with
  | [] => None
  | (k, v) :: t' => if (k =? c)%N then Some v else assoc c t'
  end.

(** The code points [str.isspace] holds of, which [str.strip] removes. *)
Definition SPACE_RANGES : list (N * N) :=
  [(9, 13); (28, 32); (133, 133); (160, 160); (5760, 5760); (8192, 8202);
    (8232, 8233); (8239, 8239); (8287, 8287); (12288, 12288)
  ]%N.

(** The class [\w] of a [str] pattern: the alphanumeric code points
    ([str.isalnum]) and the underscore, as ranges. *)
Definition WORD_RANGES : list (N * N) :=
  [(48, 57); (65, 90); (95, 95); (97, 122); (170, 170); (178, 179);
    (181, 181); (185, 186); (188, 190); (192, 214); (216, 246); (248, 705);
    (710, 721); (736, 740); (748, 748); (750, 750); (880, 884); (886, 887);
    (890, 893); (895, 895); (902, 902); (904, 906); (908, 908); (910, 929);
    (931, 1013); (1015, 1153); (1162, 1327); (1329, 1366); (1369, 1369);
    (1376, 1416); (1488, 1514); (1519, 1522); (1568, 1610); (1632, 1641);
    (1646, 1647); (1649, 1747); (1749, 1749); (1765, 1766); (1774, 1788);
    (1791, 1791); (1808, 1808); (1810, 1839); (1869, 1957); (1969, 1969);
    (1984, 2026); (2036, 2037); (2042, 2042); (2048, 2069); (2074, 2074);
    (2084, 2084); (2088, 2088); (2112, 2136); (2144, 2154); (2160, 2183);
    (2185, 2190); (2208, 2249); (2308, 2361); (2365, 2365); (2384, 2384);
    (2392, 2401); (2406, 2415); (2417, 2432); (2437, 2444); (2447, 2448);
    (2451, 2472); (2474, 2480); (2482, 2482); (2486, 2489); (2493, 2493);
    (2510, 2510); (2524, 2525); (2527, 2529); (2534, 2545); (2548, 2553);
    (2556, 2556); (2565, 2570); (2575, 2576); (2579, 2600); (2602, 2608);
    (2610, 2611); (2613, 2614); (2616, 2617); (2649, 2652); (2654, 2654);
    (2662, 2671); (2674, 2676); (2693, 2701); (2703, 2705); (2707, 2728);
    (2730, 2736); (2738, 2739); (2741, 2745); (2749, 2749); (2768, 2768);
    (2784, 2785); (2790, 2799); (2809, 2809); (2821, 2828); (2831, 2832);
    (2835, 2856); (2858, 2864); (2866, 2867); (2869, 2873); (2877, 2877);
    (2908, 2909); (2911, 2913); (2918, 2927); (2929, 2935); (2947, 2947);
    (2949, 2954); (2958, 2960); (2962, 2965); (2969, 2970); (2972, 2972);
    (2974, 2975); (2979, 2980); (2984, 2986); (2990, 3001); (3024, 3024);
    (3046, 3058); (3077, 3084); (3086, 3088); (3090, 3112); (3114, 3129);
    (3133, 3133); (3160, 3162); (3165, 3165); (3168, 3169); (3174, 3183);
    (3192, 3198); (3200, 3200); (3205, 3212); (3214, 3216); (3218, 3240);
    (3242, 3251); (3253, 3257); (3261, 3261); (3293, 3294); (3296, 3297);
    (3302, 3311); (3313, 3314); (3332, 3340); (3342, 3344); (3346, 3386);
    (3389, 3389); (3406, 3406); (3412, 3414); (3416, 3425); (3430, 3448);
    (3450, 3455); (3461, 3478); (3482, 3505); (3507, 3515); (3517, 3517);
    (3520, 3526); (3558, 3567); (3585, 3632); (3634, 3635); (3648, 3654);
    (3664, 3673); (3713, 3714); (3716, 3716); (3718, 3722); (3724, 3747);
    (3749, 3749); (3751, 3760); (3762, 3763); (3773, 3773); (3776, 3780);
    (3782, 3782); (3792, 3801); (3804, 3807); (3840, 3840); (3872, 3891);
    (3904, 3911); (3913, 3948); (3976, 3980); (4096, 4138); (4159, 4169);
    (4176, 4181); (4186, 4189); (4193, 4193); (4197, 4198); (4206, 4208);
    (4213, 4225); (4238, 4238); (4240, 4249); (4256, 4293); (4295, 4295);
    (4301, 4301); (4304, 4346); (4348, 4680); (4682, 4685); (4688, 4694);
    (4696, 4696); (4698, 4701); (4704, 4744); (4746, 4749); (4752, 4784);
    (4786, 4789); (4792, 4798); (4800, 4800); (4802, 4805); (4808, 4822);
    (4824, 4880); (4882, 4885); (4888, 4954); (4969, 4988); (4992, 5007);
    (5024, 5109); (5112, 5117); (5121, 5740); (5743, 5759); (5761, 5786);
    (5792, 5866); (5870, 5880); (5888, 5905); (5919, 5937); (5952, 5969);
    (5984, 5996); (5998, 6000); (6016, 6067); (6103, 6103); (6108, 6108);
    (6112, 6121); (6128, 6137); (6160, 6169); (6176, 6264); (6272, 6276);
    (6279, 6312); (6314, 6314); (6320, 6389); (6400, 6430); (6470, 6509);
    (6512, 6516); (6528, 6571); (6576, 6601); (6608, 6618); (6656, 6678);
    (6688, 6740); (6784, 6793); (6800, 6809); (6823, 6823); (6917, 6963);
    (6981, 6988); (6992, 7001); (7043, 7072); (7086, 7141); (7168, 7203);
    (7232, 7241); (7245, 7293); (7296, 7304); (7312, 7354); (7357, 7359);
    (7401, 7404); (7406, 7411); (7413, 7414); (7418, 7418); (7424, 7615);
    (7680, 7957); (7960, 7965); (7968, 8005); (8008, 8013); (8016, 8023);
    (8025, 8025); (8027, 8027); (8029, 8029); (8031, 8061); (8064, 8116);
    (8118, 8124); (8126, 8126); (8130, 8132); (8134, 8140); (8144, 8147);
    (8150, 8155); (8160, 8172); (8178, 8180); (8182, 8188); (8304, 8305);
    (8308, 8313); (8319, 8329); (8336, 8348); (8450, 8450); (8455, 8455);
    (8458, 8467); (8469, 8469); (8473, 8477); (8484, 8484); (8486, 8486);
    (8488, 8488); (8490, 8493); (8495, 8505); (8508, 8511); (8517, 8521);
    (8526, 8526); (8528, 8585); (9312, 9371); (9450, 9471); (10102, 10131);
    (11264, 11492); (11499, 11502); (11506, 11507); (11517, 11517);
    (11520, 11557); (11559, 11559); (11565, 11565); (11568, 11623);
    (11631, 11631); (11648, 11670); (11680, 11686); (11688, 11694);
    (11696, 11702); (11704, 11710); (11712, 11718); (11720, 11726);
    (11728, 11734); (11736, 11742); (11823, 11823); (12293, 12295);
    (12321, 12329); (12337, 12341); (12344, 12348); (12353, 12438);
    (12445, 12447); (12449, 12538); (12540, 12543); (12549, 12591);
    (12593, 12686); (12690, 12693); (12704, 12735); (12784, 12799);
    (12832, 12841); (12872, 12879); (12881, 12895); (12928, 12937);
    (12977, 12991); (13312, 19903); (19968, 42124); (42192, 42237);
    (42240, 42508); (42512, 42539); (42560, 42606); (42623, 42653);
    (42656, 42735); (42775, 42783); (42786, 42888); (42891, 42954);
    (42960, 42961); (42963, 42963); (42965, 42969); (42994, 43009);
    (43011, 43013); (43015, 43018); (43020, 43042); (43056, 43061);
    (43072, 43123); (43138, 43187); (43216, 43225); (43250, 43255);
    (43259, 43259); (43261, 43262); (43264, 43301); (43312, 43334);
    (43360, 43388); (43396, 43442); (43471, 43481); (43488, 43492);
    (43494, 43518); (43520, 43560); (43584, 43586); (43588, 43595);
    (43600, 43609); (43616, 43638); (43642, 43642); (43646, 43695);
    (43697, 43697); (43701, 43702); (43705, 43709); (43712, 43712);
    (43714, 43714); (43739, 43741); (43744, 43754); (43762, 43764);
    (43777, 43782); (43785, 43790); (43793, 43798); (43808, 43814);
    (43816, 43822); (43824, 43866); (43868, 43881); (43888, 44002);
    (44016, 44025); (44032, 55203); (55216, 55238); (55243, 55291);
    (63744, 64109); (64112, 64217); (64256, 64262); (64275, 64279);
    (64285, 64285); (64287, 64296); (64298, 64310); (64312, 64316);
    (64318, 64318); (64320, 64321); (64323, 64324); (64326, 64433);
    (64467, 64829); (64848, 64911); (64914, 64967); (65008, 65019);
    (65136, 65140); (65142, 65276); (65296, 65305); (65313, 65338);
    (65345, 65370); (65382, 65470); (65474, 65479); (65482, 65487);
    (65490, 65495); (65498, 65500); (65536, 65547); (65549, 65574);
    (65576, 65594); (65596, 65597); (65599, 65613); (65616, 65629);
    (65664, 65786); (65799, 65843); (65856, 65912); (65930, 65931);
    (66176, 66204); (66208, 66256); (66273, 66299); (66304, 66339);
    (66349, 66378); (66384, 66421); (66432, 66461); (66464, 66499);
    (66504, 66511); (66513, 66517); (66560, 66717); (66720, 66729);
    (66736, 66771); (66776, 66811); (66816, 66855); (66864, 66915);
    (66928, 66938); (66940, 66954); (66956, 66962); (66964, 66965);
    (66967, 66977); (66979, 66993); (66995, 67001); (67003, 67004);
    (67072, 67382); (67392, 67413); (67424, 67431); (67456, 67461);
    (67463, 67504); (67506, 67514); (67584, 67589); (67592, 67592);
    (67594, 67637); (67639, 67640); (67644, 67644); (67647, 67669);
    (67672, 67702); (67705, 67742); (67751, 67759); (67808, 67826);
    (67828, 67829); (67835, 67867); (67872, 67897); (67968, 68023);
    (68028, 68047); (68050, 68096); (68112, 68115); (68117, 68119);
    (68121, 68149); (68160, 68168); (68192, 68222); (68224, 68255);
    (68288, 68295); (68297, 68324); (68331, 68335); (68352, 68405);
    (68416, 68437); (68440, 68466); (68472, 68497); (68521, 68527);
    (68608, 68680); (68736, 68786); (68800, 68850); (68858, 68899);
    (68912, 68921); (69216, 69246); (69248, 69289); (69296, 69297);
    (69376, 69415); (69424, 69445); (69457, 69460); (69488, 69505);
    (69552, 69579); (69600, 69622); (69635, 69687); (69714, 69743);
    (69745, 69746); (69749, 69749); (69763, 69807); (69840, 69864);
    (69872, 69881); (69891, 69926); (69942, 69951); (69956, 69956);
    (69959, 69959); (69968, 70002); (70006, 70006); (70019, 70066);
    (70081, 70084); (70096, 70106); (70108, 70108); (70113, 70132);
    (70144, 70161); (70163, 70187); (70272, 70278); (70280, 70280);
    (70282, 70285); (70287, 70301); (70303, 70312); (70320, 70366);
    (70384, 70393); (70405, 70412); (70415, 70416); (70419, 70440);
    (70442, 70448); (70450, 70451); (70453, 70457); (70461, 70461);
    (70480, 70480); (70493, 70497); (70656, 70708); (70727, 70730);
    (70736, 70745); (70751, 70753); (70784, 70831); (70852, 70853);
    (70855, 70855); (70864, 70873); (71040, 71086); (71128, 71131);
    (71168, 71215); (71236, 71236); (71248, 71257); (71296, 71338);
    (71352, 71352); (71360, 71369); (71424, 71450); (71472, 71483);
    (71488, 71494); (71680, 71723); (71840, 71922); (71935, 71942);
    (71945, 71945); (71948, 71955); (71957, 71958); (71960, 71983);
    (71999, 71999); (72001, 72001); (72016, 72025); (72096, 72103);
    (72106, 72144); (72161, 72161); (72163, 72163); (72192, 72192);
    (72203, 72242); (72250, 72250); (72272, 72272); (72284, 72329);
    (72349, 72349); (72368, 72440); (72704, 72712); (72714, 72750);
    (72768, 72768); (72784, 72812); (72818, 72847); (72960, 72966);
    (72968, 72969); (72971, 73008); (73030, 73030); (73040, 73049);
    (73056, 73061); (73063, 73064); (73066, 73097); (73112, 73112);
    (73120, 73129); (73440, 73458); (73648, 73648); (73664, 73684);
    (73728, 74649); (74752, 74862); (74880, 75075); (77712, 77808);
    (77824, 78894); (82944, 83526); (92160, 92728); (92736, 92766);
    (92768, 92777); (92784, 92862); (92864, 92873); (92880, 92909);
    (92928, 92975); (92992, 92995); (93008, 93017); (93019, 93025);
    (93027, 93047); (93053, 93071); (93760, 93846); (93952, 94026);
    (94032, 94032); (94099, 94111); (94176, 94177); (94179, 94179);
    (94208, 100343); (100352, 101589); (101632, 101640); (110576, 110579);
    (110581, 110587); (110589, 110590); (110592, 110882); (110928, 110930);
    (110948, 110951); (110960, 111355); (113664, 113770); (113776, 113788);
    (113792, 113800); (113808, 113817); (119520, 119539); (119648, 119672);
    (119808, 119892); (119894, 119964); (119966, 119967); (119970, 119970);
    (119973, 119974); (119977, 119980); (119982, 119993); (119995, 119995);
    (119997, 120003); (120005, 120069); (120071, 120074); (120077, 120084);
    (120086, 120092); (120094, 120121); (120123, 120126); (120128, 120132);
    (120134, 120134); (120138, 120144); (120146, 120485); (120488, 120512);
    (120514, 120538); (120540, 120570); (120572, 120596); (120598, 120628);
    (120630, 120654); (120656, 120686); (120688, 120712); (120714, 120744);
    (120746, 120770); (120772, 120779); (120782, 120831); (122624, 122654);
    (123136, 123180); (123191, 123197); (123200, 123209); (123214, 123214);
    (123536, 123565); (123584, 123627); (123632, 123641); (124896, 124902);
    (124904, 124907); (124909, 124910); (124912, 124926); (124928, 125124);
    (125127, 125135); (125184, 125251); (125259, 125259); (125264, 125273);
    (126065, 126123); (126125, 126127); (126129, 126132); (126209, 126253);
    (126255, 126269); (126464, 126467); (126469, 126495); (126497, 126498);
    (126500, 126500); (126503, 126503); (126505, 126514); (126516, 126519);
    (126521, 126521); (126523, 126523); (126530, 126530); (126535, 126535);
    (126537, 126537); (126539, 126539); (126541, 126543); (126545, 126546);
    (126548, 126548); (126551, 126551); (126553, 126553); (126555, 126555);
    (126557, 126557); (126559, 126559); (126561, 126562); (126564, 126564);
    (126567, 126570); (126572, 126578); (126580, 126583); (126585, 126588);
    (126590, 126590); (126592, 126601); (126603, 126619); (126625, 126627);
    (126629, 126633); (126635, 126651); (127232, 127244); (130032, 130041);
    (131072, 173791); (173824, 177976); (177984, 178205); (178208, 183969);
    (183984, 191456); (194560, 195101); (196608, 201546)
  ]%N.

(** The code points with the property Cased. *)
Definition CASED_RANGES : list (N * N) :=
  [(65, 90); (97, 122); (170, 170); (181, 181); (186, 186); (192, 214);
    (216, 246); (248, 442); (444, 447); (452, 659); (661, 696); (704, 705);
    (736, 740); (837, 837); (880, 883); (886, 887); (890, 893); (895, 895);
    (902, 902); (904, 906); (908, 908); (910, 929); (931, 1013); (1015, 1153);
    (1162, 1327); (1329, 1366); (1376, 1416); (4256, 4293); (4295, 4295);
    (4301, 4301); (4304, 4346); (4349, 4351); (5024, 5109); (5112, 5117);
    (7296, 7304); (7312, 7354); (7357, 7359); (7424, 7615); (7680, 7957);
    (7960, 7965); (7968, 8005); (8008, 8013); (8016, 8023); (8025, 8025);
    (8027, 8027); (8029, 8029); (8031, 8061); (8064, 8116); (8118, 8124);
    (8126, 8126); (8130, 8132); (8134, 8140); (8144, 8147); (8150, 8155);
    (8160, 8172); (8178, 8180); (8182, 8188); (8305, 8305); (8319, 8319);
    (8336, 8348); (8450, 8450); (8455, 8455); (8458, 8467); (8469, 8469);
    (8473, 8477); (8484, 8484); (8486, 8486); (8488, 8488); (8490, 8493);
    (8495, 8500); (8505, 8505); (8508, 8511); (8517, 8521); (8526, 8526);
    (8544, 8575); (8579, 8580); (9398, 9449); (11264, 11492); (11499, 11502);
    (11506, 11507); (11520, 11557); (11559, 11559); (11565, 11565);
    (42560, 42605); (42624, 42653); (42786, 42887); (42891, 42894);
    (42896, 42954); (42960, 42961); (42963, 42963); (42965, 42969);
    (42997, 42998); (43000, 43002); (43824, 43866); (43868, 43880);
    (43888, 43967); (64256, 64262); (64275, 64279); (65313, 65338);
    (65345, 65370); (66560, 66639); (66736, 66771); (66776, 66811);
    (66928, 66938); (66940, 66954); (66956, 66962); (66964, 66965);
    (66967, 66977); (66979, 66993); (66995, 67001); (67003, 67004);
    (67456, 67456); (67459, 67461); (67463, 67504); (67506, 67514);
    (68736, 68786); (68800, 68850); (71840, 71903); (93760, 93823);
    (119808, 119892); (119894, 119964); (119966, 119967); (119970, 119970);
    (119973, 119974); (119977, 119980); (119982, 119993); (119995, 119995);
    (119997, 120003); (120005, 120069); (120071, 120074); (120077, 120084);
    (120086, 120092); (120094, 120121); (120123, 120126); (120128, 120132);
    (120134, 120134); (120138, 120144); (120146, 120485); (120488, 120512);
    (120514, 120538); (120540, 120570); (120572, 120596); (120598, 120628);
    (120630, 120654); (120656, 120686); (120688, 120712); (120714, 120744);
    (120746, 120770); (120772, 120779); (122624, 122633); (122635, 122654);
    (125184, 125251); (127280, 127305); (127312, 127337); (127344, 127369)
  ]%N.

(** The code points with the property Case_Ignorable. *)
Definition IGNORABLE_RANGES : list (N * N) :=
  [(39, 39); (46, 46); (58, 58); (94, 94); (96, 96); (168, 168); (173, 173);
    (175, 175); (180, 180); (183, 184); (688, 879); (884, 885); (890, 890);
    (900, 901); (903, 903); (1155, 1161); (1369, 1369); (1375, 1375);
    (1425, 1469); (1471, 1471); (1473, 1474); (1476, 1477); (1479, 1479);
    (1524, 1524); (1536, 1541); (1552, 1562); (1564, 1564); (1600, 1600);
    (1611, 1631); (1648, 1648); (1750, 1757); (1759, 1768); (1770, 1773);
    (1807, 1807); (1809, 1809); (1840, 1866); (1958, 1968); (2027, 2037);
    (2042, 2042); (2045, 2045); (2070, 2093); (2137, 2139); (2184, 2184);
    (2192, 2193); (2200, 2207); (2249, 2306); (2362, 2362); (2364, 2364);
    (2369, 2376); (2381, 2381); (2385, 2391); (2402, 2403); (2417, 2417);
    (2433, 2433); (2492, 2492); (2497, 2500); (2509, 2509); (2530, 2531);
    (2558, 2558); (2561, 2562); (2620, 2620); (2625, 2626); (2631, 2632);
    (2635, 2637); (2641, 2641); (2672, 2673); (2677, 2677); (2689, 2690);
    (2748, 2748); (2753, 2757); (2759, 2760); (2765, 2765); (2786, 2787);
    (2810, 2815); (2817, 2817); (2876, 2876); (2879, 2879); (2881, 2884);
    (2893, 2893); (2901, 2902); (2914, 2915); (2946, 2946); (3008, 3008);
    (3021, 3021); (3072, 3072); (3076, 3076); (3132, 3132); (3134, 3136);
    (3142, 3144); (3146, 3149); (3157, 3158); (3170, 3171); (3201, 3201);
    (3260, 3260); (3263, 3263); (3270, 3270); (3276, 3277); (3298, 3299);
    (3328, 3329); (3387, 3388); (3393, 3396); (3405, 3405); (3426, 3427);
    (3457, 3457); (3530, 3530); (3538, 3540); (3542, 3542); (3633, 3633);
    (3636, 3642); (3654, 3662); (3761, 3761); (3764, 3772); (3782, 3782);
    (3784, 3789); (3864, 3865); (3893, 3893); (3895, 3895); (3897, 3897);
    (3953, 3966); (3968, 3972); (3974, 3975); (3981, 3991); (3993, 4028);
    (4038, 4038); (4141, 4144); (4146, 4151); (4153, 4154); (4157, 4158);
    (4184, 4185); (4190, 4192); (4209, 4212); (4226, 4226); (4229, 4230);
    (4237, 4237); (4253, 4253); (4348, 4348); (4957, 4959); (5906, 5908);
    (5938, 5939); (5970, 5971); (6002, 6003); (6068, 6069); (6071, 6077);
    (6086, 6086); (6089, 6099); (6103, 6103); (6109, 6109); (6155, 6159);
    (6211, 6211); (6277, 6278); (6313, 6313); (6432, 6434); (6439, 6440);
    (6450, 6450); (6457, 6459); (6679, 6680); (6683, 6683); (6742, 6742);
    (6744, 6750); (6752, 6752); (6754, 6754); (6757, 6764); (6771, 6780);
    (6783, 6783); (6823, 6823); (6832, 6862); (6912, 6915); (6964, 6964);
    (6966, 6970); (6972, 6972); (6978, 6978); (7019, 7027); (7040, 7041);
    (7074, 7077); (7080, 7081); (7083, 7085); (7142, 7142); (7144, 7145);
    (7149, 7149); (7151, 7153); (7212, 7219); (7222, 7223); (7288, 7293);
    (7376, 7378); (7380, 7392); (7394, 7400); (7405, 7405); (7412, 7412);
    (7416, 7417); (7468, 7530); (7544, 7544); (7579, 7679); (8125, 8125);
    (8127, 8129); (8141, 8143); (8157, 8159); (8173, 8175); (8189, 8190);
    (8203, 8207); (8216, 8217); (8228, 8228); (8231, 8231); (8234, 8238);
    (8288, 8292); (8294, 8303); (8305, 8305); (8319, 8319); (8336, 8348);
    (8400, 8432); (11388, 11389); (11503, 11505); (11631, 11631);
    (11647, 11647); (11744, 11775); (11823, 11823); (12293, 12293);
    (12330, 12333); (12337, 12341); (12347, 12347); (12441, 12446);
    (12540, 12542); (40981, 40981); (42232, 42237); (42508, 42508);
    (42607, 42610); (42612, 42621); (42623, 42623); (42652, 42655);
    (42736, 42737); (42752, 42785); (42864, 42864); (42888, 42890);
    (42994, 42996); (43000, 43001); (43010, 43010); (43014, 43014);
    (43019, 43019); (43045, 43046); (43052, 43052); (43204, 43205);
    (43232, 43249); (43263, 43263); (43302, 43309); (43335, 43345);
    (43392, 43394); (43443, 43443); (43446, 43449); (43452, 43453);
    (43471, 43471); (43493, 43494); (43561, 43566); (43569, 43570);
    (43573, 43574); (43587, 43587); (43596, 43596); (43632, 43632);
    (43644, 43644); (43696, 43696); (43698, 43700); (43703, 43704);
    (43710, 43711); (43713, 43713); (43741, 43741); (43756, 43757);
    (43763, 43764); (43766, 43766); (43867, 43871); (43881, 43883);
    (44005, 44005); (44008, 44008); (44013, 44013); (64286, 64286);
    (64434, 64450); (65024, 65039); (65043, 65043); (65056, 65071);
    (65106, 65106); (65109, 65109); (65279, 65279); (65287, 65287);
    (65294, 65294); (65306, 65306); (65342, 65342); (65344, 65344);
    (65392, 65392); (65438, 65439); (65507, 65507); (65529, 65531);
    (66045, 66045); (66272, 66272); (66422, 66426); (67456, 67461);
    (67463, 67504); (67506, 67514); (68097, 68099); (68101, 68102);
    (68108, 68111); (68152, 68154); (68159, 68159); (68325, 68326);
    (68900, 68903); (69291, 69292); (69446, 69456); (69506, 69509);
    (69633, 69633); (69688, 69702); (69744, 69744); (69747, 69748);
    (69759, 69761); (69811, 69814); (69817, 69818); (69821, 69821);
    (69826, 69826); (69837, 69837); (69888, 69890); (69927, 69931);
    (69933, 69940); (70003, 70003); (70016, 70017); (70070, 70078);
    (70089, 70092); (70095, 70095); (70191, 70193); (70196, 70196);
    (70198, 70199); (70206, 70206); (70367, 70367); (70371, 70378);
    (70400, 70401); (70459, 70460); (70464, 70464); (70502, 70508);
    (70512, 70516); (70712, 70719); (70722, 70724); (70726, 70726);
    (70750, 70750); (70835, 70840); (70842, 70842); (70847, 70848);
    (70850, 70851); (71090, 71093); (71100, 71101); (71103, 71104);
    (71132, 71133); (71219, 71226); (71229, 71229); (71231, 71232);
    (71339, 71339); (71341, 71341); (71344, 71349); (71351, 71351);
    (71453, 71455); (71458, 71461); (71463, 71467); (71727, 71735);
    (71737, 71738); (71995, 71996); (71998, 71998); (72003, 72003);
    (72148, 72151); (72154, 72155); (72160, 72160); (72193, 72202);
    (72243, 72248); (72251, 72254); (72263, 72263); (72273, 72278);
    (72281, 72283); (72330, 72342); (72344, 72345); (72752, 72758);
    (72760, 72765); (72767, 72767); (72850, 72871); (72874, 72880);
    (72882, 72883); (72885, 72886); (73009, 73014); (73018, 73018);
    (73020, 73021); (73023, 73029); (73031, 73031); (73104, 73105);
    (73109, 73109); (73111, 73111); (73459, 73460); (78896, 78904);
    (92912, 92916); (92976, 92982); (92992, 92995); (94031, 94031);
    (94095, 94111); (94176, 94177); (94179, 94180); (110576, 110579);
    (110581, 110587); (110589, 110590); (113821, 113822); (113824, 113827);
    (118528, 118573); (118576, 118598); (119143, 119145); (119155, 119170);
    (119173, 119179); (119210, 119213); (119362, 119364); (121344, 121398);
    (121403, 121452); (121461, 121461); (121476, 121476); (121499, 121503);
    (121505, 121519); (122880, 122886); (122888, 122904); (122907, 122913);
    (122915, 122916); (122918, 122922); (123184, 123197); (123566, 123566);
    (123628, 123631); (125136, 125142); (125252, 125259); (127995, 127999);
    (917505, 917505); (917536, 917631); (917760, 917999)
  ]%N.

(** The code points [str.lower] maps to one other code point, each with
    its image. *)
Definition LOWER_TABLE : list (N * N) :=
  [(65, 97); (66, 98); (67, 99); (68, 100); (69, 101); (70, 102); (71, 103);
    (72, 104); (73, 105); (74, 106); (75, 107); (76, 108); (77, 109);
    (78, 110); (79, 111); (80, 112); (81, 113); (82, 114); (83, 115);
    (84, 116); (85, 117); (86, 118); (87, 119); (88, 120); (89, 121);
    (90, 122); (192, 224); (193, 225); (194, 226); (195, 227); (196, 228);
    (197, 229); (198, 230); (199, 231); (200, 232); (201, 233); (202, 234);
    (203, 235); (204, 236); (205, 237); (206, 238); (207, 239); (208, 240);
    (209, 241); (210, 242); (211, 243); (212, 244); (213, 245); (214, 246);
    (216, 248); (217, 249); (218, 250); (219, 251); (220, 252); (221, 253);
    (222, 254); (256, 257); (258, 259); (260, 261); (262, 263); (264, 265);
    (266, 267); (268, 269); (270, 271); (272, 273); (274, 275); (276, 277);
    (278, 279); (280, 281); (282, 283); (284, 285); (286, 287); (288, 289);
    (290, 291); (292, 293); (294, 295); (296, 297); (298, 299); (300, 301);
    (302, 303); (306, 307); (308, 309); (310, 311); (313, 314); (315, 316);
    (317, 318); (319, 320); (321, 322); (323, 324); (325, 326); (327, 328);
    (330, 331); (332, 333); (334, 335); (336, 337); (338, 339); (340, 341);
    (342, 343); (344, 345); (346, 347); (348, 349); (350, 351); (352, 353);
    (354, 355); (356, 357); (358, 359); (360, 361); (362, 363); (364, 365);
    (366, 367); (368, 369); (370, 371); (372, 373); (374, 375); (376, 255);
    (377, 378); (379, 380); (381, 382); (385, 595); (386, 387); (388, 389);
    (390, 596); (391, 392); (393, 598); (394, 599); (395, 396); (398, 477);
    (399, 601); (400, 603); (401, 402); (403, 608); (404, 611); (406, 617);
    (407, 616); (408, 409); (412, 623); (413, 626); (415, 629); (416, 417);
    (418, 419); (420, 421); (422, 640); (423, 424); (425, 643); (428, 429);
    (430, 648); (431, 432); (433, 650); (434, 651); (435, 436); (437, 438);
    (439, 658); (440, 441); (444, 445); (452, 454); (453, 454); (455, 457);
    (456, 457); (458, 460); (459, 460); (461, 462); (463, 464); (465, 466);
    (467, 468); (469, 470); (471, 472); (473, 474); (475, 476); (478, 479);
    (480, 481); (482, 483); (484, 485); (486, 487); (488, 489); (490, 491);
    (492, 493); (494, 495); (497, 499); (498, 499); (500, 501); (502, 405);
    (503, 447); (504, 505); (506, 507); (508, 509); (510, 511); (512, 513);
    (514, 515); (516, 517); (518, 519); (520, 521); (522, 523); (524, 525);
    (526, 527); (528, 529); (530, 531); (532, 533); (534, 535); (536, 537);
    (538, 539); (540, 541); (542, 543); (544, 414); (546, 547); (548, 549);
    (550, 551); (552, 553); (554, 555); (556, 557); (558, 559); (560, 561);
    (562, 563); (570, 11365); (571, 572); (573, 410); (574, 11366);
    (577, 578); (579, 384); (580, 649); (581, 652); (582, 583); (584, 585);
    (586, 587); (588, 589); (590, 591); (880, 881); (882, 883); (886, 887);
    (895, 1011); (902, 940); (904, 941); (905, 942); (906, 943); (908, 972);
    (910, 973); (911, 974); (913, 945); (914, 946); (915, 947); (916, 948);
    (917, 949); (918, 950); (919, 951); (920, 952); (921, 953); (922, 954);
    (923, 955); (924, 956); (925, 957); (926, 958); (927, 959); (928, 960);
    (929, 961); (931, 963); (932, 964); (933, 965); (934, 966); (935, 967);
    (936, 968); (937, 969); (938, 970); (939, 971); (975, 983); (984, 985);
    (986, 987); (988, 989); (990, 991); (992, 993); (994, 995); (996, 997);
    (998, 999); (1000, 1001); (1002, 1003); (1004, 1005); (1006, 1007);
    (1012, 952); (1015, 1016); (1017, 1010); (1018, 1019); (1021, 891);
    (1022, 892); (1023, 893); (1024, 1104); (1025, 1105); (1026, 1106);
    (1027, 1107); (1028, 1108); (1029, 1109); (1030, 1110); (1031, 1111);
    (1032, 1112); (1033, 1113); (1034, 1114); (1035, 1115); (1036, 1116);
    (1037, 1117); (1038, 1118); (1039, 1119); (1040, 1072); (1041, 1073);
    (1042, 1074); (1043, 1075); (1044, 1076); (1045, 1077); (1046, 1078);
    (1047, 1079); (1048, 1080); (1049, 1081); (1050, 1082); (1051, 1083);
    (1052, 1084); (1053, 1085); (1054, 1086); (1055, 1087); (1056, 1088);
    (1057, 1089); (1058, 1090); (1059, 1091); (1060, 1092); (1061, 1093);
    (1062, 1094); (1063, 1095); (1064, 1096); (1065, 1097); (1066, 1098);
    (1067, 1099); (1068, 1100); (1069, 1101); (1070, 1102); (1071, 1103);
    (1120, 1121); (1122, 1123); (1124, 1125); (1126, 1127); (1128, 1129);
    (1130, 1131); (1132, 1133); (1134, 1135); (1136, 1137); (1138, 1139);
    (1140, 1141); (1142, 1143); (1144, 1145); (1146, 1147); (1148, 1149);
    (1150, 1151); (1152, 1153); (1162, 1163); (1164, 1165); (1166, 1167);
    (1168, 1169); (1170, 1171); (1172, 1173); (1174, 1175); (1176, 1177);
    (1178, 1179); (1180, 1181); (1182, 1183); (1184, 1185); (1186, 1187);
    (1188, 1189); (1190, 1191); (1192, 1193); (1194, 1195); (1196, 1197);
    (1198, 1199); (1200, 1201); (1202, 1203); (1204, 1205); (1206, 1207);
    (1208, 1209); (1210, 1211); (1212, 1213); (1214, 1215); (1216, 1231);
    (1217, 1218); (1219, 1220); (1221, 1222); (1223, 1224); (1225, 1226);
    (1227, 1228); (1229, 1230); (1232, 1233); (1234, 1235); (1236, 1237);
    (1238, 1239); (1240, 1241); (1242, 1243); (1244, 1245); (1246, 1247);
    (1248, 1249); (1250, 1251); (1252, 1253); (1254, 1255); (1256, 1257);
    (1258, 1259); (1260, 1261); (1262, 1263); (1264, 1265); (1266, 1267);
    (1268, 1269); (1270, 1271); (1272, 1273); (1274, 1275); (1276, 1277);
    (1278, 1279); (1280, 1281); (1282, 1283); (1284, 1285); (1286, 1287);
    (1288, 1289); (1290, 1291); (1292, 1293); (1294, 1295); (1296, 1297);
    (1298, 1299); (1300, 1301); (1302, 1303); (1304, 1305); (1306, 1307);
    (1308, 1309); (1310, 1311); (1312, 1313); (1314, 1315); (1316, 1317);
    (1318, 1319); (1320, 1321); (1322, 1323); (1324, 1325); (1326, 1327);
    (1329, 1377); (1330, 1378); (1331, 1379); (1332, 1380); (1333, 1381);
    (1334, 1382); (1335, 1383); (1336, 1384); (1337, 1385); (1338, 1386);
    (1339, 1387); (1340, 1388); (1341, 1389); (1342, 1390); (1343, 1391);
    (1344, 1392); (1345, 1393); (1346, 1394); (1347, 1395); (1348, 1396);
    (1349, 1397); (1350, 1398); (1351, 1399); (1352, 1400); (1353, 1401);
    (1354, 1402); (1355, 1403); (1356, 1404); (1357, 1405); (1358, 1406);
    (1359, 1407); (1360, 1408); (1361, 1409); (1362, 1410); (1363, 1411);
    (1364, 1412); (1365, 1413); (1366, 1414); (4256, 11520); (4257, 11521);
    (4258, 11522); (4259, 11523); (4260, 11524); (4261, 11525); (4262, 11526);
    (4263, 11527); (4264, 11528); (4265, 11529); (4266, 11530); (4267, 11531);
    (4268, 11532); (4269, 11533); (4270, 11534); (4271, 11535); (4272, 11536);
    (4273, 11537); (4274, 11538); (4275, 11539); (4276, 11540); (4277, 11541);
    (4278, 11542); (4279, 11543); (4280, 11544); (4281, 11545); (4282, 11546);
    (4283, 11547); (4284, 11548); (4285, 11549); (4286, 11550); (4287, 11551);
    (4288, 11552); (4289, 11553); (4290, 11554); (4291, 11555); (4292, 11556);
    (4293, 11557); (4295, 11559); (4301, 11565); (5024, 43888); (5025, 43889);
    (5026, 43890); (5027, 43891); (5028, 43892); (5029, 43893); (5030, 43894);
    (5031, 43895); (5032, 43896); (5033, 43897); (5034, 43898); (5035, 43899);
    (5036, 43900); (5037, 43901); (5038, 43902); (5039, 43903); (5040, 43904);
    (5041, 43905); (5042, 43906); (5043, 43907); (5044, 43908); (5045, 43909);
    (5046, 43910); (5047, 43911); (5048, 43912); (5049, 43913); (5050, 43914);
    (5051, 43915); (5052, 43916); (5053, 43917); (5054, 43918); (5055, 43919);
    (5056, 43920); (5057, 43921); (5058, 43922); (5059, 43923); (5060, 43924);
    (5061, 43925); (5062, 43926); (5063, 43927); (5064, 43928); (5065, 43929);
    (5066, 43930); (5067, 43931); (5068, 43932); (5069, 43933); (5070, 43934);
    (5071, 43935); (5072, 43936); (5073, 43937); (5074, 43938); (5075, 43939);
    (5076, 43940); (5077, 43941); (5078, 43942); (5079, 43943); (5080, 43944);
    (5081, 43945); (5082, 43946); (5083, 43947); (5084, 43948); (5085, 43949);
    (5086, 43950); (5087, 43951); (5088, 43952); (5089, 43953); (5090, 43954);
    (5091, 43955); (5092, 43956); (5093, 43957); (5094, 43958); (5095, 43959);
    (5096, 43960); (5097, 43961); (5098, 43962); (5099, 43963); (5100, 43964);
    (5101, 43965); (5102, 43966); (5103, 43967); (5104, 5112); (5105, 5113);
    (5106, 5114); (5107, 5115); (5108, 5116); (5109, 5117); (7312, 4304);
    (7313, 4305); (7314, 4306); (7315, 4307); (7316, 4308); (7317, 4309);
    (7318, 4310); (7319, 4311); (7320, 4312); (7321, 4313); (7322, 4314);
    (7323, 4315); (7324, 4316); (7325, 4317); (7326, 4318); (7327, 4319);
    (7328, 4320); (7329, 4321); (7330, 4322); (7331, 4323); (7332, 4324);
    (7333, 4325); (7334, 4326); (7335, 4327); (7336, 4328); (7337, 4329);
    (7338, 4330); (7339, 4331); (7340, 4332); (7341, 4333); (7342, 4334);
    (7343, 4335); (7344, 4336); (7345, 4337); (7346, 4338); (7347, 4339);
    (7348, 4340); (7349, 4341); (7350, 4342); (7351, 4343); (7352, 4344);
    (7353, 4345); (7354, 4346); (7357, 4349); (7358, 4350); (7359, 4351);
    (7680, 7681); (7682, 7683); (7684, 7685); (7686, 7687); (7688, 7689);
    (7690, 7691); (7692, 7693); (7694, 7695); (7696, 7697); (7698, 7699);
    (7700, 7701); (7702, 7703); (7704, 7705); (7706, 7707); (7708, 7709);
    (7710, 7711); (7712, 7713); (7714, 7715); (7716, 7717); (7718, 7719);
    (7720, 7721); (7722, 7723); (7724, 7725); (7726, 7727); (7728, 7729);
    (7730, 7731); (7732, 7733); (7734, 7735); (7736, 7737); (7738, 7739);
    (7740, 7741); (7742, 7743); (7744, 7745); (7746, 7747); (7748, 7749);
    (7750, 7751); (7752, 7753); (7754, 7755); (7756, 7757); (7758, 7759);
    (7760, 7761); (7762, 7763); (7764, 7765); (7766, 7767); (7768, 7769);
    (7770, 7771); (7772, 7773); (7774, 7775); (7776, 7777); (7778, 7779);
    (7780, 7781); (7782, 7783); (7784, 7785); (7786, 7787); (7788, 7789);
    (7790, 7791); (7792, 7793); (7794, 7795); (7796, 7797); (7798, 7799);
    (7800, 7801); (7802, 7803); (7804, 7805); (7806, 7807); (7808, 7809);
    (7810, 7811); (7812, 7813); (7814, 7815); (7816, 7817); (7818, 7819);
    (7820, 7821); (7822, 7823); (7824, 7825); (7826, 7827); (7828, 7829);
    (7838, 223); (7840, 7841); (7842, 7843); (7844, 7845); (7846, 7847);
    (7848, 7849); (7850, 7851); (7852, 7853); (7854, 7855); (7856, 7857);
    (7858, 7859); (7860, 7861); (7862, 7863); (7864, 7865); (7866, 7867);
    (7868, 7869); (7870, 7871); (7872, 7873); (7874, 7875); (7876, 7877);
    (7878, 7879); (7880, 7881); (7882, 7883); (7884, 7885); (7886, 7887);
    (7888, 7889); (7890, 7891); (7892, 7893); (7894, 7895); (7896, 7897);
    (7898, 7899); (7900, 7901); (7902, 7903); (7904, 7905); (7906, 7907);
    (7908, 7909); (7910, 7911); (7912, 7913); (7914, 7915); (7916, 7917);
    (7918, 7919); (7920, 7921); (7922, 7923); (7924, 7925); (7926, 7927);
    (7928, 7929); (7930, 7931); (7932, 7933); (7934, 7935); (7944, 7936);
    (7945, 7937); (7946, 7938); (7947, 7939); (7948, 7940); (7949, 7941);
    (7950, 7942); (7951, 7943); (7960, 7952); (7961, 7953); (7962, 7954);
    (7963, 7955); (7964, 7956); (7965, 7957); (7976, 7968); (7977, 7969);
    (7978, 7970); (7979, 7971); (7980, 7972); (7981, 7973); (7982, 7974);
    (7983, 7975); (7992, 7984); (7993, 7985); (7994, 7986); (7995, 7987);
    (7996, 7988); (7997, 7989); (7998, 7990); (7999, 7991); (8008, 8000);
    (8009, 8001); (8010, 8002); (8011, 8003); (8012, 8004); (8013, 8005);
    (8025, 8017); (8027, 8019); (8029, 8021); (8031, 8023); (8040, 8032);
    (8041, 8033); (8042, 8034); (8043, 8035); (8044, 8036); (8045, 8037);
    (8046, 8038); (8047, 8039); (8072, 8064); (8073, 8065); (8074, 8066);
    (8075, 8067); (8076, 8068); (8077, 8069); (8078, 8070); (8079, 8071);
    (8088, 8080); (8089, 8081); (8090, 8082); (8091, 8083); (8092, 8084);
    (8093, 8085); (8094, 8086); (8095, 8087); (8104, 8096); (8105, 8097);
    (8106, 8098); (8107, 8099); (8108, 8100); (8109, 8101); (8110, 8102);
    (8111, 8103); (8120, 8112); (8121, 8113); (8122, 8048); (8123, 8049);
    (8124, 8115); (8136, 8050); (8137, 8051); (8138, 8052); (8139, 8053);
    (8140, 8131); (8152, 8144); (8153, 8145); (8154, 8054); (8155, 8055);
    (8168, 8160); (8169, 8161); (8170, 8058); (8171, 8059); (8172, 8165);
    (8184, 8056); (8185, 8057); (8186, 8060); (8187, 8061); (8188, 8179);
    (8486, 969); (8490, 107); (8491, 229); (8498, 8526); (8544, 8560);
    (8545, 8561); (8546, 8562); (8547, 8563); (8548, 8564); (8549, 8565);
    (8550, 8566); (8551, 8567); (8552, 8568); (8553, 8569); (8554, 8570);
    (8555, 8571); (8556, 8572); (8557, 8573); (8558, 8574); (8559, 8575);
    (8579, 8580); (9398, 9424); (9399, 9425); (9400, 9426); (9401, 9427);
    (9402, 9428); (9403, 9429); (9404, 9430); (9405, 9431); (9406, 9432);
    (9407, 9433); (9408, 9434); (9409, 9435); (9410, 9436); (9411, 9437);
    (9412, 9438); (9413, 9439); (9414, 9440); (9415, 9441); (9416, 9442);
    (9417, 9443); (9418, 9444); (9419, 9445); (9420, 9446); (9421, 9447);
    (9422, 9448); (9423, 9449); (11264, 11312); (11265, 11313);
    (11266, 11314); (11267, 11315); (11268, 11316); (11269, 11317);
    (11270, 11318); (11271, 11319); (11272, 11320); (11273, 11321);
    (11274, 11322); (11275, 11323); (11276, 11324); (11277, 11325);
    (11278, 11326); (11279, 11327); (11280, 11328); (11281, 11329);
    (11282, 11330); (11283, 11331); (11284, 11332); (11285, 11333);
    (11286, 11334); (11287, 11335); (11288, 11336); (11289, 11337);
    (11290, 11338); (11291, 11339); (11292, 11340); (11293, 11341);
    (11294, 11342); (11295, 11343); (11296, 11344); (11297, 11345);
    (11298, 11346); (11299, 11347); (11300, 11348); (11301, 11349);
    (11302, 11350); (11303, 11351); (11304, 11352); (11305, 11353);
    (11306, 11354); (11307, 11355); (11308, 11356); (11309, 11357);
    (11310, 11358); (11311, 11359); (11360, 11361); (11362, 619);
    (11363, 7549); (11364, 637); (11367, 11368); (11369, 11370);
    (11371, 11372); (11373, 593); (11374, 625); (11375, 592); (11376, 594);
    (11378, 11379); (11381, 11382); (11390, 575); (11391, 576);
    (11392, 11393); (11394, 11395); (11396, 11397); (11398, 11399);
    (11400, 11401); (11402, 11403); (11404, 11405); (11406, 11407);
    (11408, 11409); (11410, 11411); (11412, 11413); (11414, 11415);
    (11416, 11417); (11418, 11419); (11420, 11421); (11422, 11423);
    (11424, 11425); (11426, 11427); (11428, 11429); (11430, 11431);
    (11432, 11433); (11434, 11435); (11436, 11437); (11438, 11439);
    (11440, 11441); (11442, 11443); (11444, 11445); (11446, 11447);
    (11448, 11449); (11450, 11451); (11452, 11453); (11454, 11455);
    (11456, 11457); (11458, 11459); (11460, 11461); (11462, 11463);
    (11464, 11465); (11466, 11467); (11468, 11469); (11470, 11471);
    (11472, 11473); (11474, 11475); (11476, 11477); (11478, 11479);
    (11480, 11481); (11482, 11483); (11484, 11485); (11486, 11487);
    (11488, 11489); (11490, 11491); (11499, 11500); (11501, 11502);
    (11506, 11507); (42560, 42561); (42562, 42563); (42564, 42565);
    (42566, 42567); (42568, 42569); (42570, 42571); (42572, 42573);
    (42574, 42575); (42576, 42577); (42578, 42579); (42580, 42581);
    (42582, 42583); (42584, 42585); (42586, 42587); (42588, 42589);
    (42590, 42591); (42592, 42593); (42594, 42595); (42596, 42597);
    (42598, 42599); (42600, 42601); (42602, 42603); (42604, 42605);
    (42624, 42625); (42626, 42627); (42628, 42629); (42630, 42631);
    (42632, 42633); (42634, 42635); (42636, 42637); (42638, 42639);
    (42640, 42641); (42642, 42643); (42644, 42645); (42646, 42647);
    (42648, 42649); (42650, 42651); (42786, 42787); (42788, 42789);
    (42790, 42791); (42792, 42793); (42794, 42795); (42796, 42797);
    (42798, 42799); (42802, 42803); (42804, 42805); (42806, 42807);
    (42808, 42809); (42810, 42811); (42812, 42813); (42814, 42815);
    (42816, 42817); (42818, 42819); (42820, 42821); (42822, 42823);
    (42824, 42825); (42826, 42827); (42828, 42829); (42830, 42831);
    (42832, 42833); (42834, 42835); (42836, 42837); (42838, 42839);
    (42840, 42841); (42842, 42843); (42844, 42845); (42846, 42847);
    (42848, 42849); (42850, 42851); (42852, 42853); (42854, 42855);
    (42856, 42857); (42858, 42859); (42860, 42861); (42862, 42863);
    (42873, 42874); (42875, 42876); (42877, 7545); (42878, 42879);
    (42880, 42881); (42882, 42883); (42884, 42885); (42886, 42887);
    (42891, 42892); (42893, 613); (42896, 42897); (42898, 42899);
    (42902, 42903); (42904, 42905); (42906, 42907); (42908, 42909);
    (42910, 42911); (42912, 42913); (42914, 42915); (42916, 42917);
    (42918, 42919); (42920, 42921); (42922, 614); (42923, 604); (42924, 609);
    (42925, 620); (42926, 618); (42928, 670); (42929, 647); (42930, 669);
    (42931, 43859); (42932, 42933); (42934, 42935); (42936, 42937);
    (42938, 42939); (42940, 42941); (42942, 42943); (42944, 42945);
    (42946, 42947); (42948, 42900); (42949, 642); (42950, 7566);
    (42951, 42952); (42953, 42954); (42960, 42961); (42966, 42967);
    (42968, 42969); (42997, 42998); (65313, 65345); (65314, 65346);
    (65315, 65347); (65316, 65348); (65317, 65349); (65318, 65350);
    (65319, 65351); (65320, 65352); (65321, 65353); (65322, 65354);
    (65323, 65355); (65324, 65356); (65325, 65357); (65326, 65358);
    (65327, 65359); (65328, 65360); (65329, 65361); (65330, 65362);
    (65331, 65363); (65332, 65364); (65333, 65365); (65334, 65366);
    (65335, 65367); (65336, 65368); (65337, 65369); (65338, 65370);
    (66560, 66600); (66561, 66601); (66562, 66602); (66563, 66603);
    (66564, 66604); (66565, 66605); (66566, 66606); (66567, 66607);
    (66568, 66608); (66569, 66609); (66570, 66610); (66571, 66611);
    (66572, 66612); (66573, 66613); (66574, 66614); (66575, 66615);
    (66576, 66616); (66577, 66617); (66578, 66618); (66579, 66619);
    (66580, 66620); (66581, 66621); (66582, 66622); (66583, 66623);
    (66584, 66624); (66585, 66625); (66586, 66626); (66587, 66627);
    (66588, 66628); (66589, 66629); (66590, 66630); (66591, 66631);
    (66592, 66632); (66593, 66633); (66594, 66634); (66595, 66635);
    (66596, 66636); (66597, 66637); (66598, 66638); (66599, 66639);
    (66736, 66776); (66737, 66777); (66738, 66778); (66739, 66779);
    (66740, 66780); (66741, 66781); (66742, 66782); (66743, 66783);
    (66744, 66784); (66745, 66785); (66746, 66786); (66747, 66787);
    (66748, 66788); (66749, 66789); (66750, 66790); (66751, 66791);
    (66752, 66792); (66753, 66793); (66754, 66794); (66755, 66795);
    (66756, 66796); (66757, 66797); (66758, 66798); (66759, 66799);
    (66760, 66800); (66761, 66801); (66762, 66802); (66763, 66803);
    (66764, 66804); (66765, 66805); (66766, 66806); (66767, 66807);
    (66768, 66808); (66769, 66809); (66770, 66810); (66771, 66811);
    (66928, 66967); (66929, 66968); (66930, 66969); (66931, 66970);
    (66932, 66971); (66933, 66972); (66934, 66973); (66935, 66974);
    (66936, 66975); (66937, 66976); (66938, 66977); (66940, 66979);
    (66941, 66980); (66942, 66981); (66943, 66982); (66944, 66983);
    (66945, 66984); (66946, 66985); (66947, 66986); (66948, 66987);
    (66949, 66988); (66950, 66989); (66951, 66990); (66952, 66991);
    (66953, 66992); (66954, 66993); (66956, 66995); (66957, 66996);
    (66958, 66997); (66959, 66998); (66960, 66999); (66961, 67000);
    (66962, 67001); (66964, 67003); (66965, 67004); (68736, 68800);
    (68737, 68801); (68738, 68802); (68739, 68803); (68740, 68804);
    (68741, 68805); (68742, 68806); (68743, 68807); (68744, 68808);
    (68745, 68809); (68746, 68810); (68747, 68811); (68748, 68812);
    (68749, 68813); (68750, 68814); (68751, 68815); (68752, 68816);
    (68753, 68817); (68754, 68818); (68755, 68819); (68756, 68820);
    (68757, 68821); (68758, 68822); (68759, 68823); (68760, 68824);
    (68761, 68825); (68762, 68826); (68763, 68827); (68764, 68828);
    (68765, 68829); (68766, 68830); (68767, 68831); (68768, 68832);
    (68769, 68833); (68770, 68834); (68771, 68835); (68772, 68836);
    (68773, 68837); (68774, 68838); (68775, 68839); (68776, 68840);
    (68777, 68841); (68778, 68842); (68779, 68843); (68780, 68844);
    (68781, 68845); (68782, 68846); (68783, 68847); (68784, 68848);
    (68785, 68849); (68786, 68850); (71840, 71872); (71841, 71873);
    (71842, 71874); (71843, 71875); (71844, 71876); (71845, 71877);
    (71846, 71878); (71847, 71879); (71848, 71880); (71849, 71881);
    (71850, 71882); (71851, 71883); (71852, 71884); (71853, 71885);
    (71854, 71886); (71855, 71887); (71856, 71888); (71857, 71889);
    (71858, 71890); (71859, 71891); (71860, 71892); (71861, 71893);
    (71862, 71894); (71863, 71895); (71864, 71896); (71865, 71897);
    (71866, 71898); (71867, 71899); (71868, 71900); (71869, 71901);
    (71870, 71902); (71871, 71903); (93760, 93792); (93761, 93793);
    (93762, 93794); (93763, 93795); (93764, 93796); (93765, 93797);
    (93766, 93798); (93767, 93799); (93768, 93800); (93769, 93801);
    (93770, 93802); (93771, 93803); (93772, 93804); (93773, 93805);
    (93774, 93806); (93775, 93807); (93776, 93808); (93777, 93809);
    (93778, 93810); (93779, 93811); (93780, 93812); (93781, 93813);
    (93782, 93814); (93783, 93815); (93784, 93816); (93785, 93817);
    (93786, 93818); (93787, 93819); (93788, 93820); (93789, 93821);
    (93790, 93822); (93791, 93823); (125184, 125218); (125185, 125219);
    (125186, 125220); (125187, 125221); (125188, 125222); (125189, 125223);
    (125190, 125224); (125191, 125225); (125192, 125226); (125193, 125227);
    (125194, 125228); (125195, 125229); (125196, 125230); (125197, 125231);
    (125198, 125232); (125199, 125233); (125200, 125234); (125201, 125235);
    (125202, 125236); (125203, 125237); (125204, 125238); (125205, 125239);
    (125206, 125240); (125207, 125241); (125208, 125242); (125209, 125243);
    (125210, 125244); (125211, 125245); (125212, 125246); (125213, 125247);
    (125214, 125248); (125215, 125249); (125216, 125250); (125217, 125251)
  ]%N.

(** *** Code points of a [str] *)

Definition REPLACEMENT : N := 65533.

(** A continuation byte of UTF-8. *)
Definition is_cont (b : N) : bool := between 128 191 b.

(** The first code point of [s] with its bytes, and what follows it. *)
Definition first_chunk (s : string) : option ((N * string) * string) :=
  match s with
  | EmptyString => None
  | String a1 r1 =>
      let b1 := code a1 in
      let single (cp : N) := Some ((cp, String a1 EmptyString), r1) in
      if (b1 <? 128)%N then single b1
      else
        match r1 with
        | EmptyString => single REPLACEMENT
        | String a2 r2 =>
            let b2 := code a2 in
            if between 192 223 b1 && is_cont b2 then
              Some ((((b1 - 192) * 64 + (b2 - 128))%N,
                     String a1 (String a2 EmptyString)), r2)
            else
              match r2 with
              | EmptyString => single REPLACEMENT
              | String a3 r3 =>
                  let b3 := code a3 in
                  if between 224 239 b1 && is_cont b2 && is_cont b3 then
                    Some ((((b1 - 224) * 4096 + (b2 - 128) * 64 + (b3 - 128))%N,
                           String a1 (String a2 (String a3 EmptyString))), r3)
                  else
                    match r3 with
                    | EmptyString => single REPLACEMENT
                    | String a4 r4 =>
                        let b4 := code a4 in
                        if between 240 247 b1 && is_cont b2 && is_cont b3
                           && is_cont b4 then
                          Some ((((b1 - 240) * 262144 + (b2 - 128) * 4096
                                  + (b3 - 128) * 64 + (b4 - 128))%N,
                                 String a1 (String a2 (String a3 (String a4 EmptyString)))),
                                r4)
                        else single REPLACEMENT
                    end
              end
        end
  end.

(** The code points of [s], each with its bytes; no string has more code
    points than bytes. *)
Fixpoint chunks_upto (n : nat) (s : string) : list (N * string) :=
  match n with
  | O => []
  | S n' =>
      match first_chunk s with
      | Some (c, rest) => c :: chunks_upto n' rest
      | None => []
      end
  end.

Definition chunks (s : string) : list (N * string) :=
  chunks_upto (String.length s) s.

(** The code points of a [str]. *)
Definition decode (s : string) : list N := (chunks s).*1.

(** The bytes of a run of code points. *)
Definition join (l : list (N * string)) : string :=
  foldr (λ c acc, c.2 +:+ acc) EmptyString l.

(** [len]: the number of code points. *)
Definition len (s : string) : Z := Z.of_nat (length (chunks s)).

(** *** [str.strip] *)

(** [str.isspace] on one code point. *)
Definition is_space (c : N) : bool := in_ranges SPACE_RANGES c.

(** What is left of a sequence once the leading, or the trailing, elements
    that [sp] holds of are removed. *)
Fixpoint ltrim {A} (sp : A → bool) (l : list A) : list A :=
  match l with
  | [] => []
  | x :: r => if sp x then ltrim sp r else l
  end.

Fixpoint rtrim {A} (sp : A → bool) (l : list A) : list A :=
  match l with
  | [] => []
  | x :: r =>
      match rtrim sp r with
      | [] => if sp x then [] else [x]
      | r' => x :: r'
      end
  end.

(** [str.strip()] *)
Definition strip (s : string) : string :=
  join (rtrim (λ c, is_space c.1) (ltrim (λ c, is_space c.1) (chunks s))).

(** *** [str.lower] *)

Definition is_cased (c : N) : bool := in_ranges CASED_RANGES c.

Definition is_case_ignorable (c : N) : bool := in_ranges IGNORABLE_RANGES c.

(** The lower case of one code point other than the capital sigma; U+0130
    is the one code point whose lower case is two code points long. *)
Definition lower_cp (c : N) : list N :=
  if (c =? 304)%N then [105; 775]%N
  else [default c (assoc c LOWER_TABLE)].

(** A capital sigma is in final position when the nearest code point before
    it that is not case-ignorable is cased, and the nearest one after it
    that is not case-ignorable is not; [prev] is what precedes the sigma,
    the nearest code point first, and [rest] what follows it. *)
Definition final_sigma (prev rest : list N) : bool :=
  match ltrim is_case_ignorable prev with
  | c :: _ =>
      is_cased c
      && match ltrim is_case_ignorable rest with
         | c' :: _ => negb (is_cased c')
         | [] => true
         end
  | [] => false
  end.

Fixpoint lower_go (prev s : list N) : list N :=
  match s with
  | [] => []
  | c :: r =>
      ((if (c =? 931)%N
        then [if final_sigma prev r then 962 else 963]%N
        else lower_cp c) ++ lower_go (c :: prev) r)%list
  end.

(** [str.lower] *)
Definition lower (s : list N) : list N := lower_go [] s.

(** *** [re.findall(r"\w+", ...)] *)

(** The class [\w]. *)
Definition is_word (c : N) : bool := in_ranges WORD_RANGES c.

(** The token under construction is closed when a non-word character or
    the end of the text is met. *)
Definition flush (cur : list N) : list (list N) :=
  match cur with [] => [] | _ => [cur] end.

Fixpoint findall_go (cur s : list N) : list (list N) :=
  match s with
  | [] => flush cur
  | c :: s' =>
      if is_word c then findall_go (cur ++ [c]) s'
      else (flush cur ++ findall_go [] s')%list
  end.

(** [re.findall(r"\w+", s)]: the maximal runs of word characters, in order. *)
Definition findall_w (s : list N) : list (list N) := findall_go [] s.

(** *** The filter *)

Definition PROFANITY_WORDS : list string :=
  [ "idiot"; "stupid"; "dumb"; "moron"; "retard"; "imbecile"; "fool";
    "bastard"; "asshole"; "bitch"; "crap"; "fuck"; "shit"; "piss";
    "cock"; "dick"; "pussy"; "whore"; "slut"; "cunt"; "nigger";
    "faggot"; "retarded"; "loser"; "scum"; "trash"; "garbage";
    "yenya"; "leba"; "ahiya"; "wusha"; "dedeb"; "goblata";
    "shilegna"; "baldeg"; "gmatam"; "neger"; "wend";
    "gaafii"; "waraana" ].

(** [PROFANITY_SET], each word as its code points. *)
Definition PROFANITY_SET : gset (list N) :=
  list_to_set (decode <$> PROFANITY_WORDS).

(** [any(w in PROFANITY_SET for w in re.findall(r"\w+", text.lower()))] *)
Definition contains_profanity (text : string) : bool :=
  existsb (λ w, bool_decide (w ∈ PROFANITY_SET))
    (findall_w (lower (decode text))).

(** *** Tokens *)

(** Every code point of [s] is a word character. *)
Definition all_word (s : list N) : bool := forallb is_word s.

(** [s] is empty or starts with a non-word character. *)
Definition starts_nonword (s : list N) : bool :=
  match s with [] => true | c :: _ => negb (is_word c) end.

(** [s] is empty or ends with a non-word character. *)
Definition ends_nonword (s : list N) : bool :=
  match last s with None => true | Some c => negb (is_word c) end.

(** [text] has the token [w]: a non-empty run of word characters that is
    not part of a longer run. *)
Definition has_token (w text : list N) : Prop :=
  ∃ pre post, text = (pre ++ w ++ post)%list
    ∧ w ≠ [] ∧ all_word w = true
    ∧ ends_nonword pre = true ∧ starts_nonword post = true.

(** [text] contains a forbidden token: one of its tokens, lowercased, is in
    the profanity set. *)
Definition has_forbidden_token (text : string) : Prop :=
  ∃ w, has_token w (decode text) ∧ lower w ∈ PROFANITY_SET.

Arguments is_space : simpl never.
Arguments is_word : simpl never.
Arguments is_cased : simpl never.
Arguments is_case_ignorable : simpl never.
Arguments lower_cp : simpl never.
Arguments chunks : simpl never.
Arguments strip : simpl never.
Arguments len : simpl never.
Arguments contains_profanity : simpl never.

End Text.

(* ====================================================================== *)
(** ** The bot's world: collections, caches, sessions, environment *)
(* ====================================================================== *)

Module Bot.
Import Text.

Definition MAX_REVIEWS_PER_HOUR  : Z := 5.
Definition MAX_PROFANITY_STRIKES : Z := 3.
Definition ADMIN_ID              : Z := 5113670239.
Definition CHANNEL_ID            : Z := -1001003881172658.

(** A [datetime] is its number of microseconds; [isoformat] followed by
    [fromisoformat] gives the same [datetime] back, so the strings kept in
    the [ratelimits] collection are modelled by the instants themselves.
    [HOUR] is [timedelta(hours=1)]. *)
Definition HOUR : Z := 3600000000.

(** [class Draft] *)
Record Draft := mkDraft {
  d_id            : string;
  d_stream        : string;
  d_year          : string;
  d_subject       : string;
  d_teacher       : string;
  d_rating        : Z;
  d_content       : string;
  d_is_additional : bool;
  d_parent_msg_id : option Z;
  d_ts            : Z;
}.

(** [class Session] *)
Record Session := mkSession {
  s_uid            : Z;
  draft            : option Draft;
  drafts           : list Draft;
  subject_page     : Z;
  current_subjects : list string;
}.

(** The dict stored under [pending_<draft id>] by [do_submit]. *)
Record PendingData := mkPending {
  p_stream        : string;
  p_year          : string;
  p_subject       : string;
  p_teacher       : string;
  p_rating        : Z;
  p_content       : string;
  p_parent_msg_id : option Z;
  p_is_additional : bool;
  p_user_id       : Z;
}.

(** The dict stored under a fresh deep-link token by [_approve]. *)
Record ResumeData := mkResume {
  r_stream        : string;
  r_year          : string;
  r_subject       : string;
  r_teacher       : string;
  r_parent_msg_id : Z;
}.

(** A document of the [contexts] collection holds one of the two dicts. *)
Inductive CtxData :=
  | Pending (p : PendingData)
  | Resume (r : ResumeData).

(** [data.get("stream", "")] and friends, as [cmd_start] reads them. *)
Definition ctx_stream (c : CtxData) : string :=
  match c with Pending p => p_stream p | Resume r => r_stream r end.
Definition ctx_year (c : CtxData) : string :=
  match c with Pending p => p_year p | Resume r => r_year r end.
Definition ctx_subject (c : CtxData) : string :=
  match c with Pending p => p_subject p | Resume r => r_subject r end.
Definition ctx_teacher (c : CtxData) : string :=
  match c with Pending p => p_teacher p | Resume r => r_teacher r end.
(** [data.get("parent_msg_id")] *)
Definition ctx_parent_msg_id (c : CtxData) : option Z :=
  match c with Pending p => p_parent_msg_id p | Resume r => Some (r_parent_msg_id r) end.

(** A document of the [reviews] collection. *)
Record Review := mkReview {
  rv_teacher   : string;
  rv_subject   : string;
  rv_stream    : string;
  rv_year      : string;
  rv_rating    : Z;
  rv_content   : string;
  rv_timestamp : Z;
  rv_msg_id    : Z;
}.

(** [telegram.User], as far as the handlers read it. *)
Record TgUser := mkUser {
  tg_id         : Z;
  tg_first_name : string;
  tg_username   : string;
}.

(** A document of the [users] collection. *)
Record UserDoc := mkUserDoc {
  u_name     : string;
  u_username : string;
  u_joined   : Z;
}.

(** The states of the conversation ([range(8)]) and [ConversationHandler.END]. *)
Inductive ConvState :=
  | ST_STREAM | ST_YEAR | ST_SUBJECT | ST_TEACHER
  | ST_RATING | ST_CONTENT | ST_BATCH | ST_MANAGE | END.

(** What the bot says.  A message is represented by the template it is built
    from and the values put into it; the deep link of a channel post is
    represented by its token. *)
Inductive Body :=
  | ERR_BANNED
  | WELCOME
  | WELCOME_DEEP (teacher subject : string)
  | LINK_EXPIRED
  | RATING_SET (rating : Z)
  | ERR_SHORT_REVIEW
  | ERR_PROFANITY_STRIKE (strikes : Z)
  | ERR_PROFANITY_BANNED
  | SUCCESS_DRAFT_SAVED (summary : list (string * Z))
  | ERR_NO_DATA
  | TRANSMITTING
  | ERR_RATE_LIMIT (submitted : Z)
  | SUCCESS_SUBMITTED
  | ADMIN_REVIEW (display : string) (uid : Z) (d : Draft)
  | PENDING_NOT_FOUND
  | CHANNEL_POST (rev_id : string) (is_additional : bool)
      (subject teacher : string) (rating : Z) (content : string)
      (token : string)
  | CHANNEL_POST_FAILED
  | APPROVED (invite : option Z)
  | APPROVED_AND_POSTED.

(** One call of the transport: the chat, the message, the message replied
    to, and whether the call returned ([false]: it raised). *)
Record Sent := mkSent {
  to        : Z;
  body      : Body;
  reply_to  : option Z;
  delivered : bool;
}.

(** Everything a handler can read or change.  The collections of
    [class Database] and its two caches, the module-level [_sessions], the
    messages handed to the transport so far, and the environment: the
    successive values of [datetime.now()] and [uuid.uuid4()], and the outcome
    of each transport call made inside a [try] ([None]: the call raises;
    [Some m]: it returns, [m] being the id of the message or link made).
    Transport and database calls outside a [try] are taken to return. *)
Record World := mkWorld {
  banned_cache  : gset Z;
  bans          : gset Z;
  contexts      : gmap string CtxData;
  reviews       : list Review;
  users         : gmap string UserDoc;
  violations    : gmap string Z;
  ratelimits    : gmap string (list Z);
  members_cache : gset Z;
  members       : gset Z;
  sessions      : gmap Z Session;
  outbox        : list Sent;
  clock         : nat → Z;
  ticks         : nat;
  uuids         : nat → string;
  n_uuid        : nat;
  net           : nat → option Z;
  n_net         : nat;
  first_names   : Z → string;
}.

Definition set_banned (f : gset Z → gset Z) (w : World) : World :=
  mkWorld (f (banned_cache w)) (f (bans w)) (contexts w) (reviews w) (users w)
    (violations w) (ratelimits w) (members_cache w) (members w) (sessions w)
    (outbox w) (clock w) (ticks w) (uuids w) (n_uuid w) (net w) (n_net w)
    (first_names w).
Definition set_contexts (f : gmap string CtxData → gmap string CtxData) (w : World) : World :=
  mkWorld (banned_cache w) (bans w) (f (contexts w)) (reviews w) (users w)
    (violations w) (ratelimits w) (members_cache w) (members w) (sessions w)
    (outbox w) (clock w) (ticks w) (uuids w) (n_uuid w) (net w) (n_net w)
    (first_names w).
Definition set_reviews (f : list Review → list Review) (w : World) : World :=
  mkWorld (banned_cache w) (bans w) (contexts w) (f (reviews w)) (users w)
    (violations w) (ratelimits w) (members_cache w) (members w) (sessions w)
    (outbox w) (clock w) (ticks w) (uuids w) (n_uuid w) (net w) (n_net w)
    (first_names w).
Definition set_users (f : gmap string UserDoc → gmap string UserDoc) (w : World) : World :=
  mkWorld (banned_cache w) (bans w) (contexts w) (reviews w) (f (users w))
    (violations w) (ratelimits w) (members_cache w) (members w) (sessions w)
    (outbox w) (clock w) (ticks w) (uuids w) (n_uuid w) (net w) (n_net w)
    (first_names w).
Definition set_violations (f : gmap string Z → gmap string Z) (w : World) : World :=
  mkWorld (banned_cache w) (bans w) (contexts w) (reviews w) (users w)
    (f (violations w)) (ratelimits w) (members_cache w) (members w) (sessions w)
    (outbox w) (clock w) (ticks w) (uuids w) (n_uuid w) (net w) (n_net w)
    (first_names w).
Definition set_ratelimits (f : gmap string (list Z) → gmap string (list Z)) (w : World) : World :=
  mkWorld (banned_cache w) (bans w) (contexts w) (reviews w) (users w)
    (violations w) (f (ratelimits w)) (members_cache w) (members w) (sessions w)
    (outbox w) (clock w) (ticks w) (uuids w) (n_uuid w) (net w) (n_net w)
    (first_names w).
Definition set_members (f : gset Z → gset Z) (w : World) : World :=
  mkWorld (banned_cache w) (bans w) (contexts w) (reviews w) (users w)
    (violations w) (ratelimits w) (f (members_cache w)) (f (members w)) (sessions w)
    (outbox w) (clock w) (ticks w) (uuids w) (n_uuid w) (net w) (n_net w)
    (first_names w).
Definition set_sessions (f : gmap Z Session → gmap Z Session) (w : World) : World :=
  mkWorld (banned_cache w) (bans w) (contexts w) (reviews w) (users w)
    (violations w) (ratelimits w) (members_cache w) (members w) (f (sessions w))
    (outbox w) (clock w) (ticks w) (uuids w) (n_uuid w) (net w) (n_net w)
    (first_names w).
Definition set_outbox (f : list Sent → list Sent) (w : World) : World :=
  mkWorld (banned_cache w) (bans w) (contexts w) (reviews w) (users w)
    (violations w) (ratelimits w) (members_cache w) (members w) (sessions w)
    (f (outbox w)) (clock w) (ticks w) (uuids w) (n_uuid w) (net w) (n_net w)
    (first_names w).
Definition tick (w : World) : World :=
  mkWorld (banned_cache w) (bans w) (contexts w) (reviews w) (users w)
    (violations w) (ratelimits w) (members_cache w) (members w) (sessions w)
    (outbox w) (clock w) (S (ticks w)) (uuids w) (n_uuid w) (net w) (n_net w)
    (first_names w).
Definition next_uuid (w : World) : World :=
  mkWorld (banned_cache w) (bans w) (contexts w) (reviews w) (users w)
    (violations w) (ratelimits w) (members_cache w) (members w) (sessions w)
    (outbox w) (clock w) (ticks w) (uuids w) (S (n_uuid w)) (net w) (n_net w)
    (first_names w).
Definition next_net (w : World) : World :=
  mkWorld (banned_cache w) (bans w) (contexts w) (reviews w) (users w)
    (violations w) (ratelimits w) (members_cache w) (members w) (sessions w)
    (outbox w) (clock w) (ticks w) (uuids w) (n_uuid w) (net w) (S (n_net w))
    (first_names w).

(** The world at start-up with empty collections and no session. *)
Definition start_world (clock : nat → Z) (uuids : nat → string)
    (net : nat → option Z) (first_names : Z → string) : World :=
  mkWorld ∅ ∅ ∅ [] ∅ ∅ ∅ ∅ ∅ ∅ [] clock 0 uuids 0 net 0 first_names.

(** *** Handlers as state transformers that may raise *)

Inductive exn := AttributeError | KeyError.

Inductive result (A : Type) :=
  | Ok (a : A)
  | Raised (e : exn).
Arguments Ok {A} a.
Arguments Raised {A} e.

Definition M (A : Type) : Type := World → result A * World.

Definition ret {A} (a : A) : M A := λ w, (Ok a, w).

Definition bind {A B} (m : M A) (k : A → M B) : M B :=
  λ w, match m w with
       | (Ok a, w') => k a w'
       | (Raised e, w') => (Raised e, w')
       end.

Definition raise {A} (e : exn) : M A := λ w, (Raised e, w).

Definition gets {A} (f : World → A) : M A := λ w, (Ok (f w), w).

Definition modify (f : World → World) : M unit := λ w, (Ok tt, f w).

Declare Scope bot_scope.
Delimit Scope bot_scope with bot.
Notation "x <- m ;; k" := (bind m (λ x, k))
  (at level 100, m at next level, right associativity) : bot_scope.
Notation "m ;;; k" := (bind m (λ _, k))
  (at level 100, right associativity) : bot_scope.
Local Open Scope bot_scope.

(** [datetime.now()] *)
Definition now : M Z := λ w, (Ok (clock w (ticks w)), tick w).

(** [str(uuid.uuid4())] *)
Definition uuid4 : M string := λ w, (Ok (uuids w (n_uuid w)), next_uuid w).

(** The outcome of the next transport call that sits inside a [try]. *)
Definition attempt : M (option Z) := λ w, (Ok (net w (n_net w)), next_net w).

Definition record_sent (m : Sent) : M unit :=
  modify (set_outbox (λ o, (o ++ [m])%list)).

(** A message that went out, in reply to nothing. *)
Definition notice (chat : Z) (b : Body) : Sent :=
  {| to := chat; body := b; reply_to := None; delivered := true |}.

(** A transport call outside any [try]. *)
Definition send (chat : Z) (b : Body) : M unit := record_sent (notice chat b).

(** A transport call inside [try: ... except ...]. *)
Definition try_send (chat : Z) (b : Body) (reply : option Z) : M (option Z) :=
  r <- attempt ;;
  record_sent {| to := chat; body := b; reply_to := reply;
                 delivered := bool_decide (is_Some r) |} ;;;
  ret r.

(** *** [class Database] *)

(** [is_banned] *)
Definition is_banned (uid : Z) : M bool :=
  gets (λ w, bool_decide (uid ∈ banned_cache w)).

(** [ban]: the cache and the [bans] collection both get the user. *)
Definition ban (uid : Z) : M unit := modify (set_banned (λ b, {[uid]} ∪ b)).

(** [set_ctx]: upsert of the whole [data] under [key]. *)
Definition set_ctx (key : string) (data : CtxData) : M unit :=
  modify (set_contexts (λ c, <[key := data]> c)).

(** [get_ctx] *)
Definition get_ctx (key : string) : M (option CtxData) :=
  gets (λ w, contexts w !! key).

(** [add_review] *)
Definition add_review (r : Review) : M unit :=
  modify (set_reviews (λ l, (l ++ [r])%list)).

(** [register]: [$setOnInsert] with upsert writes only when the user has no
    document yet; [datetime.now()] is read in any case. *)
Definition register (user : TgUser) : M unit :=
  t <- now ;;
  modify (set_users (λ u,
    match u !! str (tg_id user) with
    | Some _ => u
    | None => <[str (tg_id user) :=
                 {| u_name := tg_first_name user;
                    u_username := tg_username user;
                    u_joined := t |}]> u
    end)).

(** [add_approved_member] *)
Definition add_approved_member (uid : Z) : M unit :=
  modify (set_members (λ m, {[uid]} ∪ m)).

(** [add_violation]: [$inc] with upsert, the document after the update is
    returned and its count read. *)
Definition add_violation (uid : Z) : M Z :=
  λ w, let count := default 0 (violations w !! str uid) + 1 in
       (Ok count, set_violations (λ v, <[str uid := count]> v) w).

(** The body of [rate_limit_ok] once [now] has been read: the timestamps of
    the last hour are kept; at the ceiling nothing is written. *)
Definition rate_limit_at (now_ : Z) (uid : Z) (rl : gmap string (list Z))
    : bool * gmap string (list Z) :=
  let uid_str := str uid in
  let cutoff := now_ - HOUR in
  let timestamps := default [] (rl !! uid_str) in
  let recent := filter (λ t, cutoff < t) timestamps in
  if decide (MAX_REVIEWS_PER_HOUR ≤ Z.of_nat (length recent)) then (false, rl)
  else (true, <[uid_str := (recent ++ [now_])%list]> rl).

(** [rate_limit_ok] *)
Definition rate_limit_ok (uid : Z) : M bool :=
  t <- now ;;
  λ w, let r := rate_limit_at t uid (ratelimits w) in
       (Ok r.1, set_ratelimits (λ _, r.2) w).

(** [rate_limit_ok] called [n] times in a row; the answers in order. *)
Fixpoint rate_limit_calls (n : nat) (uid : Z) : M (list bool) :=
  match n with
  | O => ret []
  | S n' =>
      b <- rate_limit_ok uid ;;
      bs <- rate_limit_calls n' uid ;;
      ret (b :: bs)
  end.

(** The instant read by the [i]-th next call of [datetime.now()]. *)
Definition upcoming (w : World) (i : nat) : Z := clock w (ticks w + i)%nat.

(** For the next [n] readings of the clock, [r] is what [rate_limit_ok]
    retains of the user's stored timestamps, the instants of [r] stay within
    the trailing hour, and so do the readings themselves. *)
Definition in_window (w : World) (uid : Z) (n : nat) (r : list Z) : Prop :=
  (∀ j, (j < n)%nat →
     filter (λ s, upcoming w j - HOUR < s) (default [] (ratelimits w !! str uid)) = r)
  ∧ Forall (λ s, ∀ j, (j < n)%nat → upcoming w j - HOUR < s) r
  ∧ (∀ i j, (i < n)%nat → (j < n)%nat → upcoming w i - HOUR < upcoming w j).

(** *** Sessions *)

(** [Draft()]: a fresh id and the time of creation. *)
Definition new_Draft : M Draft :=
  u <- uuid4 ;;
  t <- now ;;
  ret {| d_id := String.substring 0 8 u; d_stream := ""; d_year := "";
         d_subject := ""; d_teacher := ""; d_rating := 0; d_content := "";
         d_is_additional := false; d_parent_msg_id := None; d_ts := t |}.

(** [Session(uid)] *)
Definition new_Session (uid : Z) : Session :=
  {| s_uid := uid; draft := None; drafts := []; subject_page := 0;
     current_subjects := [] |}.

(** [Session.new_draft], for a draft just made *)
Definition new_draft (d : Draft) (s : Session) : Session :=
  {| s_uid := s_uid s; draft := Some d; drafts := drafts s; subject_page := 0;
     current_subjects := [] |}.

(** [Session.commit_draft] *)
Definition commit_draft (s : Session) : Session :=
  match draft s with
  | Some d => {| s_uid := s_uid s; draft := None; drafts := (drafts s ++ [d])%list;
                 subject_page := subject_page s;
                 current_subjects := current_subjects s |}
  | None => s
  end.

Definition with_draft (d : Draft) (s : Session) : Session :=
  {| s_uid := s_uid s; draft := Some d; drafts := drafts s;
     subject_page := subject_page s; current_subjects := current_subjects s |}.

(** [sess.draft.content = text] *)
Definition set_content (text : string) (d : Draft) : Draft :=
  mkDraft (d_id d) (d_stream d) (d_year d) (d_subject d) (d_teacher d)
    (d_rating d) text (d_is_additional d) (d_parent_msg_id d) (d_ts d).

(** [sess.draft.rating = rating] *)
Definition set_rating (rating : Z) (d : Draft) : Draft :=
  mkDraft (d_id d) (d_stream d) (d_year d) (d_subject d) (d_teacher d)
    rating (d_content d) (d_is_additional d) (d_parent_msg_id d) (d_ts d).

(** The draft seeded from a deep link by [cmd_start]. *)
Definition seed_draft (data : CtxData) (d : Draft) : Draft :=
  mkDraft (d_id d) (ctx_stream data) (ctx_year data) (ctx_subject data)
    (ctx_teacher data) (d_rating d) (d_content d) true
    (ctx_parent_msg_id data) (d_ts d).

(** [session(uid)]: the user's session, made on first use. *)
Definition session (uid : Z) : M Session :=
  λ w, match sessions w !! uid with
       | Some s => (Ok s, w)
       | None => (Ok (new_Session uid),
                  set_sessions (λ m, <[uid := new_Session uid]> m) w)
       end.

(** The session object of [uid] after a mutation through a local alias. *)
Definition store_session (uid : Z) (s : Session) : M unit :=
  modify (set_sessions (λ m, <[uid := s]> m)).

(** [_sessions.pop(uid, None)] *)
Definition pop_session (uid : Z) : M unit :=
  modify (set_sessions (λ m, delete uid m)).

(** *** Conversation handlers *)

(** [f"pending_{draft.id}"] *)
Definition pending_key (rev_id : string) : string := "pending_" +:+ rev_id.

(** The dict [do_submit] stores for a draft. *)
Definition pending_of (uid : Z) (d : Draft) : PendingData :=
  {| p_stream := d_stream d; p_year := d_year d; p_subject := d_subject d;
     p_teacher := d_teacher d; p_rating := d_rating d; p_content := d_content d;
     p_parent_msg_id := d_parent_msg_id d; p_is_additional := d_is_additional d;
     p_user_id := uid |}.

(** [tg_user.first_name or "Student"], ["Student"] too when [get_chat] raises. *)
Definition get_display (uid : Z) : M string :=
  r <- attempt ;;
  name <- gets (λ w, first_names w uid) ;;
  ret (match r with
       | Some _ => if decide (name = "") then "Student" else name
       | None => "Student"
       end).

(** The [for draft in sess.drafts] loop of [do_submit]; [submitted] counts
    the drafts that reached the admin.  The answer is the final count. *)
Fixpoint submit_loop (uid : Z) (display : string) (ds : list Draft)
    (submitted : Z) : M Z :=
  match ds with
  | [] => ret submitted
  | d :: rest =>
      allowed <- rate_limit_ok uid ;;
      if allowed : bool then
        set_ctx (pending_key (d_id d)) (Pending (pending_of uid d)) ;;;
        r <- try_send ADMIN_ID (ADMIN_REVIEW display uid d) None ;;
        submit_loop uid display rest
          (if r is Some _ then submitted + 1 else submitted)
      else
        try_send uid (ERR_RATE_LIMIT submitted) None ;;;
        ret submitted
  end.

(** [do_submit(uid, update, context)]; [update] says whether an [Update]
    was passed ([None] when called from the draft-management buttons). *)
Definition do_submit (uid : Z) (update : bool) : M ConvState :=
  sess <- session uid ;;
  match drafts sess with
  | [] =>
      (if update then send uid ERR_NO_DATA else ret tt) ;;;
      ret END
  | _ =>
      display <- get_display uid ;;
      (if update then send uid TRANSMITTING else ret tt) ;;;
      submit_loop uid display (drafts sess) 0 ;;;
      pop_session uid ;;;
      try_send uid SUCCESS_SUBMITTED None ;;;
      ret END
  end.

(** [handler_content]: the handler of state [ST_CONTENT]. *)
Definition handler_content (uid : Z) (message_text : string) : M ConvState :=
  let text := strip message_text in
  sess <- session uid ;;
  if decide (len text < 30) then
    send uid ERR_SHORT_REVIEW ;;;
    ret ST_CONTENT
  else if contains_profanity text then
    strikes <- add_violation uid ;;
    if decide (MAX_PROFANITY_STRIKES ≤ strikes) then
      ban uid ;;;
      send uid ERR_PROFANITY_BANNED ;;;
      pop_session uid ;;;
      ret END
    else
      send uid (ERR_PROFANITY_STRIKE strikes) ;;;
      ret ST_CONTENT
  else
    match draft sess with
    | None => raise AttributeError
    | Some d =>
        let sess' := commit_draft (with_draft (set_content text d) sess) in
        store_session uid sess' ;;;
        if default false (d_is_additional <$> last (drafts sess')) then
          do_submit uid true
        else
          send uid (SUCCESS_DRAFT_SAVED
                      ((λ d, (d_teacher d, d_rating d)) <$> drafts sess')) ;;;
          ret ST_BATCH
    end.

(** [cb_rating] *)
Definition cb_rating (uid : Z) (rating : Z) : M ConvState :=
  sess <- session uid ;;
  match draft sess with
  | None => raise AttributeError
  | Some d =>
      store_session uid (with_draft (set_rating rating d) sess) ;;;
      send uid (RATING_SET rating) ;;;
      ret ST_CONTENT
  end.

(** [args[0][4:]] *)
Definition drop4 (s : string) : string :=
  String.substring 4 (String.length s - 4) s.

(** [cmd_start] *)
Definition cmd_start (user : TgUser) (args : list string) : M ConvState :=
  let uid := tg_id user in
  register user ;;;
  banned <- is_banned uid ;;
  if banned : bool then
    send uid ERR_BANNED ;;;
    ret END
  else
    store_session uid (new_Session uid) ;;;
    sess <- session uid ;;
    let welcome := (send uid WELCOME ;;; ret END) in
    match args with
    | a :: _ =>
        if String.prefix "add_" a then
          data <- get_ctx (drop4 a) ;;
          match data with
          | Some data =>
              d0 <- new_Draft ;;
              let d := seed_draft data d0 in
              store_session uid (new_draft d sess) ;;;
              send uid (WELCOME_DEEP (d_teacher d) (d_subject d)) ;;;
              ret ST_RATING
          | None =>
              send uid LINK_EXPIRED ;;;
              welcome
          end
        else welcome
    | [] => welcome
    end.

(** The channel post [_approve] builds from the pending dict: the header
    chosen by [is_additional], the subject, the teacher, the rating and the
    body; its buttons carry [rev_id] and the deep link made from [token]. *)
Definition channel_post (rev_id : string) (p : PendingData) (token : string)
    : Body :=
  CHANNEL_POST rev_id (p_is_additional p) (p_subject p) (p_teacher p)
    (p_rating p) (p_content p) token.

(** [_approve] *)
Definition _approve (user_id : Z) (rev_id : string) : M unit :=
  data <- get_ctx (pending_key rev_id) ;;
  match data with
  | None => send ADMIN_ID PENDING_NOT_FOUND
  | Some (Resume _) => raise KeyError
  | Some (Pending p) =>
      let parent_msg_id := p_parent_msg_id p in
      u <- uuid4 ;;
      let ctx_uuid := String.substring 0 10 u in
      sent <- try_send CHANNEL_ID (channel_post rev_id p ctx_uuid) parent_msg_id ;;
      match sent with
      | None => send ADMIN_ID CHANNEL_POST_FAILED
      | Some message_id =>
          let next_parent :=
            match parent_msg_id with
            | Some m => if decide (m = 0) then message_id else m
            | None => message_id
            end in
          set_ctx ctx_uuid
            (Resume {| r_stream := p_stream p; r_year := p_year p;
                       r_subject := p_subject p; r_teacher := p_teacher p;
                       r_parent_msg_id := next_parent |}) ;;;
          t <- now ;;
          add_review {| rv_teacher := p_teacher p; rv_subject := p_subject p;
                        rv_stream := p_stream p; rv_year := p_year p;
                        rv_rating := p_rating p; rv_content := p_content p;
                        rv_timestamp := t; rv_msg_id := message_id |} ;;;
          add_approved_member user_id ;;;
          invite <- attempt ;;
          try_send user_id (APPROVED invite) None ;;;
          send ADMIN_ID APPROVED_AND_POSTED
      end
  end.

(** *** What a submission is expected to leave behind *)

(** The messages to the admin for the drafts [ds], the transport outcomes
    being read from position [i] on. *)
Fixpoint admin_msgs (net : nat → option Z) (display : string) (uid : Z)
    (i : nat) (ds : list Draft) : list Sent :=
  match ds with
  | [] => []
  | d :: rest =>
      {| to := ADMIN_ID; body := ADMIN_REVIEW display uid d; reply_to := None;
         delivered := bool_decide (is_Some (net i)) |}
      :: admin_msgs net display uid (S i) rest
  end.



(** The closing message of a submission. *)
Definition closing_notice (uid : Z) (outcome : option Z) : Sent :=
  {| to := uid; body := SUCCESS_SUBMITTED; reply_to := None;
     delivered := bool_decide (is_Some outcome) |}.

(** The name [get_display] comes back with in world [w]. *)
Definition display_of (w : World) (uid : Z) : string :=
  match net w (n_net w) with
  | Some _ => if decide (first_names w uid = "") then "Student" else first_names w uid
  | None => "Student"
  end.


(** *** Thread linkage *)

(** The parent [_approve] records for follow-ups: [parent_msg_id] if it is
    truthy, otherwise the id of the message just posted. *)
Definition next_parent_of (p : PendingData) (message_id : Z) : Z :=
  match p_parent_msg_id p with
  | Some m => if decide (m = 0) then message_id else m
  | None => message_id
  end.

(** The resume entry [_approve] stores. *)
Definition resume_of (p : PendingData) (message_id : Z) : ResumeData :=
  {| r_stream := p_stream p; r_year := p_year p; r_subject := p_subject p;
     r_teacher := p_teacher p; r_parent_msg_id := next_parent_of p message_id |}.

(** The token the next [_approve] issues: [str(uuid.uuid4())[:10]]. *)
Definition token_of (w : World) : string :=
  String.substring 0 10 (uuids w (n_uuid w)).

(** The draft a user is working on, if any. *)
Definition active_draft (w : World) (uid : Z) : option Draft :=
  sessions w !! uid ≫= draft.

(** The deep-link argument of [/start]: [add_<token>]. *)
Definition deep_arg (token : string) : string := "add_" +:+ token.

(** [follow_up_chain A w T]: in world [w] the token [T] is the latest one of
    a thread started by the channel message [A].  The thread starts when a
    review without parent is approved and posted as message [A].  It goes
    on when, at any later time at which the latest token is still stored, a
    user who is not banned opens the deep link, rates, writes a body that
    is long enough, passes the filter and is admitted by the rate limiter,
    and when, at any later time at which the pending entry of that draft is
    still stored, the moderator approves it and the channel post goes
    through. *)
Inductive follow_up_chain (A : Z) : World → string → Prop :=
  | chain_first w w' user_id rev_id p :
      contexts w !! pending_key rev_id = Some (Pending p) →
      p_parent_msg_id p = None →
      net w (n_net w) = Some A →
      _approve user_id rev_id w = (Ok tt, w') →
      follow_up_chain A w' (token_of w)
  | chain_next w0 T w1 user rating text w2 w3 w4 rid w5 m w6 :
      follow_up_chain A w0 T →
      contexts w1 !! T = contexts w0 !! T →
      tg_id user ∉ banned_cache w1 →
      cmd_start user [deep_arg T] w1 = (Ok ST_RATING, w2) →
      d_id <$> active_draft w2 (tg_id user) = Some rid →
      cb_rating (tg_id user) rating w2 = (Ok ST_CONTENT, w3) →
      30 ≤ len (strip text) →
      contains_profanity (strip text) = false →
      (rate_limit_ok (tg_id user) w3).1 = Ok true →
      handler_content (tg_id user) text w3 = (Ok END, w4) →
      contexts w5 !! pending_key rid = contexts w4 !! pending_key rid →
      net w5 (n_net w5) = Some m →
      _approve (tg_id user) rid w5 = (Ok tt, w6) →
      follow_up_chain A w6 (token_of w5).

End Bot.

(* ====================================================================== *)
(** ** The rate limiter over a run of calls *)
(* ====================================================================== *)

Module Limiter.
Import Bot.

(** The instants of the admitted calls when [rate_limit_ok] is called for
    [uid] at the instants [times], one call after the other. *)
Fixpoint admitted_times (times : list Z) (uid : Z)
    (rl : gmap string (list Z)) : list Z :=
  match times with
  | [] => []
  | t :: rest =>
      let r := rate_limit_at t uid rl in
      ((if r.1 then [t] else []) ++ admitted_times rest uid r.2)%list
  end.

(** How many of the instants [l] lie in the hour that ends at [t]. *)
Definition in_hour_before (t : Z) (l : list Z) : nat :=
  length (filter (λ s, t - HOUR < s ∧ s ≤ t) l).

End Limiter.

(* ====================================================================== *)
(** ** Draft management: [Session.delete], [Session.pop_for_edit] *)
(* ====================================================================== *)

Module Sess.
Import Bot.

(** [Session.delete]: [del self.drafts[idx]] when [0 <= idx < len]; any
    other index, a negative one too, deletes nothing. *)
Definition delete (idx : Z) (s : Session) : bool * Session :=
  if decide (0 ≤ idx < Z.of_nat (length (drafts s))) then
    (true, {| s_uid := s_uid s; draft := draft s;
              drafts := base.delete (Z.to_nat idx) (drafts s);
              subject_page := subject_page s;
              current_subjects := current_subjects s |})
  else (false, s).

(** [Session.pop_for_edit]: [self.draft = self.drafts.pop(idx)] when
    [0 <= idx < len]; the draft that was being written is overwritten. *)
Definition pop_for_edit (idx : Z) (s : Session) : option Draft * Session :=
  if decide (0 ≤ idx < Z.of_nat (length (drafts s))) then
    match drafts s !! Z.to_nat idx with
    | Some d =>
        (Some d, {| s_uid := s_uid s; draft := Some d;
                    drafts := base.delete (Z.to_nat idx) (drafts s);
                    subject_page := subject_page s;
                    current_subjects := current_subjects s |})
    | None => (None, s)
    end
  else (None, s).

End Sess.

(* ====================================================================== *)
(** ** [Database.unban] *)
(* ====================================================================== *)

Module Bans.
Import Bot.

(** [unban]: [discard] on the cache, [delete_one] on the collection. *)
Definition unban (uid : Z) : M unit := modify (set_banned (λ b, b ∖ {[uid]})).

End Bans.

(* ====================================================================== *)
(** ** Keyboards: [kb_reply], [kb_subjects] *)
(* ====================================================================== *)

Module Keyboards.

Definition SUBJECTS_PER_PAGE : Z := 6.

(** A bound of a slice of a sequence of length [n]: a negative bound counts
    from the end, and both ends are clipped to the sequence. *)
Definition slice_bound (n i : Z) : Z :=
  if decide (i < 0) then Z.max (i + n) 0 else Z.min i n.

(** [l[a:b]] *)
Definition slice {A} (l : list A) (a b : Z) : list A :=
  let n := Z.of_nat (length l) in
  let lo := slice_bound n a in
  let hi := slice_bound n b in
  take (Z.to_nat (hi - lo)) (drop (Z.to_nat lo) l).

(** [range(start, stop, step)] for a positive and for a negative step; the
    fuel is the distance to [stop], which no range outruns. *)
Fixpoint range_up (fuel : nat) (i stop step : Z) : list Z :=
  match fuel with
  | O => []
  | S fuel' => if decide (i < stop) then i :: range_up fuel' (i + step) stop step else []
  end.

Fixpoint range_down (fuel : nat) (i stop step : Z) : list Z :=
  match fuel with
  | O => []
  | S fuel' => if decide (stop < i) then i :: range_down fuel' (i + step) stop step else []
  end.

(** [range(start, stop, step)]; [None] is the [ValueError] of a zero step. *)
Definition range (start stop step : Z) : option (list Z) :=
  if decide (step = 0) then None
  else if decide (0 < step)
       then Some (range_up (Z.to_nat (stop - start)) start stop step)
       else Some (range_down (Z.to_nat (start - stop)) start stop step).

(** [kb_reply]: the rows of the reply keyboard. *)
Definition kb_reply (items : list string) (cols : Z) : option (list (list string)) :=
  match range 0 (Z.of_nat (length items)) cols with
  | Some starts => Some ((λ i, slice items i (i + cols)) <$> starts)
  | None => None
  end.

(** The buttons of the subject keyboard.  A button is represented by what
    its label and callback data are built from: the subject, the page a
    navigation button leads to, the page shown and the number of pages. *)
Inductive Button :=
  | SUBJECT (s : string)
  | PREV (page : Z)
  | PAGE_OF (shown total : Z)
  | NEXT (page : Z)
  | CANCEL.

(** The number of pages, as [handler_year], [cb_subject_page] and
    [kb_subjects] compute it:
    [(len(subjects) + SUBJECTS_PER_PAGE - 1) // SUBJECTS_PER_PAGE]. *)
Definition total_pages (subjects : list string) : Z :=
  (Z.of_nat (length subjects) + SUBJECTS_PER_PAGE - 1) / SUBJECTS_PER_PAGE.

(** [kb_subjects] *)
Definition kb_subjects (subjects : list string) (page : Z) : list (list Button) :=
  let start := page * SUBJECTS_PER_PAGE in
  let chunk := slice subjects start (start + SUBJECTS_PER_PAGE) in
  let total := total_pages subjects in
  let rows := (λ s, [SUBJECT s]) <$> chunk in
  let nav :=
    ((if decide (0 < page) then [PREV (page - 1)] else [])
     ++ [PAGE_OF (page + 1) total]
     ++ (if decide (start + SUBJECTS_PER_PAGE < Z.of_nat (length subjects))
         then [NEXT (page + 1)] else []))%list in
  (rows ++ [nav] ++ [[CANCEL]])%list.

(** The subjects a keyboard offers, in order. *)
Definition subjects_on (kb : list (list Button)) : list string :=
  mjoin kb ≫= λ b, if b is SUBJECT s then [s] else [].

(** The pages the navigation buttons of a keyboard lead to. *)
Definition targets (kb : list (list Button)) : list Z :=
  mjoin kb ≫= λ b, match b with PREV p | NEXT p => [p] | _ => [] end.

(** The pages a user can be shown: [handler_year] shows page 0, and
    [cb_subject_page] shows the page named by the button pressed. *)
Inductive browsing (subjects : list string) : Z → Prop :=
  | browse_first : browsing subjects 0
  | browse_press p q :
      browsing subjects p → q ∈ targets (kb_subjects subjects p) →
      browsing subjects q.

End Keyboards.

(* ====================================================================== *)
(** * Properties *)
(* ====================================================================== *)

Module VotesFacts.
Import Votes.

Lemma str_inj (a b : Z) : str a = str b → a = b.
Proof. unfold str. apply (inj pretty). Qed.

Lemma tally_nonneg d m : 0 ≤ tally d m.
Proof. unfold tally. lia. Qed.

Lemma tally_empty d : tally d ∅ = 0.
Proof. unfold tally. by rewrite map_filter_empty, map_size_empty. Qed.

Lemma tally_absent d k (m : gmap string string) :
  m !! k = None → tally d (delete k m) = tally d m.
Proof. intros H. by rewrite delete_id. Qed.

Lemma tally_present d k v (m : gmap string string) :
  m !! k = Some v →
  tally d m = tally d (delete k m) + (if decide (v = d) then 1 else 0).
Proof.
  intros H. unfold tally. rewrite map_filter_delete.
  case_decide as Hv.
  - assert (filter (λ kv : string * string, kv.2 = d) m !! k = Some v) as Hf
      by (by apply map_lookup_filter_Some).
    rewrite map_size_delete_Some by (by eexists).
    assert (size (filter (λ kv : string * string, kv.2 = d) m) ≠ 0%nat).
    { intros H0. apply map_size_empty_inv in H0. rewrite H0 in Hf.
      by rewrite lookup_empty in Hf. }
    lia.
  - rewrite delete_id; [lia|].
    apply map_lookup_filter_None. right. intros v' Hv'. simpl. congruence.
Qed.

Lemma tally_insert d k v (m : gmap string string) :
  tally d (<[k:=v]> m) = tally d (delete k m) + (if decide (v = d) then 1 else 0).
Proof.
  rewrite (tally_present d k v (<[k:=v]> m)) by apply lookup_insert_eq.
  by rewrite delete_insert_eq.
Qed.

Lemma tally_split (m : gmap string string) :
  (∀ k v, m !! k = Some v → is_direction v) →
  tally "up" m + tally "down" m = Z.of_nat (size m).
Proof.
  induction m as [|k v m Hk _ IH] using map_first_key_ind; intros Hdir.
  - by rewrite !tally_empty, map_size_empty.
  - rewrite !tally_insert, !(tally_absent _ _ _ Hk), map_size_insert_None by done.
    assert (tally "up" m + tally "down" m = Z.of_nat (size m)) as IH'.
    { apply IH. intros k' v' H'. apply (Hdir k' v').
      rewrite lookup_insert_ne; [done|]. intros ->. congruence. }
    destruct (Hdir k v (lookup_insert_eq _ _ _)) as [-> | ->];
      repeat case_decide; simplify_eq; lia.
Qed.

Lemma ledger_inv_fresh : ledger_inv fresh_doc ∅.
Proof.
  split; change (voters fresh_doc) with (∅ : gmap string string);
    change (up fresh_doc) with 0; change (down fresh_doc) with 0.
  - by rewrite tally_empty.
  - by rewrite tally_empty.
  - intros k v. by rewrite lookup_empty.
  - intros k. rewrite lookup_empty. split.
    + by intros [? ?].
    + intros (u & Hu & _). set_solver.
  - by rewrite map_size_empty, size_empty.
Qed.

Lemma read_doc_insert mid doc (votes : gmap string VoteDoc) :
  read_doc mid (<[str mid := doc]> votes) = doc.
Proof. unfold read_doc. by rewrite lookup_insert_eq. Qed.

Lemma decide_vote_same mid uid d doc votes :
  voters doc !! str uid = Some d →
  decide_vote mid uid d doc votes = ((false, counts_of doc), votes).
Proof. intros H. unfold decide_vote. by rewrite decide_True. Qed.

Lemma decide_vote_changed mid uid d doc votes :
  voters doc !! str uid ≠ Some d →
  ∃ u' d',
    decide_vote mid uid d doc votes =
      ((true, {| c_up := u'; c_down := d' |}),
       <[str mid := {| up := u'; down := d';
                       voters := <[str uid := d]> (voters doc) |}]> votes)
    ∧ u' = (if decide (d = "up") then 1 else 0) +
           (if decide (voters doc !! str uid = Some "up")
            then Z.max 0 (up doc - 1) else up doc)
    ∧ d' = (if decide (d = "down") then 1 else 0) +
           (if decide (voters doc !! str uid = Some "down")
            then Z.max 0 (down doc - 1) else down doc).
Proof.
  intros H. unfold decide_vote. rewrite decide_False by done.
  eexists _, _. split; [reflexivity|].
  split; repeat case_decide; lia.
Qed.

Lemma cast_vote_inv mid uid d votes S :
  ledger_inv (read_doc mid votes) S → is_direction d →
  ledger_inv (read_doc mid (cast_vote mid uid d votes).2) ({[uid]} ∪ S).
Proof.
  intros Hinv Hd. unfold cast_vote.
  set (doc := read_doc mid votes) in *.
  destruct Hinv as [Hup Hdown Hdir Hdom Hsize].
  assert (uid ∈ S ↔ is_Some (voters doc !! str uid)) as HinS.
  { rewrite Hdom. split.
    - intros ?. by exists uid.
    - intros (u & Hu & Heq). by apply str_inj in Heq as ->. }
  destruct (decide (voters doc !! str uid = Some d)) as [Hsame | Hchg].
  - rewrite decide_vote_same by done. simpl. fold doc.
    assert (uid ∈ S) by (apply HinS; by eexists).
    assert ({[uid]} ∪ S = S) as ->
      by (by apply subseteq_union_1_L, singleton_subseteq_l).
    by split.
  - destruct (decide_vote_changed mid uid d doc votes Hchg) as (u' & d' & -> & Hu' & Hd').
    simpl. rewrite read_doc_insert.
    split; cbn [up down voters].
    + rewrite tally_insert, Hu'.
      destruct (voters doc !! str uid) as [v|] eqn:Hprev.
      * rewrite Hup, (tally_present "up" _ _ _ Hprev).
        pose proof (tally_nonneg "up" (delete (str uid) (voters doc))).
        destruct (Hdir _ _ Hprev) as [-> | ->], Hd as [-> | ->];
          repeat case_decide; simplify_eq; lia.
      * rewrite Hup, (tally_absent _ _ _ Hprev).
        destruct Hd as [-> | ->]; repeat case_decide; simplify_eq; lia.
    + rewrite tally_insert, Hd'.
      destruct (voters doc !! str uid) as [v|] eqn:Hprev.
      * rewrite Hdown, (tally_present "down" _ _ _ Hprev).
        pose proof (tally_nonneg "down" (delete (str uid) (voters doc))).
        destruct (Hdir _ _ Hprev) as [-> | ->], Hd as [-> | ->];
          repeat case_decide; simplify_eq; lia.
      * rewrite Hdown, (tally_absent _ _ _ Hprev).
        destruct Hd as [-> | ->]; repeat case_decide; simplify_eq; lia.
    + intros k v. destruct (decide (str uid = k)) as [<- | Hk].
      * rewrite lookup_insert_eq. by intros [= <-].
      * rewrite lookup_insert_ne by done. apply Hdir.
    + intros k. destruct (decide (str uid = k)) as [<- | Hk].
      * rewrite lookup_insert_eq.
        split; [intros _; exists uid; split; [|done] | by eexists].
        by apply elem_of_union_l, elem_of_singleton.
      * rewrite lookup_insert_ne by done. rewrite Hdom. split.
        -- intros (u & Hu & ->). exists u. split; [|done]. by apply elem_of_union_r.
        -- intros (u & Hu & ->). exists u. split; [|done].
           apply elem_of_union in Hu as [Hu|Hu]; [|done].
           apply elem_of_singleton in Hu. by subst.
    + destruct (voters doc !! str uid) as [v|] eqn:Hprev.
      * rewrite map_size_insert_Some by (by eexists).
        assert (uid ∈ S) by (apply HinS; by eexists).
        assert ({[uid]} ∪ S = S) as ->
          by (by apply subseteq_union_1_L, singleton_subseteq_l).
        done.
      * rewrite map_size_insert_None by done.
        assert (uid ∉ S) by (rewrite HinS; by intros [? ?]).
        rewrite size_union by (by apply disjoint_singleton_l).
        rewrite size_singleton. lia.
Qed.

Lemma cast_votes_cons mid c calls votes :
  cast_votes mid (c :: calls) votes
  = cast_votes mid calls (cast_vote mid c.1 c.2 votes).2.
Proof. reflexivity. Qed.

Lemma cast_votes_inv mid calls : ∀ votes S,
  ledger_inv (read_doc mid votes) S →
  Forall (λ c, is_direction c.2) calls →
  ledger_inv (read_doc mid (cast_votes mid calls votes)) (voters_of calls ∪ S).
Proof.
  induction calls as [|c calls IH]; intros votes S Hinv Hall.
  - unfold voters_of. simpl. by rewrite (left_id_L ∅ (∪)).
  - apply Forall_cons in Hall as [Hc Hall].
    rewrite cast_votes_cons.
    replace (voters_of (c :: calls) ∪ S) with (voters_of calls ∪ ({[c.1]} ∪ S)).
    + apply IH; [|done]. by apply cast_vote_inv.
    + unfold voters_of. rewrite fmap_cons, list_to_set_cons.
      rewrite (assoc_L (∪)). f_equal. apply (comm_L (∪)).
Qed.

Lemma cast_vote_choice mid u d uid votes :
  voters (read_doc mid (cast_vote mid u d votes).2) !! str uid
  = if decide (u = uid) then Some d else voters (read_doc mid votes) !! str uid.
Proof.
  unfold cast_vote.
  destruct (decide (voters (read_doc mid votes) !! str u = Some d)) as [Hs | Hc].
  - rewrite decide_vote_same by done. simpl.
    case_decide; [by subst|done].
  - destruct (decide_vote_changed mid u d _ votes Hc) as (u' & d' & -> & _).
    simpl. rewrite read_doc_insert. simpl.
    case_decide as Hu.
    + subst. apply lookup_insert_eq.
    + rewrite lookup_insert_ne; [done|]. intros Heq. by apply str_inj in Heq.
Qed.

Lemma cast_votes_choice mid uid calls : ∀ votes,
  voters (read_doc mid (cast_votes mid calls votes)) !! str uid
  = choice_after uid (voters (read_doc mid votes) !! str uid) calls.
Proof.
  induction calls as [|c calls IH]; intros votes; [done|].
  rewrite cast_votes_cons, IH, cast_vote_choice. reflexivity.
Qed.

Lemma read_doc_none mid (votes : gmap string VoteDoc) :
  votes !! str mid = None → read_doc mid votes = fresh_doc.
Proof. intros H. unfold read_doc. by rewrite H. Qed.

Lemma ledger_inv_reached mid calls votes0 :
  votes0 !! str mid = None →
  Forall (λ c, is_direction c.2) calls →
  ledger_inv (read_doc mid (cast_votes mid calls votes0)) (voters_of calls).
Proof.
  intros Hnone Hall.
  rewrite <- (right_id_L ∅ (∪) (voters_of calls)).
  apply cast_votes_inv; [|done].
  rewrite read_doc_none by done. apply ledger_inv_fresh.
Qed.

(** C1.  Starting from no vote record for the post, after every prefix of
    every sequence of up/down calls: up + down is the number of distinct
    users who voted, the up count is the number of voters whose recorded
    choice is up and the down count the number whose recorded choice is down,
    the recorded choice of a user is the direction of that user's latest
    call (so each voter sits in exactly one bucket), and neither count is
    negative. *)
Theorem cast_votes_counts_distinct_voters
    (mid : Z) (calls pre : list (Z * string)) (votes0 : gmap string VoteDoc) :
  votes0 !! str mid = None →
  Forall (λ c, is_direction c.2) calls →
  pre `prefix_of` calls →
  let doc := read_doc mid (cast_votes mid pre votes0) in
  up doc + down doc = Z.of_nat (size (voters_of pre))
  ∧ up doc = tally "up" (voters doc)
  ∧ down doc = tally "down" (voters doc)
  ∧ (∀ uid, voters doc !! str uid = last_choice uid pre)
  ∧ 0 ≤ up doc ∧ 0 ≤ down doc.
Proof.
  intros Hnone Hall [rest ->] doc.
  apply Forall_app in Hall as [Hpre _].
  destruct (ledger_inv_reached mid pre votes0 Hnone Hpre)
    as [Hup Hdown Hdir Hdom Hsize].
  fold doc in Hup, Hdown, Hdir, Hsize.
  split_and!.
  - rewrite Hup, Hdown, tally_split by done. by rewrite Hsize.
  - done.
  - done.
  - intros uid. unfold doc, last_choice. rewrite cast_votes_choice.
    rewrite read_doc_none by done.
    change (voters fresh_doc) with (∅ : gmap string string).
    by rewrite lookup_empty.
  - rewrite Hup. apply tally_nonneg.
  - rewrite Hdown. apply tally_nonneg.
Qed.

Lemma cast_votes_counts_distinct_voters_witness :
  let calls := [(1, "up"); (2, "down"); (1, "down"); (2, "down"); (3, "up")] in
  let doc := read_doc 7 (cast_votes 7 calls ∅) in
  up doc + down doc = 3 ∧ up doc = 1 ∧ down doc = 2.
Proof.
  intros calls doc.
  assert ((∅ : gmap string VoteDoc) !! str 7 = None) as H0 by reflexivity.
  assert (Forall (λ c : Z * string, is_direction c.2) calls) as H1
    by (repeat constructor; (by left) || (by right)).
  assert (calls `prefix_of` calls) as H2 by (by exists []; rewrite app_nil_r).
  pose proof (cast_votes_counts_distinct_voters 7 calls calls ∅ H0 H1 H2)
    as (Hsum & Hup & Hdown & _).
  fold doc in Hsum, Hup, Hdown.
  split_and!.
  - rewrite Hsum. by vm_compute.
  - rewrite Hup. by vm_compute.
  - rewrite Hdown. by vm_compute.
Defined.

Lemma opposite_ne d : is_direction d → opposite d ≠ d.
Proof. intros [-> | ->]; by vm_compute. Qed.

(** C2.  In every ledger state reached from no record by up/down calls:
    voting the direction that is already recorded for the voter returns
    changed = false and leaves the store (hence both counts) as it was;
    voting the opposite of the recorded direction returns changed = true,
    the count of the old direction goes down by one, the count of the new
    direction goes up by one, and the stored document carries exactly the
    returned counts and the new choice. *)
Theorem cast_vote_same_noop_switch_moves
    (mid uid : Z) (d : string) (calls : list (Z * string))
    (votes0 : gmap string VoteDoc) :
  votes0 !! str mid = None →
  Forall (λ c, is_direction c.2) calls →
  is_direction d →
  let votes := cast_votes mid calls votes0 in
  let doc := read_doc mid votes in
  (voters doc !! str uid = Some d →
     cast_vote mid uid d votes = ((false, counts_of doc), votes))
  ∧ (voters doc !! str uid = Some (opposite d) →
     ∃ cnt votes',
       cast_vote mid uid d votes = ((true, cnt), votes')
       ∧ count_for d cnt = count_for d (counts_of doc) + 1
       ∧ count_for (opposite d) cnt = count_for (opposite d) (counts_of doc) - 1
       ∧ votes' = <[str mid := {| up := c_up cnt; down := c_down cnt;
                                  voters := <[str uid := d]> (voters doc) |}]> votes).
Proof.
  intros Hnone Hall Hd votes doc.
  destruct (ledger_inv_reached mid calls votes0 Hnone Hall)
    as [Hup Hdown _ _ _].
  fold votes in Hup, Hdown. fold doc in Hup, Hdown.
  split; intros Hprev; unfold cast_vote; fold doc.
  - by apply decide_vote_same.
  - assert (voters doc !! str uid ≠ Some d) as Hne.
    { rewrite Hprev. intros [= Heq]. by apply (opposite_ne d). }
    destruct (decide_vote_changed mid uid d doc votes Hne)
      as (u' & d' & -> & Hu' & Hd').
    eexists {| c_up := u'; c_down := d' |}, _.
    split; [reflexivity|].
    pose proof (tally_nonneg "up" (delete (str uid) (voters doc))).
    pose proof (tally_nonneg "down" (delete (str uid) (voters doc))).
    rewrite (tally_present "up" _ _ _ Hprev) in Hup.
    rewrite (tally_present "down" _ _ _ Hprev) in Hdown.
    rewrite Hprev in Hu', Hd'.
    unfold count_for, counts_of. cbn [c_up c_down].
    destruct Hd as [-> | ->]; vm_compute opposite in *;
      repeat case_decide; simplify_eq; split_and!; try reflexivity; lia.
Qed.

Lemma cast_vote_same_noop_switch_moves_witness :
  let votes := cast_votes 7 [(1, "up"); (2, "down")] ∅ in
  cast_vote 7 1 "up" votes = ((false, {| c_up := 1; c_down := 1 |}), votes)
  ∧ (cast_vote 7 2 "up" votes).1 = (true, {| c_up := 2; c_down := 0 |}).
Proof.
  intros votes.
  assert ((∅ : gmap string VoteDoc) !! str 7 = None) as H0 by reflexivity.
  assert (Forall (λ c : Z * string, is_direction c.2) [(1, "up"); (2, "down")])
    as H1 by (repeat constructor; (by left) || (by right)).
  assert (is_direction "up") as H2 by (by left).
  split.
  - destruct (cast_vote_same_noop_switch_moves 7 1 "up" _ ∅ H0 H1 H2) as [Hsame _].
    apply Hsame. by vm_compute.
  - destruct (cast_vote_same_noop_switch_moves 7 2 "up" _ ∅ H0 H1 H2) as [_ Hsw].
    destruct Hsw as (cnt & votes' & Heq & Hnew & Hold & _); [by vm_compute|].
    fold votes in Heq. rewrite Heq. simpl. f_equal.
    destruct cnt as [u' d']. vm_compute in Hnew, Hold. by subst.
Defined.

(** Run one after the other, the two halves of [cast_vote] are [cast_vote]. *)
Lemma run_schedule_sequential mid a b votes :
  run_schedule mid a b [ReadA; WriteA; ReadB; WriteB] votes
  = (cast_vote mid b.1 b.2 (cast_vote mid a.1 a.2 votes).2).2.
Proof. reflexivity. Qed.

(** C3.  [cast_vote] reads the document with [find_one] and later writes
    absolute values with [update_one $set]; it is not one atomic
    read-modify-write.  When users 1 and 2 both vote up on post 7 and both
    reads happen before either write, the final up count is 1 and user 1 is
    no longer among the voters; run one after the other the count is 2. *)
Theorem cast_vote_interleaved_lost_update :
  let raced := read_doc 7 (run_schedule 7 (1, "up") (2, "up")
                             [ReadA; ReadB; WriteA; WriteB] ∅) in
  let serial := read_doc 7 (run_schedule 7 (1, "up") (2, "up")
                              [ReadA; WriteA; ReadB; WriteB] ∅) in
  up raced = 1 ∧ down raced = 0 ∧ voters raced = {[ "2" := "up" ]}
  ∧ up serial = 2 ∧ voters serial = {[ "1" := "up"; "2" := "up" ]}.
Proof. by vm_compute. Qed.

End VotesFacts.


Module RateLimitFacts.
Import Bot.
Local Open Scope bot_scope.

Lemma rate_limit_ok_run uid w :
  rate_limit_ok uid w
  = (Ok (rate_limit_at (clock w (ticks w)) uid (ratelimits w)).1,
     set_ratelimits (λ _, (rate_limit_at (clock w (ticks w)) uid (ratelimits w)).2)
       (tick w)).
Proof. reflexivity. Qed.

Lemma rate_limit_at_admit t uid rl recent :
  filter (λ s, t - HOUR < s) (default [] (rl !! str uid)) = recent →
  Z.of_nat (length recent) < MAX_REVIEWS_PER_HOUR →
  rate_limit_at t uid rl = (true, <[str uid := (recent ++ [t])%list]> rl).
Proof.
  intros Hf Hlen. unfold rate_limit_at. rewrite Hf.
  rewrite decide_False by lia. reflexivity.
Qed.

Lemma rate_limit_at_deny t uid rl recent :
  filter (λ s, t - HOUR < s) (default [] (rl !! str uid)) = recent →
  MAX_REVIEWS_PER_HOUR ≤ Z.of_nat (length recent) →
  rate_limit_at t uid rl = (false, rl).
Proof.
  intros Hf Hlen. unfold rate_limit_at. rewrite Hf.
  rewrite decide_True by lia. reflexivity.
Qed.

Lemma ratelimits_set f w : ratelimits (set_ratelimits f w) = f (ratelimits w).
Proof. reflexivity. Qed.

Lemma upcoming_set_ratelimits f w i :
  upcoming (set_ratelimits f w) i = upcoming w i.
Proof. reflexivity. Qed.

Lemma upcoming_tick w i : upcoming (tick w) i = upcoming w (S i).
Proof. unfold upcoming. simpl. f_equal. lia. Qed.

Lemma upcoming_shift f w m :
  upcoming (set_ratelimits f (tick w)) <$> seq 0 m = upcoming w <$> seq 1 m.
Proof.
  rewrite <- fmap_S_seq, <- list_fmap_compose.
  apply list_fmap_ext. intros i x _. apply upcoming_tick.
Qed.

Lemma filter_all_recent (t : Z) (r : list Z) :
  Forall (λ s, t - HOUR < s) r → filter (λ s, t - HOUR < s) r = r.
Proof.
  induction 1 as [|s r Hs _ IH]; [done|].
  rewrite filter_cons_True by done. by rewrite IH.
Qed.

(** An admitted call: the retained list plus the instant of the call is
    written, and the window carries on. *)
Lemma rate_limit_ok_admit uid w n r :
  in_window w uid (S n) r →
  Z.of_nat (length r) < MAX_REVIEWS_PER_HOUR →
  let w1 := set_ratelimits
              (λ _, <[str uid := (r ++ [upcoming w 0])%list]> (ratelimits w))
              (tick w) in
  rate_limit_ok uid w = (Ok true, w1)
  ∧ in_window w1 uid n (r ++ [upcoming w 0])%list.
Proof.
  intros (Hf & Hr & Hw) Hlen w1.
  assert (clock w (ticks w) = upcoming w 0) as Hnow
    by (unfold upcoming; f_equal; lia).
  split.
  - rewrite rate_limit_ok_run, Hnow.
    rewrite (rate_limit_at_admit _ _ _ r); [done| |done].
    apply Hf. lia.
  - assert (Forall (λ s, ∀ j, (j < n)%nat → upcoming w1 j - HOUR < s)
              (r ++ [upcoming w 0])%list) as Hall.
    { apply Forall_app. split.
      - eapply Forall_impl; [exact Hr|]. intros s Hs j Hj.
        unfold w1. change (upcoming _ j) with (upcoming (tick w) j).
        rewrite upcoming_tick. apply Hs. lia.
      - apply Forall_singleton. intros j Hj.
        change (upcoming w1 j) with (upcoming (tick w) j).
        rewrite upcoming_tick. apply Hw; lia. }
    split_and!.
    + intros j Hj. unfold w1. rewrite ratelimits_set, lookup_insert_eq.
      cbn [default]. fold w1.
      apply filter_all_recent.
      eapply Forall_impl; [exact Hall|]. intros s Hs. by apply Hs.
    + exact Hall.
    + intros i j Hi Hj.
      change (upcoming w1 i) with (upcoming (tick w) i).
      change (upcoming w1 j) with (upcoming (tick w) j).
      rewrite !upcoming_tick. apply Hw; lia.
Qed.

(** A denied call: only the clock has been read. *)
Lemma rate_limit_ok_deny uid w n r :
  in_window w uid (S n) r →
  MAX_REVIEWS_PER_HOUR ≤ Z.of_nat (length r) →
  let w1 := set_ratelimits (λ _, ratelimits w) (tick w) in
  rate_limit_ok uid w = (Ok false, w1)
  ∧ in_window w1 uid n r.
Proof.
  intros (Hf & Hr & Hw) Hlen w1.
  assert (clock w (ticks w) = upcoming w 0) as Hnow
    by (unfold upcoming; f_equal; lia).
  split.
  - rewrite rate_limit_ok_run, Hnow.
    rewrite (rate_limit_at_deny _ _ _ r); [done| |done].
    apply Hf. lia.
  - split_and!.
    + intros j Hj. change (upcoming w1 j) with (upcoming (tick w) j).
      rewrite upcoming_tick. unfold w1. rewrite ratelimits_set.
      apply Hf. lia.
    + eapply Forall_impl; [exact Hr|]. intros s Hs j Hj.
      change (upcoming w1 j) with (upcoming (tick w) j).
      rewrite upcoming_tick. apply Hs. lia.
    + intros i j Hi Hj.
      change (upcoming w1 i) with (upcoming (tick w) i).
      change (upcoming w1 j) with (upcoming (tick w) j).
      rewrite !upcoming_tick. apply Hw; lia.
Qed.

Lemma rate_limit_calls_S n uid w b w1 :
  rate_limit_ok uid w = (Ok b, w1) →
  rate_limit_calls (S n) uid w
  = match rate_limit_calls n uid w1 with
    | (Ok bs, w2) => (Ok (b :: bs), w2)
    | (Raised e, w2) => (Raised e, w2)
    end.
Proof.
  intros H. cbn [rate_limit_calls]. unfold bind at 1. rewrite H.
  unfold bind. by destruct (rate_limit_calls n uid w1) as [[bs|e] w2].
Qed.

(** [n] calls in a row inside one window, [r] being retained at the start:
    the first [ceiling - len r] of them are admitted and write their
    instants, the others are denied. *)
Lemma rate_limit_calls_window n : ∀ uid w r,
  in_window w uid n r →
  let a := Z.to_nat (MAX_REVIEWS_PER_HOUR - Z.of_nat (length r)) in
  ∃ w',
    rate_limit_calls n uid w
      = (Ok (replicate (n `min` a) true ++ replicate (n - a) false)%list, w')
    ∧ ticks w' = (ticks w + n)%nat
    ∧ ratelimits w'
      = match (n `min` a)%nat with
        | O => ratelimits w
        | S _ => <[str uid := (r ++ (upcoming w <$> seq 0 (n `min` a)))%list]>
                   (ratelimits w)
        end.
Proof.
  induction n as [|n IH]; intros uid w r Hwin a.
  - exists w. split_and!; [done|simpl; lia|done].
  - destruct (decide (Z.of_nat (length r) < MAX_REVIEWS_PER_HOUR)) as [Hlt|Hge].
    + destruct (rate_limit_ok_admit uid w n r Hwin Hlt) as [Hrun Hwin1].
      set (w1 := set_ratelimits _ (tick w)) in *.
      destruct (IH uid w1 _ Hwin1) as (w' & Hcalls & Hticks & Hrl).
      assert (∃ a1, a = S a1 ∧
                Z.to_nat (MAX_REVIEWS_PER_HOUR
                          - Z.of_nat (length (r ++ [upcoming w 0]))) = a1)
        as (a1 & -> & Ha1).
      { exists (pred a). unfold a. rewrite length_app. simpl length. lia. }
      rewrite Ha1 in Hcalls, Hrl.
      exists w'. rewrite (rate_limit_calls_S _ _ _ _ _ Hrun), Hcalls.
      replace (S n `min` S a1)%nat with (S (n `min` a1)) by lia.
      split_and!.
      * reflexivity.
      * rewrite Hticks. unfold w1. simpl. lia.
      * rewrite Hrl. unfold w1. rewrite ratelimits_set, upcoming_shift.
        destruct (n `min` a1)%nat as [|m]; [done|].
        rewrite insert_insert_eq. by rewrite <- (assoc_L (++)).
    + assert (MAX_REVIEWS_PER_HOUR ≤ Z.of_nat (length r)) as Hge' by lia.
      destruct (rate_limit_ok_deny uid w n r Hwin Hge') as [Hrun Hwin1].
      set (w1 := set_ratelimits _ (tick w)) in *.
      destruct (IH uid w1 _ Hwin1) as (w' & Hcalls & Hticks & Hrl).
      fold a in Hcalls, Hrl.
      exists w'. rewrite (rate_limit_calls_S _ _ _ _ _ Hrun), Hcalls.
      assert (a = 0%nat) as -> by (unfold a; lia).
      rewrite !Nat.min_0_r, !Nat.sub_0_r in *.
      split_and!.
      * reflexivity.
      * rewrite Hticks. unfold w1. simpl. lia.
      * rewrite Hrl. done.
Qed.

Lemma filter_all_stale (t : Z) (l : list Z) :
  Forall (λ s, s ≤ t - HOUR) l → filter (λ s, t - HOUR < s) l = [].
Proof.
  induction 1 as [|s l Hs _ IH]; [done|].
  rewrite filter_cons_False by lia. exact IH.
Qed.

(** C4.  A user whose stored timestamps are all older than one hour at each
    of the next 2 x ceiling calls (ceiling = 5), the calls lying within one
    hour of each other: the first five calls answer true, the last five
    answer false, and the user's record ends as the instants of the five
    admitted calls.  In any world, a call that answers true has written the
    retained timestamps followed by the instant of the call, and a call
    that answers false has left the collection as it was; the answer is
    true exactly when fewer than five timestamps are retained. *)
Theorem rate_limit_admits_exactly_ceiling (uid : Z) (w : World) :
  let ceiling := Z.to_nat MAX_REVIEWS_PER_HOUR in
  let n := (2 * ceiling)%nat in
  Forall (λ s, ∀ j, (j < n)%nat → s ≤ upcoming w j - HOUR)
         (default [] (ratelimits w !! str uid)) →
  (∀ i j, (i < n)%nat → (j < n)%nat → upcoming w i - HOUR < upcoming w j) →
  (∃ w', rate_limit_calls n uid w
           = (Ok (replicate ceiling true ++ replicate ceiling false)%list, w')
         ∧ ratelimits w'
           = <[str uid := upcoming w <$> seq 0 ceiling]> (ratelimits w))
  ∧ (∀ w0 : World,
       let t := upcoming w0 0 in
       let recent := filter (λ s, t - HOUR < s)
                            (default [] (ratelimits w0 !! str uid)) in
       ∃ b w1, rate_limit_ok uid w0 = (Ok b, w1)
         ∧ b = bool_decide (Z.of_nat (length recent) < MAX_REVIEWS_PER_HOUR)
         ∧ ratelimits w1
           = if b then <[str uid := (recent ++ [t])%list]> (ratelimits w0)
             else ratelimits w0).
Proof.
  intros ceiling n Hstale Hwin. split.
  - assert (in_window w uid n []) as Hin.
    { split_and!; [|done|done].
      intros j Hj. apply filter_all_stale.
      eapply Forall_impl; [exact Hstale|]. intros s Hs. by apply Hs. }
    destruct (rate_limit_calls_window n uid w [] Hin) as (w' & Hcalls & _ & Hrl).
    exists w'. split; [exact Hcalls|exact Hrl].
  - intros w0 t recent.
    assert (clock w0 (ticks w0) = t) as Hnow
      by (unfold t, upcoming; f_equal; lia).
    eexists _, _. split; [apply rate_limit_ok_run|]. rewrite Hnow.
    destruct (decide (Z.of_nat (length recent) < MAX_REVIEWS_PER_HOUR)) as [Hlt|Hge].
    + rewrite (rate_limit_at_admit t uid _ recent) by done.
      rewrite bool_decide_eq_true_2 by done. by split.
    + rewrite (rate_limit_at_deny t uid _ recent) by (done || lia).
      rewrite bool_decide_eq_false_2 by done. by split.
Qed.

Lemma rate_limit_admits_exactly_ceiling_witness :
  let w := start_world (λ i, Z.of_nat i * 1000000) (λ _, "") (λ _, None) (λ _, "") in
  ∃ w', rate_limit_calls 10 42 w
          = (Ok [true; true; true; true; true; false; false; false; false; false], w')
        ∧ ratelimits w' !! "42" = Some [0; 1000000; 2000000; 3000000; 4000000].
Proof.
  intros w.
  assert (default [] (ratelimits w !! str 42) = []) as Hnone by (by vm_compute).
  destruct (rate_limit_admits_exactly_ceiling 42 w) as [(w' & Hcalls & Hrl) _].
  - rewrite Hnone. constructor.
  - intros i j Hi Hj. change (i < 10)%nat in Hi. change (j < 10)%nat in Hj.
    unfold upcoming, w, start_world, HOUR. cbn [clock ticks]. lia.
  - exists w'. split; [exact Hcalls|]. rewrite Hrl. by vm_compute.
Defined.

End RateLimitFacts.

Module ContentFacts.
Import Text Bot.
Local Open Scope bot_scope.

(** The session [session(uid)] hands out, and the world it leaves. *)
Lemma session_run uid w :
  session uid w
  = (Ok (default (new_Session uid) (sessions w !! uid)),
     match sessions w !! uid with
     | Some _ => w
     | None => set_sessions (λ m, <[uid := new_Session uid]> m) w
     end).
Proof. unfold session. by destruct (sessions w !! uid). Qed.

Lemma session_again uid w :
  (session uid (session uid w).2).1 = (session uid w).1.
Proof.
  rewrite !session_run. simpl.
  destruct (sessions w !! uid) as [s|] eqn:Hs; simpl.
  - by rewrite Hs.
  - by rewrite lookup_insert_eq.
Qed.

Lemma session_result_ext uid w1 w2 :
  sessions w1 = sessions w2 → (session uid w1).1 = (session uid w2).1.
Proof. intros H. rewrite !session_run. simpl. by rewrite H. Qed.

Lemma handler_content_short uid raw w :
  len (strip raw) < 30 →
  handler_content uid raw w
  = (Ok ST_CONTENT,
     set_outbox (λ o, (o ++ [notice uid ERR_SHORT_REVIEW])%list) (session uid w).2).
Proof.
  intros Hlen. unfold handler_content, bind at 1.
  rewrite session_run. simpl.
  rewrite decide_True by done. reflexivity.
Qed.

Lemma session_keeps_rest uid w :
  let w1 := (session uid w).2 in
  banned_cache w1 = banned_cache w ∧ bans w1 = bans w
  ∧ contexts w1 = contexts w ∧ violations w1 = violations w
  ∧ ratelimits w1 = ratelimits w ∧ outbox w1 = outbox w
  ∧ (∀ s, sessions w !! uid = Some s → sessions w1 = sessions w)
  ∧ (∀ u, u ≠ uid → sessions w1 !! u = sessions w !! u).
Proof.
  rewrite session_run. simpl.
  destruct (sessions w !! uid) as [s|] eqn:Hs; simpl; split_and!; try done.
  intros u Hu. by rewrite lookup_insert_ne.
Qed.

(** C6.  In state ST_CONTENT a text whose trimmed length is below 30 is
    answered with the too-short notice and the handler returns ST_CONTENT,
    whatever the content filter would say about the text; the session the
    user gets from [session(uid)] is the same before and after (same active
    draft, same committed list), a session that existed leaves the session
    map as it was, and no context entry is written. *)
Theorem handler_content_short_rejected (uid : Z) (raw : string) (w : World) :
  len (strip raw) < 30 →
  ∃ w',
    handler_content uid raw w = (Ok ST_CONTENT, w')
    ∧ outbox w' = (outbox w ++ [notice uid ERR_SHORT_REVIEW])%list
    ∧ (session uid w').1 = (session uid w).1
    ∧ (∀ s, sessions w !! uid = Some s → sessions w' = sessions w)
    ∧ (∀ u, u ≠ uid → sessions w' !! u = sessions w !! u)
    ∧ contexts w' = contexts w.
Proof.
  intros Hlen. eexists. split; [by apply handler_content_short|].
  destruct (session_keeps_rest uid w) as (_ & _ & Hc & _ & _ & Ho & Hs & Hu).
  split_and!.
  - cbn [outbox set_outbox]. change (outbox (set_outbox ?f ?x)) with (f (outbox x)).
    by rewrite Ho.
  - rewrite <- (session_again uid w). by apply session_result_ext.
  - exact Hs.
  - exact Hu.
  - exact Hc.
Qed.

Lemma handler_content_short_rejected_witness :
  let w := start_world (λ _, 0) (λ _, "") (λ _, None) (λ _, "") in
  contains_profanity (strip "  ሰላም idiot ሰላም ሰላም  ") = true
  ∧ ∃ w', handler_content 42 "  ሰላም idiot ሰላም ሰላም  " w = (Ok ST_CONTENT, w')
          ∧ outbox w' = [notice 42 ERR_SHORT_REVIEW].
Proof.
  intros w. split; [by vm_compute|].
  destruct (handler_content_short_rejected 42 "  ሰላም idiot ሰላም ሰላም  " w)
    as (w' & Hrun & Hout & _); [by vm_compute|].
  exists w'. split; [exact Hrun|exact Hout].
Defined.

(** C10.  The length test comes first: a text whose trimmed length is below
    30 leaves the violation counts and both ban sets exactly as they were,
    also when the text contains words of the profanity set. *)
Theorem handler_content_short_no_strike (uid : Z) (raw : string) (w : World) :
  len (strip raw) < 30 →
  ∃ w',
    handler_content uid raw w = (Ok ST_CONTENT, w')
    ∧ violations w' = violations w
    ∧ banned_cache w' = banned_cache w
    ∧ bans w' = bans w.
Proof.
  intros Hlen. eexists. split; [by apply handler_content_short|].
  destruct (session_keeps_rest uid w) as (Hb & Hb' & _ & Hv & _).
  by split_and!.
Qed.

Lemma handler_content_short_no_strike_witness :
  let w := set_violations (λ _, {[ "42" := 2 ]})
             (start_world (λ _, 0) (λ _, "") (λ _, None) (λ _, "")) in
  contains_profanity (strip "መምህሩ dedeb ነው፣ wusha ነው!") = true
  ∧ ∃ w', handler_content 42 "መምህሩ dedeb ነው፣ wusha ነው!" w = (Ok ST_CONTENT, w')
          ∧ violations w' !! "42" = Some 2 ∧ banned_cache w' = ∅.
Proof.
  intros w. split; [by vm_compute|].
  destruct (handler_content_short_no_strike 42 "መምህሩ dedeb ነው፣ wusha ነው!" w)
    as (w' & Hrun & Hv & Hb & _); [by vm_compute|].
  exists w'. split; [exact Hrun|]. by rewrite Hv, Hb.
Defined.

Lemma handler_content_flagged uid raw w :
  30 ≤ len (strip raw) → contains_profanity (strip raw) = true →
  let w1 := (session uid w).2 in
  let strikes := default 0 (violations w1 !! str uid) + 1 in
  let w2 := set_violations (λ v, <[str uid := strikes]> v) w1 in
  handler_content uid raw w
  = if decide (MAX_PROFANITY_STRIKES ≤ strikes) then
      (Ok END,
       set_sessions (λ m, delete uid m)
         (set_outbox (λ o, (o ++ [notice uid ERR_PROFANITY_BANNED])%list)
            (set_banned (λ b, {[uid]} ∪ b) w2)))
    else
      (Ok ST_CONTENT,
       set_outbox (λ o, (o ++ [notice uid (ERR_PROFANITY_STRIKE strikes)])%list) w2).
Proof.
  intros Hlen Hprof. cbv zeta.
  unfold handler_content. unfold bind at 1.
  destruct (session uid w) as [[s|e] w1] eqn:Hs;
    [|rewrite session_run in Hs; discriminate].
  cbn [snd]. rewrite decide_False by lia. rewrite Hprof.
  unfold bind at 1, add_violation.
  destruct (decide (MAX_PROFANITY_STRIKES ≤ default 0 (violations w1 !! str uid) + 1));
    reflexivity.
Qed.

(** C7.  In state ST_CONTENT a text of trimmed length at least 30 that the
    filter flags raises the user's violation count by one.  If the new count
    reaches the strike ceiling (3) the user is put into both ban sets, told
    so, the session is dropped and the conversation ends; below the ceiling
    the user gets the notice carrying the new count, the handler returns
    ST_CONTENT, nobody is banned and the session the user gets from
    [session(uid)] is the one from before: the text has not been stored in
    the draft and nothing has been committed. *)
Theorem handler_content_profanity_strikes (uid : Z) (raw : string) (w : World) :
  30 ≤ len (strip raw) →
  contains_profanity (strip raw) = true →
  let strikes := default 0 (violations w !! str uid) + 1 in
  ∃ w',
    violations w' = <[str uid := strikes]> (violations w)
    ∧ if decide (MAX_PROFANITY_STRIKES ≤ strikes) then
        handler_content uid raw w = (Ok END, w')
        ∧ banned_cache w' = {[uid]} ∪ banned_cache w
        ∧ bans w' = {[uid]} ∪ bans w
        ∧ is_banned uid w' = (Ok true, w')
        ∧ sessions w' !! uid = None
        ∧ outbox w' = (outbox w ++ [notice uid ERR_PROFANITY_BANNED])%list
      else
        handler_content uid raw w = (Ok ST_CONTENT, w')
        ∧ banned_cache w' = banned_cache w
        ∧ bans w' = bans w
        ∧ (session uid w').1 = (session uid w).1
        ∧ outbox w' = (outbox w ++ [notice uid (ERR_PROFANITY_STRIKE strikes)])%list
        ∧ contexts w' = contexts w.
Proof.
  intros Hlen Hprof strikes.
  pose proof (handler_content_flagged uid raw w Hlen Hprof) as Hrun.
  destruct (session_keeps_rest uid w) as (Hb & Hb' & Hc & Hv & _ & Ho & _ & _).
  cbv zeta in Hrun. rewrite Hv in Hrun. fold strikes in Hrun.
  destruct (decide (MAX_PROFANITY_STRIKES ≤ strikes)) as [Hge|Hlt].
  - eexists. split; [|split_and!; [exact Hrun|..]].
    + cbn. by rewrite Hv.
    + cbn. by rewrite Hb.
    + cbn. by rewrite Hb'.
    + unfold is_banned, gets. f_equal. f_equal. cbn.
      apply bool_decide_eq_true_2. apply elem_of_union_l. by apply elem_of_singleton.
    + cbn. apply lookup_delete_eq.
    + cbn. by rewrite Ho.
  - eexists. split; [|split_and!; [exact Hrun|..]].
    + cbn. by rewrite Hv.
    + cbn. by rewrite Hb.
    + cbn. by rewrite Hb'.
    + rewrite <- (session_again uid w). by apply session_result_ext.
    + cbn. by rewrite Ho.
    + cbn. by rewrite Hc.
Qed.

Lemma handler_content_profanity_strikes_witness :
  let raw := "ይህ መምህር IDIOT ነው፤ ትምህርቱ በጣም መጥፎ ነበር።" in
  let w := set_violations (λ _, {[ "42" := 2 ]})
             (start_world (λ _, 0) (λ _, "") (λ _, None) (λ _, "")) in
  ∃ w', handler_content 42 raw w = (Ok END, w')
        ∧ violations w' !! "42" = Some 3
        ∧ banned_cache w' = {[42]} ∪ ∅
        ∧ sessions w' !! 42 = None.
Proof.
  intros raw w.
  destruct (handler_content_profanity_strikes 42 raw w) as (w' & Hv & Hrest).
  - by vm_compute.
  - by vm_compute.
  - rewrite decide_True in Hrest by (by vm_compute).
    destruct Hrest as (Hrun & Hb & _ & _ & Hs & _).
    exists w'. split_and!; [exact Hrun| |exact Hb|exact Hs].
    rewrite Hv. by vm_compute.
Defined.

End ContentFacts.

Module TextFacts.
Import Text.

(** *** Code points and bytes *)

Lemma first_chunk_bytes s c rest :
  first_chunk s = Some (c, rest) →
  s = c.2 +:+ rest ∧ (String.length rest < String.length s)%nat.
Proof.
  destruct s as [|a1 [|a2 [|a3 [|a4 r4]]]]; cbn [first_chunk];
    repeat match goal with |- context [if ?b then _ else _] => destruct b end;
    intros H; simplify_eq; cbn; split; (reflexivity || lia).
Qed.

Lemma first_chunk_None s : first_chunk s = None → s = EmptyString.
Proof.
  destruct s as [|a1 [|a2 [|a3 [|a4 r4]]]]; cbn [first_chunk];
    repeat match goal with |- context [if ?b then _ else _] => destruct b end;
    intros H; by simplify_eq.
Qed.

Lemma chunks_upto_enough n : ∀ m s,
  (String.length s ≤ n)%nat → (String.length s ≤ m)%nat →
  chunks_upto n s = chunks_upto m s.
Proof.
  induction n as [|n IH]; intros m s Hn Hm.
  - destruct s; [|cbn in Hn; lia]. by destruct m.
  - destruct m as [|m].
    + destruct s; [done|cbn in Hm; lia].
    + cbn [chunks_upto]. destruct (first_chunk s) as [[c rest]|] eqn:Hf; [|done].
      apply first_chunk_bytes in Hf as [_ Hlen]. f_equal. apply IH; lia.
Qed.

Lemma chunks_unfold s :
  chunks s = match first_chunk s with
             | Some (c, rest) => c :: chunks rest
             | None => []
             end.
Proof.
  unfold chunks. destruct s as [|a s]; [done|].
  change (String.length (String a s)) with (S (String.length s)).
  cbn [chunks_upto]. destruct (first_chunk (String a s)) as [[c rest]|] eqn:Hf; [|done].
  apply first_chunk_bytes in Hf as [_ Hlen]. cbn in Hlen.
  f_equal. apply chunks_upto_enough; lia.
Qed.

Lemma append_nil (s : string) : EmptyString +:+ s = s.
Proof. reflexivity. Qed.

Lemma append_cons c (s t : string) : String c s +:+ t = String c (s +:+ t).
Proof. reflexivity. Qed.

Lemma append_assoc (a b c : string) : (a +:+ b) +:+ c = a +:+ (b +:+ c).
Proof.
  induction a as [|x a IH]; [done|].
  change (String x ((a +:+ b) +:+ c) = String x (a +:+ (b +:+ c))).
  by rewrite IH.
Qed.

Lemma bytes_app l1 l2 : join (l1 ++ l2) = join l1 +:+ join l2.
Proof.
  induction l1 as [|c l1 IH]; [done|].
  change (join ((c :: l1) ++ l2)) with (c.2 +:+ join (l1 ++ l2)).
  change (join (c :: l1)) with (c.2 +:+ join l1).
  by rewrite IH, append_assoc.
Qed.

Lemma bytes_cons c l : join (c :: l) = c.2 +:+ join l.
Proof. reflexivity. Qed.

(** The bytes of the code points of [s] are [s]. *)
Lemma bytes_chunks s : join (chunks s) = s.
Proof.
  remember (String.length s) as n eqn:Hn. revert s Hn.
  induction n as [n IH] using lt_wf_ind. intros s ->.
  rewrite chunks_unfold. destruct (first_chunk s) as [[c rest]|] eqn:Hf.
  - apply first_chunk_bytes in Hf as [Hs Hlen].
    rewrite bytes_cons, (IH _ Hlen rest eq_refl). by rewrite <- Hs.
  - by apply first_chunk_None in Hf as ->.
Qed.

(** The first code point of a text is read from its own bytes and no more
    of what follows than is there: cutting the text after any of the bytes
    that follow leaves it the first code point. *)
Lemma first_chunk_cut s c p q :
  first_chunk s = Some (c, p +:+ q) → first_chunk (c.2 +:+ p) = Some (c, p).
Proof.
  destruct s as [|a1 [|a2 [|a3 [|a4 r4]]]]; cbn [first_chunk];
    repeat match goal with
           | |- context [if ?b then _ else _] => destruct b eqn:?
           end;
    intros Hf; simplify_eq;
    destruct p as [|x1 [|x2 [|x3 p4]]];
    rewrite ?append_cons, ?append_nil in *; simplify_eq;
    cbn [snd]; rewrite ?append_cons, ?append_nil; cbn [first_chunk];
    repeat match goal with
           | H : ?b = _ |- context [if ?b then _ else _] => rewrite H
           end;
    reflexivity.
Qed.

Lemma chunks_cons s c l :
  chunks s = c :: l →
  ∃ rest, first_chunk s = Some (c, rest) ∧ chunks rest = l.
Proof.
  rewrite chunks_unfold. destruct (first_chunk s) as [[c' rest]|]; [|done].
  intros H. simplify_eq. by exists rest.
Qed.

Lemma chunks_suffix l1 : ∀ l2 s, chunks s = (l1 ++ l2)%list → chunks (join l2) = l2.
Proof.
  induction l1 as [|c l1 IH]; intros l2 s Hs.
  - cbn in Hs. by rewrite <- Hs, bytes_chunks.
  - apply chunks_cons in Hs as (rest & _ & Hrest). by apply (IH l2 rest).
Qed.

Lemma chunks_prefix l1 : ∀ l2 s, chunks s = (l1 ++ l2)%list → chunks (join l1) = l1.
Proof.
  induction l1 as [|c l1 IH]; intros l2 s Hs; [done|].
  apply chunks_cons in Hs as (rest & Hf & Hrest).
  assert (rest = join l1 +:+ join l2) as Heq
    by (rewrite <- (bytes_chunks rest) at 1; by rewrite Hrest, bytes_app).
  rewrite Heq in Hf. apply first_chunk_cut in Hf.
  rewrite chunks_unfold, bytes_cons, Hf.
  f_equal. by apply (IH l2 rest).
Qed.

(** *** Trimming *)

Lemma ltrim_suffix {A} (sp : A → bool) l : ∃ l1, l = (l1 ++ ltrim sp l)%list.
Proof.
  induction l as [|x l [l1 IH]]; [by exists []|]. cbn [ltrim].
  destruct (sp x); [|by exists []]. exists (x :: l1). cbn. by rewrite <- IH.
Qed.

Lemma rtrim_prefix {A} (sp : A → bool) l : ∃ l2, l = (rtrim sp l ++ l2)%list.
Proof.
  induction l as [|x l [l2 IH]]; [by exists []|]. cbn [rtrim].
  destruct (rtrim sp l) as [|y r] eqn:Hr.
  - destruct (sp x).
    + by exists (x :: l).
    + exists l2. cbn. by rewrite IH.
  - exists l2. cbn. by rewrite IH.
Qed.

Lemma ltrim_fmap {A B} (f : A → B) (sp : B → bool) l :
  f <$> ltrim (λ x, sp (f x)) l = ltrim sp (f <$> l).
Proof.
  induction l as [|x l IH]; [done|]. cbn [ltrim fmap list_fmap].
  destruct (sp (f x)); [exact IH|done].
Qed.

Lemma rtrim_fmap {A B} (f : A → B) (sp : B → bool) l :
  f <$> rtrim (λ x, sp (f x)) l = rtrim sp (f <$> l).
Proof.
  induction l as [|x l IH]; [done|]. cbn [rtrim fmap list_fmap].
  fold (f <$> l). rewrite <- IH.
  destruct (rtrim (λ x, sp (f x)) l); [by destruct (sp (f x))|done].
Qed.

(** The code points of the stripped text are those of the text without the
    white space at its two ends. *)
Lemma decode_strip s :
  decode (strip s) = rtrim is_space (ltrim is_space (decode s)).
Proof.
  unfold decode, strip.
  set (sp := λ c : N * string, is_space c.1).
  destruct (ltrim_suffix sp (chunks s)) as [l1 Hl].
  destruct (rtrim_prefix sp (ltrim sp (chunks s))) as [l2 Hr].
  assert (chunks (join (ltrim sp (chunks s))) = ltrim sp (chunks s)) as Hmid
    by (by apply (chunks_suffix l1 _ s)).
  rewrite Hr in Hmid at 2.
  rewrite (chunks_prefix _ l2 _ Hmid).
  unfold sp. by rewrite (rtrim_fmap fst is_space), (ltrim_fmap fst is_space).
Qed.

(** *** The tables *)

Lemma in_ranges_true t c :
  in_ranges t c = true → ∃ lo hi, (lo, hi) ∈ t ∧ (lo ≤ c ≤ hi)%N.
Proof.
  unfold in_ranges. intros H. apply existsb_exists in H as ([lo hi] & Hin & Hb).
  exists lo, hi. split; [by apply list_elem_of_In|].
  unfold between in Hb. cbn [fst snd] in Hb.
  apply andb_prop in Hb as [H1 H2].
  apply N.leb_le in H1. apply N.leb_le in H2. lia.
Qed.

(** No white space is a word character. *)
Lemma space_not_word c : is_space c = true → is_word c = false.
Proof.
  intros Hs. destruct (is_word c) eqn:Hw; [|done].
  apply in_ranges_true in Hs as (lo & hi & Hin & Hr).
  apply in_ranges_true in Hw as (lo' & hi' & Hin' & Hr').
  assert (forallb (λ s, forallb (λ w, (w.2 <? s.1)%N || (s.2 <? w.1)%N) WORD_RANGES)
            SPACE_RANGES = true) as Hdis by (by vm_compute).
  rewrite forallb_forall in Hdis.
  apply list_elem_of_In in Hin. specialize (Hdis _ Hin).
  rewrite forallb_forall in Hdis.
  apply list_elem_of_In in Hin'. specialize (Hdis _ Hin'). cbn [fst snd] in Hdis.
  apply orb_prop in Hdis as [H|H]; apply N.ltb_lt in H; lia.
Qed.

Lemma assoc_elem c t v : assoc c t = Some v → (c, v) ∈ t.
Proof.
  induction t as [|[k x] t IH]; [done|]. cbn [assoc].
  destruct (k =? c)%N eqn:Hk.
  - apply N.eqb_eq in Hk as ->. intros H. simplify_eq. by left.
  - intros H. right. by apply IH.
Qed.

(** Lower case keeps a code point on its side of [\w]; the lower case of
    U+0130 alone, a letter followed by a combining dot, does not. *)
Lemma lower_cp_word c :
  c ≠ 304%N → ∃ c', lower_cp c = [c'] ∧ is_word c' = is_word c.
Proof.
  intros Hc. unfold lower_cp.
  destruct (c =? 304)%N eqn:E; [by apply N.eqb_eq in E|].
  eexists. split; [reflexivity|].
  destruct (assoc c LOWER_TABLE) as [v|] eqn:Ha; [|done]. cbn [default].
  apply assoc_elem in Ha.
  assert (forallb (λ p, Bool.eqb (is_word p.2) (is_word p.1)) LOWER_TABLE = true)
    as Hall by (by vm_compute).
  rewrite forallb_forall in Hall. apply list_elem_of_In in Ha.
  specialize (Hall _ Ha). cbn [fst snd] in Hall. by apply Bool.eqb_prop in Hall.
Qed.

Lemma word_304 : is_word 304 = true.
Proof. by vm_compute. Qed.

Lemma word_931 : is_word 931 = true.
Proof. by vm_compute. Qed.

(** The words of the profanity set are made of ASCII word characters. *)
Lemma profanity_ascii w :
  w ∈ PROFANITY_SET → w ≠ [] ∧ Forall (λ c, (c < 128)%N ∧ is_word c = true) w.
Proof.
  unfold PROFANITY_SET. rewrite elem_of_list_to_set. intros Hin.
  assert (forallb (λ w, negb (bool_decide (w = []))
                        && forallb (λ c, (c <? 128)%N && is_word c) w)
            (decode <$> PROFANITY_WORDS) = true) as Hall by (by vm_compute).
  rewrite forallb_forall in Hall. apply list_elem_of_In in Hin.
  specialize (Hall _ Hin). apply andb_prop in Hall as [Hne Hall]. split.
  - apply negb_true_iff, bool_decide_eq_false in Hne. exact Hne.
  - apply Forall_forall. intros c Hc. rewrite forallb_forall in Hall.
    apply list_elem_of_In in Hc. specialize (Hall _ Hc).
    apply andb_prop in Hall as [H1 H2]. apply N.ltb_lt in H1. by split.
Qed.

(** *** Tokens *)

Lemma ends_nonword_snoc p c : ends_nonword (p ++ [c]) = negb (is_word c).
Proof. unfold ends_nonword. by rewrite last_snoc. Qed.

Lemma ends_nonword_app p c q : ends_nonword (p ++ c :: q) = ends_nonword (c :: q).
Proof. unfold ends_nonword. by rewrite last_app_cons. Qed.

Lemma ends_nonword_inv p :
  ends_nonword p = true → p = [] ∨ ∃ p' c, p = (p' ++ [c])%list ∧ is_word c = false.
Proof.
  destruct p as [|x p] using rev_ind; [by left|]. clear IHp.
  rewrite ends_nonword_snoc. intros H. right. exists p, x.
  split; [done|]. by apply negb_true_iff.
Qed.

Lemma all_word_app a b : all_word (a ++ b) = all_word a && all_word b.
Proof. unfold all_word. by rewrite forallb_app. Qed.

(** A run of word characters is taken into the token under construction. *)
Lemma findall_go_run w : ∀ cur s,
  all_word w = true → findall_go cur (w ++ s) = findall_go (cur ++ w) s.
Proof.
  induction w as [|c w IH]; intros cur s Hw.
  - by rewrite app_nil_r.
  - cbn [all_word forallb] in Hw. apply andb_prop in Hw as [Hc Hw].
    cbn [app findall_go]. rewrite Hc, IH by done.
    by rewrite <- (assoc_L (++)).
Qed.

(** What follows a text that ends on a non-word character is tokenised on
    its own. *)
Lemma findall_go_after x pre : ∀ cur s,
  pre ≠ [] → ends_nonword pre = true →
  x ∈ findall_go [] s → x ∈ findall_go cur (pre ++ s).
Proof.
  induction pre as [|c pre IH]; intros cur s Hne Hend Hx; [done|].
  destruct pre as [|c' pre'].
  - cbn [app findall_go]. unfold ends_nonword in Hend. cbn in Hend.
    apply negb_true_iff in Hend. rewrite Hend. apply elem_of_app. by right.
  - assert (ends_nonword (c' :: pre') = true) as Hend'
      by (by rewrite <- (ends_nonword_app [c])).
    assert (x ∈ findall_go (cur ++ [c]) ((c' :: pre') ++ s)
            ∧ x ∈ findall_go [] ((c' :: pre') ++ s)) as [H1 H2]
      by (split; apply IH; done).
    change ((c :: c' :: pre') ++ s)%list with (c :: ((c' :: pre') ++ s))%list.
    cbn [findall_go]. destruct (is_word c); [exact H1|].
    apply elem_of_app. by right.
Qed.

Lemma flush_nonempty w : w ≠ [] → flush w = [w].
Proof. by destruct w. Qed.

(** A token of the text is one of the strings [re.findall] returns. *)
Lemma has_token_findall w text : has_token w text → w ∈ findall_w text.
Proof.
  intros (pre & post & -> & Hne & Hw & Hpre & Hpost).
  assert (w ∈ findall_go [] (w ++ post)) as Hin.
  { rewrite findall_go_run by done. cbn [app].
    destruct post as [|c post]; cbn [findall_go].
    - rewrite flush_nonempty by done. by apply list_elem_of_singleton.
    - cbn [starts_nonword] in Hpost. apply negb_true_iff in Hpost.
      rewrite Hpost, flush_nonempty by done. apply elem_of_app. left.
      by apply list_elem_of_singleton. }
  unfold findall_w. destruct pre as [|c pre]; [done|].
  by apply findall_go_after.
Qed.

(** Every string [re.findall] returns is a token of the text. *)
Lemma findall_go_tokens x s : ∀ cur pre0,
  all_word cur = true → ends_nonword pre0 = true →
  x ∈ findall_go cur s →
  ∃ pre post,
    (pre0 ++ cur ++ s = pre ++ x ++ post)%list
    ∧ x ≠ [] ∧ all_word x = true
    ∧ ends_nonword pre = true ∧ starts_nonword post = true.
Proof.
  induction s as [|c s IH]; intros cur pre0 Hcur Hpre Hx; cbn [findall_go] in Hx.
  - destruct cur as [|a cur]; [by apply elem_of_nil in Hx|].
    apply list_elem_of_singleton in Hx as ->.
    by exists pre0, [].
  - destruct (is_word c) eqn:Hc.
    + destruct (IH (cur ++ [c])%list pre0) as (pre & post & Heq & Hrest);
        [by rewrite all_word_app, Hcur; cbn; rewrite Hc|done|done|].
      exists pre, post. split; [|done]. rewrite <- Heq.
      by rewrite <- !(assoc_L (++)).
    + apply elem_of_app in Hx as [Hx|Hx].
      * destruct cur as [|a cur]; [by apply elem_of_nil in Hx|].
        apply list_elem_of_singleton in Hx as ->.
        exists pre0, (c :: s). split_and!; try done. cbn. by rewrite Hc.
      * destruct (IH [] (pre0 ++ cur ++ [c])%list)
          as (pre & post & Heq & Hrest); [done| |done|].
        { rewrite (assoc_L (++)), ends_nonword_snoc. by rewrite Hc. }
        exists pre, post. split; [|done]. rewrite <- Heq.
        cbn [app]. by rewrite <- !(assoc_L (++)).
Qed.

(** *** Lower case, code point by code point *)

(** The lower case of a text is made of the lower case of its code points,
    one after the other; that of a capital sigma is one of the two small
    sigmas, whichever the text around it asks for. *)
Lemma lower_go_images s : ∀ prev,
  ∃ imgs,
    lower_go prev s = mjoin imgs
    ∧ Forall2 (λ c img, if (c =? 931)%N
                        then img = [962%N] ∨ img = [963%N]
                        else img = lower_cp c) s imgs.
Proof.
  induction s as [|c s IH]; intros prev; [by exists []|].
  destruct (IH (c :: prev)) as (imgs & Heq & Hall).
  cbn [lower_go]. rewrite Heq.
  eexists (_ :: imgs). split; [reflexivity|]. constructor; [|done].
  destruct (c =? 931)%N; [|done].
  destruct (final_sigma prev s); [by left|by right].
Qed.

Lemma images_plain s imgs :
  Forall2 (λ c img, if (c =? 931)%N
                    then img = [962%N] ∨ img = [963%N]
                    else img = lower_cp c) s imgs →
  931%N ∉ s → imgs = lower_cp <$> s.
Proof.
  induction 1 as [|c img s imgs Hc _ IH]; intros Hno; [done|].
  rewrite not_elem_of_cons in Hno. destruct Hno as [Hne Hno].
  destruct (c =? 931)%N eqn:E; [by apply N.eqb_eq in E|].
  cbn. by rewrite Hc, IH.
Qed.

Lemma images_sigma s imgs :
  Forall2 (λ c img, if (c =? 931)%N
                    then img = [962%N] ∨ img = [963%N]
                    else img = lower_cp c) s imgs →
  931%N ∈ s → 962%N ∈ mjoin imgs ∨ 963%N ∈ mjoin imgs.
Proof.
  induction 1 as [|c img s imgs Hc _ IH]; intros Hin; [by apply elem_of_nil in Hin|].
  cbn [mjoin list_join]. apply elem_of_cons in Hin as [<-|Hin].
  - cbn in Hc. destruct Hc as [-> | ->]; [left|right]; by left.
  - destruct (IH Hin); [left|right]; apply elem_of_app; by right.
Qed.

(** A text whose lower case is a word of the profanity set has no capital
    sigma, so its lower case does not depend on what is around it. *)
Lemma lower_forbidden_plain w :
  lower w ∈ PROFANITY_SET → 931%N ∉ w.
Proof.
  intros Hbad Hin. apply profanity_ascii in Hbad as [_ Hascii].
  unfold lower in Hascii.
  destruct (lower_go_images w []) as (imgs & Heq & Himg).
  rewrite Heq in Hascii. rewrite Forall_forall in Hascii.
  destruct (images_sigma w imgs Himg Hin) as [H|H];
    apply Hascii in H as [H _]; lia.
Qed.

(** The lower case of a text that ends on a non-word character ends on one,
    and that of a text that starts with one starts with one. *)
Lemma images_end_nonword s imgs :
  Forall2 (λ c img, if (c =? 931)%N
                    then img = [962%N] ∨ img = [963%N]
                    else img = lower_cp c) s imgs →
  ends_nonword s = true → ends_nonword (mjoin imgs) = true.
Proof.
  intros Hall Hend. apply ends_nonword_inv in Hend as [->|(p & c & -> & Hc)].
  - by apply Forall2_nil_inv_l in Hall as ->.
  - apply Forall2_app_inv_l in Hall as (i1 & i2 & _ & H2 & ->).
    apply Forall2_cons_inv_l in H2 as (img & i2' & Himg & Hnil & ->).
    apply Forall2_nil_inv_l in Hnil as ->.
    destruct (c =? 931)%N eqn:E.
    { apply N.eqb_eq in E as ->. by rewrite word_931 in Hc. }
    destruct (lower_cp_word c) as (c' & Hl & Hw).
    { intros ->. by rewrite word_304 in Hc. }
    rewrite Himg, Hl, join_app. cbn [mjoin list_join app].
    rewrite ends_nonword_snoc, Hw, Hc. done.
Qed.

Lemma images_start_nonword s imgs :
  Forall2 (λ c img, if (c =? 931)%N
                    then img = [962%N] ∨ img = [963%N]
                    else img = lower_cp c) s imgs →
  starts_nonword s = true → starts_nonword (mjoin imgs) = true.
Proof.
  intros Hall Hst. destruct s as [|c s].
  - by apply Forall2_nil_inv_l in Hall as ->.
  - apply Forall2_cons_inv_l in Hall as (img & imgs' & Himg & _ & ->).
    cbn [starts_nonword] in Hst. apply negb_true_iff in Hst.
    destruct (c =? 931)%N eqn:E.
    { apply N.eqb_eq in E as ->. by rewrite word_931 in Hst. }
    destruct (lower_cp_word c) as (c' & Hl & Hw).
    { intros ->. by rewrite word_304 in Hst. }
    rewrite Himg, Hl. cbn. by rewrite Hw, Hst.
Qed.

(** A forbidden token of the text is a token of its lower case. *)
Lemma has_token_lower w text :
  has_token w text → lower w ∈ PROFANITY_SET →
  has_token (lower w) (lower text).
Proof.
  intros (pre & post & -> & Hne & Hw & Hpre & Hpost) Hbad.
  pose proof (lower_forbidden_plain w Hbad) as Hplain.
  destruct (profanity_ascii _ Hbad) as [Hne' Hascii].
  unfold lower at 2.
  destruct (lower_go_images (pre ++ w ++ post) []) as (imgs & Heq & Hall).
  apply Forall2_app_inv_l in Hall as (i1 & i23 & H1 & H23 & ->).
  apply Forall2_app_inv_l in H23 as (i2 & i3 & H2 & H3 & ->).
  assert (mjoin i2 = lower w) as Hmid.
  { rewrite (images_plain w i2 H2 Hplain). unfold lower.
    destruct (lower_go_images w []) as (imgs' & Heq' & Hall').
    by rewrite Heq', (images_plain w imgs' Hall' Hplain). }
  exists (mjoin i1), (mjoin i3). split_and!.
  - by rewrite Heq, !join_app, Hmid.
  - done.
  - unfold all_word. apply forallb_forall. intros c Hc.
    rewrite Forall_forall in Hascii. apply list_elem_of_In in Hc.
    by apply Hascii in Hc as [_ Hc].
  - by apply (images_end_nonword pre).
  - by apply (images_start_nonword post).
Qed.

(** The filter flags every text one of whose tokens is a forbidden word. *)
Lemma contains_profanity_token text :
  has_forbidden_token text → contains_profanity text = true.
Proof.
  intros (w & Htok & Hbad). unfold contains_profanity.
  apply existsb_exists. exists (lower w). split.
  - apply list_elem_of_In. by apply has_token_findall, has_token_lower.
  - by apply bool_decide_eq_true_2.
Qed.

(** *** [strip] removes no token *)

Lemma ltrim_keeps_token w l :
  has_token w l → has_token w (ltrim is_space l).
Proof.
  intros (pre & post & -> & Hne & Hw & Hpre & Hpost).
  induction pre as [|c pre IH].
  - destruct w as [|x w]; [done|]. cbn [app ltrim].
    assert (is_word x = true) as Hx
      by (cbn [all_word forallb] in Hw; by apply andb_prop in Hw as [Hx _]).
    destruct (is_space x) eqn:Hs; [by rewrite (space_not_word x Hs) in Hx|].
    by exists [], post.
  - cbn [app ltrim]. destruct (is_space c).
    + apply IH. destruct pre as [|c' pre']; [done|].
      by rewrite <- (ends_nonword_app [c]).
    + by exists (c :: pre), post.
Qed.

Lemma rtrim_app_keep {A} (sp : A → bool) a b :
  rtrim sp b ≠ [] → rtrim sp (a ++ b) = (a ++ rtrim sp b)%list.
Proof.
  intros Hb. induction a as [|x a IH]; [done|].
  cbn [app rtrim]. rewrite IH.
  destruct (a ++ rtrim sp b)%list eqn:E; [|done].
  apply app_eq_nil in E as [_ E]. done.
Qed.

Lemma rtrim_word w post :
  w ≠ [] → all_word w = true →
  rtrim is_space (w ++ post) = (w ++ rtrim is_space post)%list.
Proof.
  intros Hne Hw. induction w as [|x w IH]; [done|].
  cbn [all_word forallb] in Hw. apply andb_prop in Hw as [Hx Hw].
  cbn [app rtrim]. destruct w as [|y w].
  - cbn [app]. destruct (rtrim is_space post); [|done].
    destruct (is_space x) eqn:Hs; [by rewrite (space_not_word x Hs) in Hx|done].
  - rewrite IH by done. reflexivity.
Qed.

Lemma rtrim_keeps_token w l :
  has_token w l → has_token w (rtrim is_space l).
Proof.
  intros (pre & post & -> & Hne & Hw & Hpre & Hpost).
  assert (rtrim is_space (w ++ post) = (w ++ rtrim is_space post)%list) as Hr
    by (by apply rtrim_word).
  rewrite rtrim_app_keep; rewrite Hr.
  - exists pre, (rtrim is_space post). split_and!; try done.
    destruct (rtrim_prefix is_space post) as [l2 Hl].
    destruct (rtrim is_space post) as [|c r]; [done|].
    rewrite Hl in Hpost. exact Hpost.
  - by destruct w.
Qed.

(** A forbidden token of a text is a forbidden token of the stripped text. *)
Lemma has_forbidden_token_strip s :
  has_forbidden_token s → has_forbidden_token (strip s).
Proof.
  intros (w & Htok & Hbad). exists w. split; [|done].
  rewrite decode_strip. by apply rtrim_keeps_token, ltrim_keeps_token.
Qed.

(** C8.  A body whose trimmed length is at least 30 and one of whose tokens
    (a maximal run of word characters), lowercased, is a word of the
    profanity set is flagged: [contains_profanity] is true for the body and
    for the trimmed text [handler_content] passes to it.  The length plays
    no part. *)
Theorem contains_profanity_flags_forbidden_token (raw : string) :
  30 ≤ len (strip raw) →
  has_forbidden_token raw →
  contains_profanity raw = true ∧ contains_profanity (strip raw) = true.
Proof.
  intros _ Hbad. split; apply contains_profanity_token; [done|].
  by apply has_forbidden_token_strip.
Qed.

Lemma contains_profanity_flags_forbidden_token_witness :
  contains_profanity (strip "  ይህ መምህር IDIOT ነው፤ ትምህርቱ በጣም መጥፎ ነበር።  ") = true.
Proof.
  assert (30 ≤ len (strip "  ይህ መምህር IDIOT ነው፤ ትምህርቱ በጣም መጥፎ ነበር።  ")) as Hlen
    by (by vm_compute).
  assert (has_forbidden_token "  ይህ መምህር IDIOT ነው፤ ትምህርቱ በጣም መጥፎ ነበር።  ") as Hbad.
  { exists (decode "IDIOT"). split.
    - exists (decode "  ይህ መምህር "), (decode " ነው፤ ትምህርቱ በጣም መጥፎ ነበር።  ").
      split_and!; by vm_compute.
    - by vm_compute. }
  destruct (contains_profanity_flags_forbidden_token _ Hlen Hbad) as [_ H].
  exact H.
Defined.

(** [len] counts code points, not bytes. *)
Example len_counts_code_points : len "መምህሩ ጥሩ ነው በጣም" = 14.
Proof. by vm_compute. Qed.

(** A forbidden word inside a longer run of word characters is no token:
    the filter lets such a text through, also when the run goes on with a
    letter that is not ASCII. *)
Example contains_profanity_not_substring :
  contains_profanity "A foolish weekend in the trashcan_area." = false
  ∧ contains_profanity "éidiot: the lectures were fine otherwise." = false.
Proof. by vm_compute. Qed.

End TextFacts.

Module SubmitFacts.
Import Bot RateLimitFacts ContentFacts.
Local Open Scope bot_scope.


(** One round of the loop for an admitted draft. *)
Lemma submit_loop_admit uid display d rest sub w w1 :
  rate_limit_ok uid w = (Ok true, w1) →
  submit_loop uid display (d :: rest) sub w
  = submit_loop uid display rest
      (if net w1 (n_net w1) is Some _ then sub + 1 else sub)
      (set_outbox
         (λ o, (o ++ admin_msgs (net w1) display uid (n_net w1) [d])%list)
         (next_net
            (set_contexts
               (λ c, <[pending_key (d_id d) := Pending (pending_of uid d)]> c) w1))).
Proof.
  intros Hrl. cbn [submit_loop]. unfold bind at 1. rewrite Hrl. reflexivity.
Qed.

(** The round in which admission fails ends the loop. *)
Lemma submit_loop_deny uid display d rest sub w w1 :
  rate_limit_ok uid w = (Ok false, w1) →
  submit_loop uid display (d :: rest) sub w
  = (Ok sub,
     set_outbox
       (λ o, (o ++ [{| to := uid; body := ERR_RATE_LIMIT sub; reply_to := None;
                       delivered := bool_decide (is_Some (net w1 (n_net w1))) |}])%list)
       (next_net w1)).
Proof.
  intros Hrl. cbn [submit_loop]. unfold bind at 1. rewrite Hrl. reflexivity.
Qed.



Lemma get_display_run uid w :
  get_display uid w = (Ok (display_of w uid), next_net w).
Proof.
  unfold get_display, display_of, bind, attempt, gets, ret. cbn.
  by destruct (net w (n_net w)).
Qed.

Lemma do_submit_run uid (update : bool) w sess :
  sessions w !! uid = Some sess →
  drafts sess ≠ [] →
  let wb := if update
            then set_outbox (λ o, (o ++ [notice uid TRANSMITTING])%list) (next_net w)
            else next_net w in
  do_submit uid update w
  = match submit_loop uid (display_of w uid) (drafts sess) 0 wb with
    | (Ok _, wc) =>
        (Ok END,
         set_outbox
           (λ o, (o ++ [closing_notice uid (net wc (n_net wc))])%list)
           (next_net (set_sessions (λ m, delete uid m) wc)))
    | (Raised e, wc) => (Raised e, wc)
    end.
Proof.
  intros Hs Hne wb. unfold do_submit. unfold bind at 1.
  rewrite session_run, Hs.
  change (default (new_Session uid) (Some sess)) with sess. cbv beta iota.
  destruct (drafts sess) as [|d rest] eqn:Hd; [done|].
  unfold bind at 1. rewrite get_display_run. cbv beta iota.
  unfold bind at 1.
  assert ((if update then send uid TRANSMITTING else ret tt) (next_net w)
          = (Ok tt, wb)) as -> by (unfold wb; by destruct update).
  unfold bind at 1.
  destruct (submit_loop _ _ _ _ wb) as [[sub|e] wc]; reflexivity.
Qed.



End SubmitFacts.

Module ThreadFacts.
Import Text Bot ContentFacts SubmitFacts RateLimitFacts.
Local Open Scope bot_scope.

(** An approval whose channel post goes through. *)
Lemma approve_run user_id rev_id w p m :
  contexts w !! pending_key rev_id = Some (Pending p) →
  net w (n_net w) = Some m →
  ∃ w',
    _approve user_id rev_id w = (Ok tt, w')
    ∧ contexts w' = <[token_of w := Resume (resume_of p m)]> (contexts w)
    ∧ outbox w' !! length (outbox w)
      = Some {| to := CHANNEL_ID; body := channel_post rev_id p (token_of w);
                reply_to := p_parent_msg_id p; delivered := true |}
    ∧ sessions w' = sessions w
    ∧ banned_cache w' = banned_cache w.
Proof.
  intros Hctx Hnet. eexists. split.
  - unfold _approve. unfold bind at 1. unfold get_ctx, gets. rewrite Hctx.
    cbv beta iota. unfold bind at 1, uuid4. cbv beta iota.
    unfold bind at 1, try_send. unfold bind at 1, attempt.
    change (net (next_uuid w) (n_net (next_uuid w))) with (net w (n_net w)).
    rewrite Hnet. reflexivity.
  - cbn. split_and!; try reflexivity.
    rewrite <- !(assoc_L (++)). by apply list_lookup_middle.
Qed.

Lemma substring_all (s : string) : String.substring 0 (String.length s) s = s.
Proof. induction s as [|c s IH]; [done|]. simpl. by rewrite IH. Qed.

Lemma drop4_deep_arg T : drop4 (deep_arg T) = T.
Proof.
  unfold drop4, deep_arg.
  change ("add_" +:+ T) with (String "a" (String "d" (String "d" (String "_" T)))).
  cbn [String.length]. replace (S (S (S (S (String.length T)))) - 4)%nat
    with (String.length T) by lia.
  cbn [String.substring]. apply substring_all.
Qed.

Lemma prefix_deep_arg T : String.prefix "add_" (deep_arg T) = true.
Proof. unfold deep_arg. by destruct T. Qed.

(** [/start add_<token>] by a user who is not banned, the token being in the
    context store: a new session with a draft seeded from the entry. *)
Lemma cmd_start_resume user T w data :
  tg_id user ∉ banned_cache w →
  contexts w !! T = Some data →
  ∃ w' d,
    cmd_start user [deep_arg T] w = (Ok ST_RATING, w')
    ∧ sessions w' !! tg_id user
      = Some {| s_uid := tg_id user; draft := Some d; drafts := [];
                subject_page := 0; current_subjects := [] |}
    ∧ d_parent_msg_id d = ctx_parent_msg_id data
    ∧ d_is_additional d = true
    ∧ d_stream d = ctx_stream data ∧ d_year d = ctx_year data
    ∧ d_subject d = ctx_subject data ∧ d_teacher d = ctx_teacher data
    ∧ contexts w' = contexts w.
Proof.
  intros Hban Hctx. eexists _, _. split.
  - unfold cmd_start. unfold bind at 1. unfold register at 1.
    unfold bind at 1, now. cbv beta iota. unfold modify at 1. cbv beta iota.
    unfold bind at 1, is_banned, gets. cbv beta iota.
    match goal with |- context [bool_decide (?u ∈ banned_cache ?x)] =>
      change (banned_cache x) with (banned_cache w) end.
    rewrite bool_decide_eq_false_2 by done.
    unfold bind at 1, store_session, modify. cbv beta iota.
    unfold bind at 1. rewrite session_run.
    match goal with |- context [sessions ?x !! tg_id user] =>
      change (sessions x) with (<[tg_id user := new_Session (tg_id user)]> (sessions w)) end.
    rewrite lookup_insert_eq. cbv beta iota. cbn [default].
    rewrite prefix_deep_arg, drop4_deep_arg.
    unfold bind at 1, get_ctx, gets. cbv beta iota.
    match goal with |- context [contexts ?x !! T] =>
      change (contexts x) with (contexts w) end.
    rewrite Hctx. cbv beta iota.
    reflexivity.
  - cbn. split; [by rewrite lookup_insert_eq|]. split_and!; reflexivity.
Qed.

Lemma cb_rating_run uid rating w s d :
  sessions w !! uid = Some s → draft s = Some d →
  cb_rating uid rating w
  = (Ok ST_CONTENT,
     set_outbox (λ o, (o ++ [notice uid (RATING_SET rating)])%list)
       (set_sessions (λ m, <[uid := with_draft (set_rating rating d) s]> m) w)).
Proof.
  intros Hs Hd. unfold cb_rating. unfold bind at 1.
  rewrite session_run, Hs. change (default (new_Session uid) (Some s)) with s.
  cbv beta iota. rewrite Hd. reflexivity.
Qed.

(** The answer of [rate_limit_ok] depends on the clock and on the
    [ratelimits] collection only. *)
Lemma rate_limit_ok_ext uid w1 w2 :
  clock w1 = clock w2 → ticks w1 = ticks w2 → ratelimits w1 = ratelimits w2 →
  (rate_limit_ok uid w1).1 = (rate_limit_ok uid w2).1.
Proof. intros Hc Ht Hr. rewrite !rate_limit_ok_run. cbn. by rewrite Hc, Ht, Hr. Qed.

(** The body of a follow-up that passes the length test and the filter and
    is admitted by the rate limiter: the draft is committed and submitted
    at once, alone; its pending entry carries the draft as it is. *)
Lemma handler_content_followup uid raw w s d :
  sessions w !! uid = Some s → draft s = Some d → drafts s = [] →
  d_is_additional d = true →
  30 ≤ len (strip raw) → contains_profanity (strip raw) = false →
  (rate_limit_ok uid w).1 = Ok true →
  ∃ w',
    handler_content uid raw w = (Ok END, w')
    ∧ contexts w'
      = <[pending_key (d_id d) :=
            Pending (pending_of uid (set_content (strip raw) d))]> (contexts w)
    ∧ sessions w' !! uid = None.
Proof.
  intros Hs Hd Hds Hadd Hlen Hprof Hrl.
  set (d' := set_content (strip raw) d).
  set (s' := commit_draft (with_draft d' s)).
  set (wS := set_sessions (λ m, <[uid := s']> m) w).
  assert (drafts s' = [d']) as Hds'
    by (unfold s', commit_draft, with_draft; cbn; by rewrite Hds).
  assert (handler_content uid raw w = do_submit uid true wS) as ->.
  { unfold handler_content. unfold bind at 1.
    rewrite session_run, Hs. change (default (new_Session uid) (Some s)) with s.
    cbv beta iota. rewrite decide_False by lia. rewrite Hprof, Hd.
    fold d'. fold s'. unfold bind at 1, store_session, modify. cbv beta iota.
    rewrite Hds'. cbn [last fmap option_fmap option_map default].
    change (d_is_additional d') with (d_is_additional d). rewrite Hadd.
    reflexivity. }
  assert (sessions wS !! uid = Some s') as HsS by apply lookup_insert_eq.
  assert (drafts s' ≠ []) as Hne by (by rewrite Hds').
  rewrite (do_submit_run uid true wS s' HsS Hne). rewrite Hds'.
  set (wb := set_outbox _ (next_net wS)).
  assert ((rate_limit_ok uid wb).1 = Ok true) as Hrlb
    by (rewrite <- Hrl; by apply rate_limit_ok_ext).
  destruct (rate_limit_ok uid wb) as [b w1] eqn:Hrun. cbn [fst] in Hrlb. subst b.
  rewrite (submit_loop_admit _ _ _ _ _ _ _ Hrun). cbn [submit_loop]. unfold ret.
  assert (contexts w1 = contexts w ∧ sessions w1 = sessions wS) as [Hc1 Hs1].
  { rewrite rate_limit_ok_run in Hrun. injection Hrun as _ <-. by split. }
  eexists. split; [reflexivity|]. cbn.
  rewrite Hc1, Hs1. split; [reflexivity|]. apply lookup_delete_eq.
Qed.

Lemma next_parent_kept p m a :
  p_parent_msg_id p = Some a → a ≠ 0 → next_parent_of p m = a.
Proof. intros Hp Ha. unfold next_parent_of. rewrite Hp. by rewrite decide_False. Qed.

Lemma next_parent_own p m :
  p_parent_msg_id p = None → next_parent_of p m = m.
Proof. intros Hp. unfold next_parent_of. by rewrite Hp. Qed.

(** The latest token of a thread started by message [A] is stored with
    parent [A]. *)
Lemma chain_parent A w T :
  A ≠ 0 → follow_up_chain A w T →
  ∃ r, contexts w !! T = Some (Resume r) ∧ r_parent_msg_id r = A.
Proof.
  intros HA Hchain.
  induction Hchain
    as [w w' user_id rev_id p Hctx Hnone Hnet Hrun
       | w0 T w1 user rating text w2 w3 w4 rid w5 m w6 _ IH
           Hkeep Hban Hstart Hrid Hrate Hlen Hprof Hrl Hcontent Hkeep5 Hnet Hrun].
  - destruct (approve_run user_id rev_id w p A Hctx Hnet)
      as (w'' & Hrun' & Hc & _).
    rewrite Hrun in Hrun'. injection Hrun' as <-.
    exists (resume_of p A). rewrite Hc, lookup_insert_eq.
    split; [done|]. cbn. by apply next_parent_own.
  - destruct IH as (r & Hr & Hpar).
    rewrite <- Hkeep in Hr.
    destruct (cmd_start_resume user T w1 _ Hban Hr)
      as (w2' & d & Hstart' & Hs2 & Hdpar & Hdadd & _).
    rewrite Hstart in Hstart'. injection Hstart' as <-.
    assert (rid = d_id d) as ->.
    { unfold active_draft in Hrid. rewrite Hs2 in Hrid. cbn in Hrid. congruence. }
    rewrite (cb_rating_run _ _ _ _ _ Hs2 eq_refl) in Hrate.
    injection Hrate as Hw3.
    set (d3 := set_rating rating d) in *.
    set (s2 := mkSession (tg_id user) (Some d) [] 0 []) in *.
    assert (sessions w3 !! tg_id user = Some (with_draft d3 s2)) as Hs3.
    { rewrite <- Hw3. exact (lookup_insert_eq (sessions w2) (tg_id user) _). }
    destruct (handler_content_followup (tg_id user) text w3 _ d3
                Hs3 eq_refl eq_refl Hdadd Hlen Hprof Hrl)
      as (w4' & Hcontent' & Hc4 & _).
    rewrite Hcontent in Hcontent'. injection Hcontent' as <-.
    rewrite Hc4 in Hkeep5. change (d_id d3) with (d_id d) in Hkeep5.
    rewrite lookup_insert_eq in Hkeep5.
    destruct (approve_run (tg_id user) (d_id d) w5 _ m Hkeep5 Hnet)
      as (w6' & Hrun' & Hc6 & _).
    rewrite Hrun in Hrun'. injection Hrun' as <-.
    eexists. rewrite Hc6, lookup_insert_eq. split; [reflexivity|].
    cbn [r_parent_msg_id resume_of]. apply next_parent_kept; [|done].
    cbn. rewrite Hdpar. cbn. by rewrite Hpar.
Qed.

(** A handler that answers [a] runs to the world it leaves. *)
Lemma run_ok {X} (m : M X) (w : World) (a : X) :
  (m w).1 = Ok a → m w = (Ok a, (m w).2).
Proof. destruct (m w) as [r w']. cbn. by intros ->. Qed.

(** C9.  Message ids are the transport's and never 0.  For a thread started
    by the channel message [A] and its latest token [T]:
    the resume entry stored under [T] has parent [A], however many
    follow-ups were approved before;
    a user who opens the deep link of [T] while it is stored gets a draft
    marked as follow-up whose thread parent is [A];
    and whenever a pending draft is approved and its channel post goes
    through, the post replies to the parent the draft carried, and the
    entry under the freshly issued token records that parent if the draft
    carried one, and the id of the new message if it carried none. *)
Theorem approve_keeps_thread_parent (A : Z) (w : World) (T : string) :
  A ≠ 0 →
  follow_up_chain A w T →
  (∃ r, contexts w !! T = Some (Resume r) ∧ r_parent_msg_id r = A)
  ∧ (∀ user w1,
       tg_id user ∉ banned_cache w1 →
       contexts w1 !! T = contexts w !! T →
       ∃ w2 d,
         cmd_start user [deep_arg T] w1 = (Ok ST_RATING, w2)
         ∧ active_draft w2 (tg_id user) = Some d
         ∧ d_parent_msg_id d = Some A
         ∧ d_is_additional d = true)
  ∧ (∀ w5 user_id rev_id p m,
       contexts w5 !! pending_key rev_id = Some (Pending p) →
       net w5 (n_net w5) = Some m →
       ∃ w6 r,
         _approve user_id rev_id w5 = (Ok tt, w6)
         ∧ outbox w6 !! length (outbox w5)
           = Some {| to := CHANNEL_ID;
                     body := channel_post rev_id p (token_of w5);
                     reply_to := p_parent_msg_id p; delivered := true |}
         ∧ contexts w6 !! token_of w5 = Some (Resume r)
         ∧ (∀ a, p_parent_msg_id p = Some a → a ≠ 0 → r_parent_msg_id r = a)
         ∧ (p_parent_msg_id p = None → r_parent_msg_id r = m)).
Proof.
  intros HA Hchain.
  destruct (chain_parent A w T HA Hchain) as (r & Hr & Hpar).
  split_and!.
  - by exists r.
  - intros user w1 Hban Hkeep. rewrite <- Hkeep in Hr.
    destruct (cmd_start_resume user T w1 _ Hban Hr)
      as (w2 & d & Hstart & Hs2 & Hdpar & Hdadd & _).
    exists w2, d. split_and!; [exact Hstart| | |exact Hdadd].
    + unfold active_draft. by rewrite Hs2.
    + rewrite Hdpar. cbn. by rewrite Hpar.
  - intros w5 user_id rev_id p m Hctx Hnet.
    destruct (approve_run user_id rev_id w5 p m Hctx Hnet)
      as (w6 & Hrun & Hc & Hout & _).
    exists w6, (resume_of p m). split_and!; [exact Hrun|exact Hout| | |].
    + by rewrite Hc, lookup_insert_eq.
    + intros a Hp Ha. by apply next_parent_kept.
    + intros Hp. by apply next_parent_own.
Qed.

Lemma approve_keeps_thread_parent_witness :
  let p0 := mkPending "Law" "Year 1" "Logic" "Dr. Abebe" 4
              "Clear lectures, fair exams, strict attendance." None false 1 in
  let wA := set_contexts (λ _, {[ pending_key "d0" := Pending p0 ]})
              (start_world (λ i, Z.of_nat i)
                 (λ i, pretty (Z.of_nat i) +:+ "-0123456789ab")
                 (λ i, Some (100 + Z.of_nat i)) (λ _, "Sara")) in
  let w0 := (_approve 1 "d0" wA).2 in
  let user := mkUser 2 "Sara" "sara" in
  let text := "I agree, and the grading of the final was fair too." in
  let w2 := (cmd_start user [deep_arg (token_of wA)] w0).2 in
  let w3 := (cb_rating 2 5 w2).2 in
  let w4 := (handler_content 2 text w3).2 in
  let w6 := (_approve 2 "1-012345" w4).2 in
  ∃ r, contexts w6 !! token_of w4 = Some (Resume r) ∧ r_parent_msg_id r = 100.
Proof.
  intros p0 wA w0 user text w2 w3 w4 w6.
  assert (100 ≠ 0) as HA by done.
  assert (follow_up_chain 100 w0 (token_of wA)) as Hfirst.
  { apply (chain_first 100 wA w0 1 "d0" p0).
    - by vm_compute.
    - reflexivity.
    - by vm_compute.
    - apply (run_ok (_approve 1 "d0") wA). by vm_compute. }
  assert (follow_up_chain 100 w6 (token_of w4)) as Hchain.
  { apply (chain_next 100 w0 (token_of wA) w0 user 5 text w2 w3 w4
             "1-012345" w4 106 w6 Hfirst).
    - reflexivity.
    - intros Hin. vm_compute in Hin. done.
    - apply (run_ok (cmd_start user [deep_arg (token_of wA)]) w0). by vm_compute.
    - by vm_compute.
    - apply (run_ok (cb_rating 2 5) w2). by vm_compute.
    - by vm_compute.
    - by vm_compute.
    - by vm_compute.
    - apply (run_ok (handler_content 2 text) w3). by vm_compute.
    - reflexivity.
    - by vm_compute.
    - apply (run_ok (_approve 2 "1-012345") w4). by vm_compute. }
  destruct (approve_keeps_thread_parent 100 w6 (token_of w4) HA Hchain) as [H _].
  exact H.
Defined.

End ThreadFacts.

(* ====================================================================== *)
(** * Further properties of the code *)
(* ====================================================================== *)

Module LedgerFacts.
Import Votes VotesFacts.

Lemma voters_reached mid calls votes0 uid :
  votes0 !! str mid = None →
  voters (read_doc mid (cast_votes mid calls votes0)) !! str uid
  = last_choice uid calls.
Proof.
  intros Hnone. rewrite cast_votes_choice, read_doc_none by done.
  change (voters fresh_doc) with (∅ : gmap string string).
  by rewrite lookup_empty.
Qed.

Lemma voters_agree mid calls1 calls2 votes1 votes2 k v :
  votes1 !! str mid = None → votes2 !! str mid = None →
  Forall (λ c, is_direction c.2) calls1 →
  (∀ uid, last_choice uid calls1 = last_choice uid calls2) →
  voters (read_doc mid (cast_votes mid calls1 votes1)) !! k = Some v →
  voters (read_doc mid (cast_votes mid calls2 votes2)) !! k = Some v.
Proof.
  intros H1 H2 Hd1 Hlast Hk.
  destruct (ledger_inv_reached mid calls1 votes1 H1 Hd1) as [_ _ _ Hdom _].
  destruct (proj1 (Hdom k) (ex_intro _ v Hk)) as (u & _ & ->).
  rewrite voters_reached in Hk |- * by done. by rewrite <- Hlast.
Qed.

(** X1.  The stored document of a post is a function of the voters' latest
    choices: two sequences of up/down votes that leave every user with the
    same latest choice, in whatever order and with whatever changes of mind
    on the way, end in the same counts and the same voter map. *)
Theorem cast_votes_latest_choices_decide
    (mid : Z) (calls1 calls2 : list (Z * string))
    (votes1 votes2 : gmap string VoteDoc) :
  votes1 !! str mid = None → votes2 !! str mid = None →
  Forall (λ c, is_direction c.2) calls1 →
  Forall (λ c, is_direction c.2) calls2 →
  (∀ uid, last_choice uid calls1 = last_choice uid calls2) →
  read_doc mid (cast_votes mid calls1 votes1)
  = read_doc mid (cast_votes mid calls2 votes2).
Proof.
  intros H1 H2 Hd1 Hd2 Hlast.
  pose proof (ledger_inv_reached mid calls1 votes1 H1 Hd1) as [Hu1 Hdn1 _ _ _].
  pose proof (ledger_inv_reached mid calls2 votes2 H2 Hd2) as [Hu2 Hdn2 _ _ _].
  assert (voters (read_doc mid (cast_votes mid calls1 votes1))
          = voters (read_doc mid (cast_votes mid calls2 votes2))) as Hv.
  { apply map_eq. intros k.
    destruct (voters (read_doc mid (cast_votes mid calls1 votes1)) !! k)
      as [v|] eqn:Hk1.
    - symmetry. by apply (voters_agree mid calls1 calls2 votes1 votes2).
    - destruct (voters (read_doc mid (cast_votes mid calls2 votes2)) !! k)
        as [v|] eqn:Hk2; [|done].
      assert (voters (read_doc mid (cast_votes mid calls1 votes1)) !! k = Some v)
        as Hk1'
        by (by apply (voters_agree mid calls2 calls1 votes2 votes1)).
      congruence. }
  destruct (read_doc mid (cast_votes mid calls1 votes1)) as [u1 d1 v1].
  destruct (read_doc mid (cast_votes mid calls2 votes2)) as [u2 d2 v2].
  cbn in *. subst v2. by rewrite Hu1, Hu2, Hdn1, Hdn2.
Qed.

Lemma cast_votes_latest_choices_decide_witness :
  read_doc 7 (cast_votes 7 [(1, "up"); (2, "down"); (1, "down")] ∅)
  = read_doc 7 (cast_votes 7 [(2, "up"); (1, "down"); (2, "down")] ∅).
Proof.
  apply cast_votes_latest_choices_decide.
  - reflexivity.
  - reflexivity.
  - repeat (apply Forall_cons_2; [(by left) || (by right)|]). apply Forall_nil_2.
  - repeat (apply Forall_cons_2; [(by left) || (by right)|]). apply Forall_nil_2.
  - intros uid. unfold last_choice, choice_after. cbn.
    repeat case_decide; congruence.
Defined.

Lemma read_doc_other mid1 mid2 uid d votes :
  mid1 ≠ mid2 →
  read_doc mid2 (cast_vote mid1 uid d votes).2 = read_doc mid2 votes.
Proof.
  intros Hne. unfold cast_vote.
  destruct (decide (voters (read_doc mid1 votes) !! str uid = Some d)) as [Hs|Hc].
  - by rewrite decide_vote_same.
  - destruct (decide_vote_changed mid1 uid d _ votes Hc) as (u' & d' & -> & _).
    cbn. unfold read_doc. rewrite lookup_insert_ne; [done|].
    intros Heq. by apply str_inj in Heq.
Qed.

(** X2.  Posts do not interfere: a vote on one post leaves the document of every
    other post as it was, and a vote on another post gets the same answer
    and the same counts whether the first vote was cast or not. *)
Theorem cast_vote_other_post_untouched
    (mid1 mid2 uid1 uid2 : Z) (d1 d2 : string) (votes : gmap string VoteDoc) :
  mid1 ≠ mid2 →
  let votes' := (cast_vote mid1 uid1 d1 votes).2 in
  votes' !! str mid2 = votes !! str mid2
  ∧ (cast_vote mid2 uid2 d2 votes').1 = (cast_vote mid2 uid2 d2 votes).1.
Proof.
  intros Hne votes'.
  assert (read_doc mid2 votes' = read_doc mid2 votes) as Hread
    by (by apply read_doc_other).
  split.
  - unfold votes', cast_vote.
    destruct (decide (voters (read_doc mid1 votes) !! str uid1 = Some d1)) as [Hs|Hc].
    + by rewrite decide_vote_same.
    + destruct (decide_vote_changed mid1 uid1 d1 _ votes Hc) as (u' & d' & -> & _).
      cbn. rewrite lookup_insert_ne; [done|].
      intros Heq. by apply str_inj in Heq.
  - unfold cast_vote. rewrite Hread.
    set (doc := read_doc mid2 votes).
    destruct (decide (voters doc !! str uid2 = Some d2)) as [Hs|Hc].
    + by rewrite !decide_vote_same.
    + destruct (decide_vote_changed mid2 uid2 d2 doc votes Hc)
        as (u' & d' & -> & -> & ->).
      destruct (decide_vote_changed mid2 uid2 d2 doc votes' Hc)
        as (u'' & d'' & -> & -> & ->).
      reflexivity.
Qed.

Lemma cast_vote_other_post_untouched_witness :
  let votes := cast_votes 7 [(1, "up"); (2, "down")] ∅ in
  (cast_vote 8 1 "down" votes).2 !! "7" = votes !! "7"
  ∧ (cast_vote 7 3 "up" (cast_vote 8 1 "down" votes).2).1
    = (true, {| c_up := 2; c_down := 1 |}).
Proof.
  intros votes.
  assert (8 ≠ 7) as Hne by done.
  destruct (cast_vote_other_post_untouched 8 7 1 3 "down" "up" votes Hne)
    as [Hkeep Hsame].
  split; [exact Hkeep|]. rewrite Hsame. by vm_compute.
Defined.

End LedgerFacts.

Module LimiterFacts.
Import Bot Limiter RateLimitFacts VotesFacts.

Lemma in_hour_before_app t l1 l2 :
  in_hour_before t (l1 ++ l2) = (in_hour_before t l1 + in_hour_before t l2)%nat.
Proof. unfold in_hour_before. by rewrite filter_app, length_app. Qed.

Lemma in_hour_before_all t l :
  Forall (λ s, t - HOUR < s ∧ s ≤ t) l → in_hour_before t l = length l.
Proof.
  intros H. unfold in_hour_before. f_equal.
  induction H as [|s l Hs _ IH]; [done|].
  rewrite filter_cons_True by done. by rewrite IH.
Qed.

Lemma in_hour_before_none t l :
  Forall (λ s, ¬ (t - HOUR < s ∧ s ≤ t)) l → in_hour_before t l = 0%nat.
Proof.
  intros H. unfold in_hour_before.
  induction H as [|s l Hs _ IH]; [done|].
  by rewrite filter_cons_False.
Qed.

(** Pruning at [t0] drops nothing that a window ending at [t >= t0] counts. *)
Lemma in_hour_before_pruned t0 t l :
  t0 ≤ t →
  in_hour_before t (filter (λ s, t0 - HOUR < s) l) = in_hour_before t l.
Proof.
  intros Hle. unfold in_hour_before. f_equal.
  induction l as [|s l IH]; [done|].
  destruct (decide (t0 - HOUR < s)) as [Hs|Hs].
  - rewrite (filter_cons_True (λ s, t0 - HOUR < s)) by done.
    destruct (decide (t - HOUR < s ∧ s ≤ t)).
    + rewrite !(filter_cons_True (λ s, t - HOUR < s ∧ s ≤ t)) by done.
      by rewrite IH.
    + rewrite !(filter_cons_False (λ s, t - HOUR < s ∧ s ≤ t)) by done.
      exact IH.
  - rewrite (filter_cons_False (λ s, t0 - HOUR < s)) by done.
    rewrite (filter_cons_False (λ s, t - HOUR < s ∧ s ≤ t)) by lia.
    exact IH.
Qed.

Lemma admitted_times_from times : ∀ uid rl t,
  t ∈ admitted_times times uid rl → t ∈ times.
Proof.
  induction times as [|t0 rest IH]; intros uid rl t Ht; [done|].
  cbn [admitted_times] in Ht. apply elem_of_app in Ht as [Ht|Ht].
  - destruct (rate_limit_at t0 uid rl).1; [|by apply elem_of_nil in Ht].
    apply list_elem_of_singleton in Ht as ->. apply list_elem_of_here.
  - apply list_elem_of_further. by eapply IH.
Qed.

Lemma in_hour_before_le t l : (in_hour_before t l ≤ length l)%nat.
Proof. unfold in_hour_before. apply length_filter. Qed.

Lemma in_hour_before_self t : in_hour_before t [t] = 1%nat.
Proof.
  unfold in_hour_before. rewrite filter_cons_True by (unfold HOUR; lia). done.
Qed.

(** The invariant of a run: what is stored for the user and what is admitted
    from now on never put more than five instants into the hour before an
    admitted call. *)
Lemma admitted_window times : ∀ uid rl,
  StronglySorted Z.le times →
  Forall (λ s, Forall (λ t, s ≤ t) times) (default [] (rl !! str uid)) →
  ∀ t, t ∈ admitted_times times uid rl →
    (in_hour_before t (default [] (rl !! str uid))
     + in_hour_before t (admitted_times times uid rl) ≤ 5)%nat.
Proof.
  induction times as [|t0 rest IH]; intros uid rl Hsorted Hold t Ht.
  { by apply elem_of_nil in Ht. }
  apply StronglySorted_inv in Hsorted as [Hrest Ht0].
  set (L := default [] (rl !! str uid)) in *.
  set (recent := filter (λ s, t0 - HOUR < s) L).
  assert (Forall (λ s, Forall (λ t, s ≤ t) rest) L) as Hold'.
  { eapply Forall_impl; [exact Hold|]. intros s Hs.
    by apply Forall_cons_1 in Hs as [_ ?]. }
  cbn [admitted_times] in Ht |- *.
  destruct (decide (Z.of_nat (length recent) < MAX_REVIEWS_PER_HOUR)) as [Hlt|Hge].
  - rewrite (rate_limit_at_admit t0 uid rl recent eq_refl Hlt) in Ht |- *.
    cbn [fst snd] in Ht |- *.
    set (rl1 := <[str uid := (recent ++ [t0])%list]> rl) in *.
    set (A' := admitted_times rest uid rl1) in *.
    assert (default [] (rl1 !! str uid) = (recent ++ [t0])%list) as HL1
      by (unfold rl1; by rewrite lookup_insert_eq).
    assert (Forall (λ s, Forall (λ t, s ≤ t) rest)
              (default [] (rl1 !! str uid))) as Hold1.
    { rewrite HL1. apply Forall_app. split.
      - apply Forall_forall. intros x Hx.
        apply list_elem_of_filter in Hx as [_ Hx].
        by apply (proj1 (Forall_forall _ _) Hold').
      - by apply Forall_singleton. }
    assert (∀ x, x ∈ A' → t0 ≤ x) as Hlater.
    { intros x Hx. apply admitted_times_from in Hx.
      by apply (proj1 (Forall_forall _ _) Ht0). }
    assert (∀ x, x ∈ A' →
              (in_hour_before x L + in_hour_before x ([t0] ++ A') ≤ 5)%nat)
      as Hin.
    { intros x Hx. pose proof (IH uid rl1 Hrest Hold1 x Hx) as Hx5.
      rewrite HL1 in Hx5. fold A' in Hx5.
      rewrite !in_hour_before_app in Hx5 |- *.
      rewrite <- (in_hour_before_pruned t0 x L) by (by apply Hlater).
      fold recent. lia. }
    destruct (decide (t ∈ A')) as [HtA|HtA]; [by apply Hin|].
    apply elem_of_app in Ht as [Ht|Ht]; [|done].
    apply list_elem_of_singleton in Ht as ->.
    rewrite in_hour_before_app, in_hour_before_self.
    rewrite <- (in_hour_before_pruned t0 t0 L) by lia. fold recent.
    pose proof (in_hour_before_le t0 recent).
    rewrite (in_hour_before_none t0 A').
    + unfold MAX_REVIEWS_PER_HOUR in Hlt. lia.
    + apply Forall_forall. intros x Hx [_ Hle].
      pose proof (Hlater x Hx). assert (x = t0) as -> by lia. done.
  - rewrite (rate_limit_at_deny t0 uid rl recent eq_refl) in Ht |- * by lia.
    cbn [fst snd app] in Ht |- *. by apply IH.
Qed.

(** X3.  The limiter as a sliding window: when the clock never goes back and the
    user's stored timestamps are not in the future, no admitted call has
    more than the ceiling of five admitted calls, itself included, in the
    hour that ends with it. *)
Theorem rate_limit_never_more_than_ceiling_per_hour
    (times : list Z) (uid : Z) (rl : gmap string (list Z)) (t : Z) :
  StronglySorted Z.le times →
  Forall (λ s, Forall (λ t, s ≤ t) times) (default [] (rl !! str uid)) →
  t ∈ admitted_times times uid rl →
  Z.of_nat (in_hour_before t (admitted_times times uid rl))
  ≤ MAX_REVIEWS_PER_HOUR.
Proof.
  intros Hsorted Hold Ht.
  pose proof (admitted_window times uid rl Hsorted Hold t Ht).
  unfold MAX_REVIEWS_PER_HOUR. lia.
Qed.

Lemma rate_limit_never_more_than_ceiling_per_hour_witness :
  let times := [0; 1; 2; 3; 4; 5; 3600000001; 3600000002] in
  admitted_times times 42 ∅ = [0; 1; 2; 3; 4; 3600000001; 3600000002]
  ∧ Z.of_nat (in_hour_before 3600000002 (admitted_times times 42 ∅)) ≤ 5.
Proof.
  intros times.
  assert (admitted_times times 42 ∅ = [0; 1; 2; 3; 4; 3600000001; 3600000002])
    as Hadm by (by vm_compute).
  split; [exact Hadm|].
  apply (rate_limit_never_more_than_ceiling_per_hour times 42 ∅ 3600000002).
  - unfold times.
    repeat (apply SSorted_cons;
            [|repeat (apply Forall_cons_2; [lia|]); apply Forall_nil_2]).
    apply SSorted_nil.
  - assert (default [] ((∅ : gmap string (list Z)) !! str 42) = []) as ->
      by reflexivity.
    apply Forall_nil_2.
  - rewrite Hadm. repeat ((by apply list_elem_of_here) || apply list_elem_of_further).
Defined.

(** X4.  Users do not share an allowance: a call for one user leaves the record
    of every other user as it was, and the answer another user gets at any
    instant is the same whether the first call happened or not. *)
Theorem rate_limit_users_independent
    (t t' u v : Z) (rl : gmap string (list Z)) :
  u ≠ v →
  let rl' := (rate_limit_at t u rl).2 in
  rl' !! str v = rl !! str v
  ∧ (rate_limit_at t' v rl').1 = (rate_limit_at t' v rl).1.
Proof.
  intros Hne rl'.
  assert (rl' !! str v = rl !! str v) as Hkeep.
  { unfold rl', rate_limit_at. case_decide; [done|]. cbn.
    rewrite lookup_insert_ne; [done|]. intros Heq. by apply str_inj in Heq. }
  split; [exact Hkeep|].
  unfold rate_limit_at at 1. rewrite Hkeep.
  unfold rate_limit_at at 1. by case_decide.
Qed.

Lemma rate_limit_users_independent_witness :
  let rl := (rate_limit_at 10 1 ∅).2 in
  rl !! "2" = None ∧ (rate_limit_at 11 2 rl).1 = true.
Proof.
  intros rl.
  assert (1 ≠ 2) as Hne by done.
  destruct (rate_limit_users_independent 10 11 1 2 ∅ Hne) as [Hkeep Hsame].
  split; [exact Hkeep|]. fold rl in Hsame. rewrite Hsame. by vm_compute.
Defined.

End LimiterFacts.

Module FilterFacts.
Import Text TextFacts.

(** Where no code point is U+0130, lower case maps the text code point by
    code point, keeps each on its side of [\w], and gives an ASCII code
    point only as the lower case [lower_cp] of one that is no capital
    sigma. *)
Lemma lower_go_pointwise s : ∀ prev,
  304%N ∉ s →
  Forall2 (λ c c', is_word c' = is_word c
                   ∧ ((c' < 128)%N → c ≠ 931%N ∧ lower_cp c = [c']))
    s (lower_go prev s).
Proof.
  induction s as [|c s IH]; intros prev Hno; [constructor|].
  rewrite not_elem_of_cons in Hno. destruct Hno as [Hc Hno].
  cbn [lower_go]. destruct (c =? 931)%N eqn:E.
  - apply N.eqb_eq in E as ->. cbn [app]. constructor; [|by apply IH].
    rewrite word_931. destruct (final_sigma prev s).
    + split; [by vm_compute|]. intros ?; lia.
    + split; [by vm_compute|]. intros ?; lia.
  - apply N.eqb_neq in E.
    destruct (lower_cp_word c) as (c' & Hl & Hw); [done|].
    rewrite Hl. cbn [app]. constructor; [|by apply IH].
    split; [done|]. intros _. by rewrite Hl.
Qed.

Lemma pointwise_all_word a b :
  Forall2 (λ c c', is_word c' = is_word c
                   ∧ ((c' < 128)%N → c ≠ 931%N ∧ lower_cp c = [c'])) a b →
  all_word a = all_word b.
Proof.
  induction 1 as [|c c' a b [Hw _] _ IH]; [done|].
  cbn [all_word forallb]. unfold all_word in IH. by rewrite Hw, IH.
Qed.

Lemma pointwise_starts a b :
  Forall2 (λ c c', is_word c' = is_word c
                   ∧ ((c' < 128)%N → c ≠ 931%N ∧ lower_cp c = [c'])) a b →
  starts_nonword a = starts_nonword b.
Proof. destruct 1 as [|c c' a b [Hw _] _]; [done|]. cbn. by rewrite Hw. Qed.

Lemma pointwise_ends a b :
  Forall2 (λ c c', is_word c' = is_word c
                   ∧ ((c' < 128)%N → c ≠ 931%N ∧ lower_cp c = [c'])) a b →
  ends_nonword a = ends_nonword b.
Proof.
  intros H. destruct a as [|x a] using rev_ind.
  - by apply Forall2_nil_inv_l in H as ->.
  - clear IHa. apply Forall2_app_inv_l in H as (b1 & b2 & _ & H2 & ->).
    apply Forall2_cons_inv_l in H2 as (y & b2' & [Hw _] & Hnil & ->).
    apply Forall2_nil_inv_l in Hnil as ->.
    by rewrite !ends_nonword_snoc, Hw.
Qed.

Lemma pointwise_ascii a b :
  Forall2 (λ c c', is_word c' = is_word c
                   ∧ ((c' < 128)%N → c ≠ 931%N ∧ lower_cp c = [c'])) a b →
  Forall (λ c, (c < 128)%N) b →
  ∀ prev, lower_go prev a = b.
Proof.
  induction 1 as [|c c' a b [_ Hc] _ IH]; intros Hb prev; [done|].
  apply Forall_cons in Hb as [Hlt Hb]. destruct (Hc Hlt) as [Hne Hl].
  cbn [lower_go]. apply N.eqb_neq in Hne. rewrite Hne, Hl.
  cbn [app]. by rewrite IH.
Qed.

(** X5.  In a text without the letter U+0130, the filter flags exactly the
    texts one of whose tokens, a maximal run of word characters, is a word
    of the profanity set once lowercased: nothing else is flagged, whatever
    the punctuation, the spacing, the capitals or the script of the rest. *)
Theorem contains_profanity_exactly_forbidden_tokens (text : string) :
  304%N ∉ decode text →
  contains_profanity text = true ↔ has_forbidden_token text.
Proof.
  intros Hno. split; [|apply contains_profanity_token].
  unfold contains_profanity. intros H.
  apply existsb_exists in H as (w & Hw & Hbad).
  apply bool_decide_eq_true in Hbad. apply list_elem_of_In in Hw.
  destruct (findall_go_tokens w _ [] [] eq_refl eq_refl Hw)
    as (pre' & post' & Heq & Hne & Hall & Hpre & Hpost).
  cbn [app] in Heq.
  pose proof (lower_go_pointwise (decode text) [] Hno) as Hpt.
  fold (lower (decode text)) in Hpt. rewrite Heq in Hpt.
  apply Forall2_app_inv_r in Hpt as (pre & s23 & H1 & H23 & Hs).
  apply Forall2_app_inv_r in H23 as (w0 & post & H2 & H3 & ->).
  destruct (profanity_ascii _ Hbad) as [_ Hascii].
  assert (lower w0 = w) as Hlow.
  { apply pointwise_ascii; [done|].
    eapply Forall_impl; [exact Hascii|]. by intros c [Hc _]. }
  exists w0. split; [|by rewrite Hlow].
  exists pre, post. split_and!.
  - exact Hs.
  - intros ->. apply Forall2_nil_inv_l in H2. exact (Hne H2).
  - by rewrite (pointwise_all_word _ _ H2).
  - by rewrite (pointwise_ends _ _ H1).
  - by rewrite (pointwise_starts _ _ H3).
Qed.

Lemma contains_profanity_exactly_forbidden_tokens_witness :
  contains_profanity "Honest: ጥሩ መምህር, but a Fool." = true
  ↔ has_forbidden_token "Honest: ጥሩ መምህር, but a Fool.".
Proof.
  apply (contains_profanity_exactly_forbidden_tokens "Honest: ጥሩ መምህር, but a Fool.").
  vm_compute. intros H. repeat (apply elem_of_cons in H as [H|H]; [discriminate H|]).
  by apply elem_of_nil in H.
Defined.

(** After a U+0130 the lower case starts a new token: its own lower case
    ends with a combining dot, which is no word character. *)
Example contains_profanity_after_dotted_capital :
  contains_profanity "İidiot: the lectures were fine otherwise." = true.
Proof. by vm_compute. Qed.

End FilterFacts.

Module StartFacts.
Import Text Bot ContentFacts ThreadFacts.
Local Open Scope bot_scope.

(** [register] followed by the ban test, as [cmd_start] begins. *)
Lemma cmd_start_head user args w :
  let uid := tg_id user in
  let w1 := set_users (λ u,
              match u !! str uid with
              | Some _ => u
              | None => <[str uid := {| u_name := tg_first_name user;
                                        u_username := tg_username user;
                                        u_joined := clock w (ticks w) |}]> u
              end) (tick w) in
  cmd_start user args w
  = if bool_decide (uid ∈ banned_cache w)
    then (Ok END, set_outbox (λ o, (o ++ [notice uid ERR_BANNED])%list) w1)
    else
      let w2 := set_sessions (λ m, <[uid := new_Session uid]> m) w1 in
      let welcome := set_outbox (λ o, (o ++ [notice uid WELCOME])%list) in
      match args with
      | a :: _ =>
          if String.prefix "add_" a then
            match contexts w !! drop4 a with
            | Some data =>
                let d := seed_draft data
                           {| d_id := String.substring 0 8 (uuids w (n_uuid w));
                              d_stream := ""; d_year := ""; d_subject := "";
                              d_teacher := ""; d_rating := 0; d_content := "";
                              d_is_additional := false; d_parent_msg_id := None;
                              d_ts := clock w (S (ticks w)) |} in
                (Ok ST_RATING,
                 set_outbox
                   (λ o, (o ++ [notice uid (WELCOME_DEEP (d_teacher d) (d_subject d))])%list)
                   (set_sessions (λ m, <[uid := new_draft d (new_Session uid)]> m)
                      (tick (next_uuid w2))))
            | None =>
                (Ok END,
                 welcome (set_outbox (λ o, (o ++ [notice uid LINK_EXPIRED])%list) w2))
            end
          else (Ok END, welcome w2)
      | [] => (Ok END, welcome w2)
      end.
Proof.
  intros uid w1. unfold cmd_start. fold uid.
  unfold bind at 1. unfold register at 1.
  unfold bind at 1, now. cbv beta iota. unfold modify at 1. cbv beta iota.
  fold uid. fold w1.
  unfold bind at 1, is_banned, gets. cbv beta iota.
  change (banned_cache w1) with (banned_cache w).
  destruct (bool_decide (uid ∈ banned_cache w)); [reflexivity|].
  unfold bind at 1, store_session, modify. cbv beta iota.
  unfold bind at 1. rewrite session_run.
  match goal with |- context [sessions ?x !! uid] =>
    change (sessions x) with (<[uid := new_Session uid]> (sessions w)) end.
  rewrite lookup_insert_eq. cbv beta iota. cbn [default].
  destruct args as [|a args]; [reflexivity|].
  destruct (String.prefix "add_" a); [|reflexivity].
  unfold bind at 1, get_ctx, gets. cbv beta iota.
  match goal with |- context [contexts ?x !! drop4 a] =>
    change (contexts x) with (contexts w) end.
  destruct (contexts w !! drop4 a); reflexivity.
Qed.

Lemma cmd_start_banned_refused user args w :
  tg_id user ∈ banned_cache w →
  ∃ w', cmd_start user args w = (Ok END, w') ∧ sessions w' = sessions w.
Proof.
  intros Hban. rewrite cmd_start_head. cbv zeta.
  rewrite bool_decide_eq_true_2 by done. by eexists.
Qed.

(** X6.  A banned user who sends /start, with or without a deep link, is told
    so and the conversation does not start: the session map and the context
    store are as before.  The user has been written to the [users]
    collection all the same, since [register] runs before the ban test. *)
Theorem cmd_start_banned_no_session
    (user : TgUser) (args : list string) (w : World) :
  tg_id user ∈ banned_cache w →
  ∃ w',
    cmd_start user args w = (Ok END, w')
    ∧ sessions w' = sessions w
    ∧ contexts w' = contexts w
    ∧ outbox w' = (outbox w ++ [notice (tg_id user) ERR_BANNED])%list
    ∧ is_Some (users w' !! str (tg_id user)).
Proof.
  intros Hban. rewrite cmd_start_head. cbv zeta.
  rewrite bool_decide_eq_true_2 by done.
  eexists. split; [reflexivity|]. cbn. split_and!; try reflexivity.
  destruct (users w !! str (tg_id user)) as [u|] eqn:Hu.
  - by rewrite Hu.
  - by rewrite lookup_insert_eq.
Qed.

Lemma cmd_start_banned_no_session_witness :
  let w := set_sessions (λ _, {[ 42 := mkSession 42 None [] 0 [] ]})
             (set_banned (λ _, {[42]})
                (start_world (λ _, 0) (λ _, "") (λ _, None) (λ _, ""))) in
  ∃ w', cmd_start (mkUser 42 "Sara" "sara") ["add_abc"] w = (Ok END, w')
        ∧ sessions w' = sessions w
        ∧ outbox w' = [notice 42 ERR_BANNED].
Proof.
  intros w.
  destruct (cmd_start_banned_no_session (mkUser 42 "Sara" "sara") ["add_abc"] w)
    as (w' & Hrun & Hs & _ & Ho & _).
  - cbn. by apply elem_of_singleton.
  - exists w'. by split_and!.
Defined.

(** X7.  /start by a user who is not banned always begins with a new session:
    whatever the user had committed or was writing before is gone.  The
    conversation either ends with the welcome (no deep link, or a token that
    is not stored), the new session holding no draft, or jumps to the rating
    with a draft marked as follow-up.  The sessions of other users are not
    touched. *)
Theorem cmd_start_discards_previous_session
    (user : TgUser) (args : list string) (w : World) :
  tg_id user ∉ banned_cache w →
  ∃ st w' s',
    cmd_start user args w = (Ok st, w')
    ∧ sessions w' !! tg_id user = Some s'
    ∧ drafts s' = []
    ∧ ((st = END ∧ draft s' = None)
       ∨ (st = ST_RATING ∧ ∃ d, draft s' = Some d ∧ d_is_additional d = true))
    ∧ (∀ u, u ≠ tg_id user → sessions w' !! u = sessions w !! u).
Proof.
  intros Hban. rewrite cmd_start_head. cbv zeta.
  rewrite bool_decide_eq_false_2 by done.
  destruct args as [|a args].
  - eexists _, _, _. split; [reflexivity|]. cbn.
    split; [apply lookup_insert_eq|]. split_and!; [done|by left|].
    intros u Hu. by rewrite lookup_insert_ne.
  - destruct (String.prefix "add_" a).
    + destruct (contexts w !! drop4 a) as [data|].
      * eexists _, _, _. split; [reflexivity|]. cbn.
        split; [apply lookup_insert_eq|]. split_and!; [done|right|].
        -- split; [done|]. by eexists.
        -- intros u Hu. by rewrite !lookup_insert_ne.
      * eexists _, _, _. split; [reflexivity|]. cbn.
        split; [apply lookup_insert_eq|]. split_and!; [done|by left|].
        intros u Hu. by rewrite lookup_insert_ne.
    + eexists _, _, _. split; [reflexivity|]. cbn.
      split; [apply lookup_insert_eq|]. split_and!; [done|by left|].
      intros u Hu. by rewrite lookup_insert_ne.
Qed.

Lemma cmd_start_discards_previous_session_witness :
  let d := mkDraft "d1" "Law" "Year 1" "Logic" "Dr. Abebe" 4
             "Clear lectures, fair exams, strict attendance." false None 0 in
  let w := set_sessions (λ _, {[ 42 := mkSession 42 None [d] 0 [] ]})
             (start_world (λ _, 0) (λ _, "") (λ _, None) (λ _, "")) in
  ∃ w', cmd_start (mkUser 42 "Sara" "sara") [] w = (Ok END, w')
        ∧ sessions w' !! 42 = Some (new_Session 42).
Proof.
  intros d w.
  destruct (cmd_start_discards_previous_session (mkUser 42 "Sara" "sara") [] w)
    as (st & w' & s' & Hrun & Hs & _).
  - cbn. apply not_elem_of_empty.
  - assert ((cmd_start (mkUser 42 "Sara" "sara") [] w).1 = Ok END) as Hst
      by (by vm_compute).
    rewrite Hrun in Hst. cbn in Hst. injection Hst as ->.
    exists w'. split; [exact Hrun|].
    assert (sessions (cmd_start (mkUser 42 "Sara" "sara") [] w).2 !! 42
            = Some (new_Session 42)) as H2 by (by vm_compute).
    by rewrite Hrun in H2.
Defined.

End StartFacts.

Module BodyFacts.
Import Text Bot ContentFacts SubmitFacts ThreadFacts.
Local Open Scope bot_scope.

(** X8.  A first-hand review whose body passes the length test and the filter:
    the trimmed text becomes the body of the active draft, the draft goes to
    the end of the committed list, no draft stays active, and the batch menu
    follows.  Nothing is submitted yet: no context entry is written and the
    rate limiter has not been asked. *)
Theorem handler_content_commits_draft
    (uid : Z) (raw : string) (w : World) (s : Session) (d : Draft) :
  sessions w !! uid = Some s → draft s = Some d →
  d_is_additional d = false →
  30 ≤ len (strip raw) → contains_profanity (strip raw) = false →
  ∃ w' s',
    handler_content uid raw w = (Ok ST_BATCH, w')
    ∧ sessions w' !! uid = Some s'
    ∧ draft s' = None
    ∧ drafts s' = (drafts s ++ [set_content (strip raw) d])%list
    ∧ outbox w'
      = (outbox w
         ++ [notice uid (SUCCESS_DRAFT_SAVED
                           ((λ d, (d_teacher d, d_rating d)) <$> drafts s'))])%list
    ∧ contexts w' = contexts w
    ∧ ratelimits w' = ratelimits w
    ∧ ticks w' = ticks w.
Proof.
  intros Hs Hd Hadd Hlen Hprof.
  set (d' := set_content (strip raw) d).
  set (s' := commit_draft (with_draft d' s)).
  assert (drafts s' = (drafts s ++ [d'])%list) as Hds' by reflexivity.
  exists (set_outbox
            (λ o, (o ++ [notice uid (SUCCESS_DRAFT_SAVED
                           ((λ d, (d_teacher d, d_rating d)) <$> drafts s'))])%list)
            (set_sessions (λ m, <[uid := s']> m) w)), s'.
  split.
  - unfold handler_content. unfold bind at 1.
    rewrite session_run, Hs. change (default (new_Session uid) (Some s)) with s.
    cbv beta iota. rewrite decide_False by lia. rewrite Hprof, Hd.
    fold d'. fold s'. unfold bind at 1, store_session, modify. cbv beta iota.
    rewrite Hds', last_snoc. cbn [fmap option_fmap option_map default].
    change (d_is_additional d') with (d_is_additional d). rewrite Hadd.
    reflexivity.
  - cbn. split; [apply lookup_insert_eq|]. by split_and!.
Qed.

Lemma handler_content_commits_draft_witness :
  let d := mkDraft "d1" "Law" "Year 1" "Logic" "Dr. Abebe" 4 "" false None 0 in
  let raw := "  ይህ መምህር በጣም ጥሩ ነው፤ ትምህርቱ ግልጽ እና ጠቃሚ ነበር።  " in
  let w := set_sessions (λ _, {[ 42 := mkSession 42 (Some d) [] 0 [] ]})
             (start_world (λ _, 0) (λ _, "") (λ _, None) (λ _, "")) in
  ∃ w' s', handler_content 42 raw w = (Ok ST_BATCH, w')
           ∧ sessions w' !! 42 = Some s'
           ∧ d_content <$> drafts s'
             = ["ይህ መምህር በጣም ጥሩ ነው፤ ትምህርቱ ግልጽ እና ጠቃሚ ነበር።"].
Proof.
  intros d raw w.
  destruct (handler_content_commits_draft 42 raw w
              (mkSession 42 (Some d) [] 0 []) d)
    as (w' & s' & Hrun & Hs & _ & Hds & _).
  - reflexivity.
  - reflexivity.
  - reflexivity.
  - by vm_compute.
  - by vm_compute.
  - exists w', s'. split_and!; [exact Hrun|exact Hs|]. rewrite Hds. by vm_compute.
Defined.

(** X9.  A body that passes both tests when the user's session holds no active
    draft (a session made on the spot, or one whose draft was committed
    already): the assignment to [sess.draft.content] raises
    [AttributeError]; apart from the session [session(uid)] may have made,
    nothing has changed and nothing was sent. *)
Theorem handler_content_without_draft_raises
    (uid : Z) (raw : string) (w : World) :
  sessions w !! uid ≫= draft = None →
  30 ≤ len (strip raw) → contains_profanity (strip raw) = false →
  handler_content uid raw w = (Raised AttributeError, (session uid w).2)
  ∧ outbox (session uid w).2 = outbox w
  ∧ contexts (session uid w).2 = contexts w.
Proof.
  intros Hnone Hlen Hprof.
  destruct (session_keeps_rest uid w) as (_ & _ & Hc & _ & _ & Ho & _ & _).
  split; [|by split].
  unfold handler_content. unfold bind at 1. rewrite session_run.
  cbv beta iota. cbn [snd]. rewrite decide_False by lia. rewrite Hprof.
  destruct (sessions w !! uid) as [s|] eqn:Hs; cbn in Hnone |- *.
  - by rewrite Hnone.
  - reflexivity.
Qed.

Lemma handler_content_without_draft_raises_witness :
  let w := start_world (λ _, 0) (λ _, "") (λ _, None) (λ _, "") in
  (handler_content 42 "Clear lectures, fair exams, strict attendance." w).1
  = Raised AttributeError.
Proof.
  intros w.
  destruct (handler_content_without_draft_raises 42
              "Clear lectures, fair exams, strict attendance." w)
    as [Hrun _]; [reflexivity|by vm_compute|by vm_compute|].
  by rewrite Hrun.
Defined.

End BodyFacts.

Module PublishFacts.
Import Text Bot ContentFacts SubmitFacts ThreadFacts.
Local Open Scope bot_scope.

(** X10.  [do_submit] with nothing committed: the empty-session notice if an
    update was passed, and nothing else; no review is parked, the rate
    limiter is not asked, and the session stays in the session map. *)
Theorem do_submit_nothing_committed (uid : Z) (update : bool) (w : World) :
  drafts (default (new_Session uid) (sessions w !! uid)) = [] →
  ∃ w',
    do_submit uid update w = (Ok END, w')
    ∧ outbox w' = (outbox w ++ (if update then [notice uid ERR_NO_DATA] else []))%list
    ∧ contexts w' = contexts w
    ∧ ratelimits w' = ratelimits w
    ∧ ticks w' = ticks w
    ∧ sessions w' !! uid = Some (default (new_Session uid) (sessions w !! uid)).
Proof.
  intros Hnone. unfold do_submit. unfold bind at 1. rewrite session_run.
  cbv beta iota. rewrite Hnone.
  destruct (session_keeps_rest uid w) as (_ & _ & Hc & _ & Hr & Ho & _ & _).
  rewrite session_run in Hc, Hr, Ho. cbn [snd] in Hc, Hr, Ho.
  set (w1 := match sessions w !! uid with Some _ => w | None => _ end) in *.
  assert (ticks w1 = ticks w) as Ht by (unfold w1; by destruct (sessions w !! uid)).
  assert (sessions w1 !! uid = Some (default (new_Session uid) (sessions w !! uid)))
    as Hs.
  { unfold w1. destruct (sessions w !! uid) as [s|] eqn:E; [done|].
    cbn. apply lookup_insert_eq. }
  clearbody w1.
  destruct update; eexists; (split; [reflexivity|]); cbn;
    rewrite ?app_nil_r, ?Ho; by split_and!.
Qed.

Lemma do_submit_nothing_committed_witness :
  let w := start_world (λ _, 0) (λ _, "") (λ _, None) (λ _, "") in
  ∃ w', do_submit 42 true w = (Ok END, w')
        ∧ outbox w' = [notice 42 ERR_NO_DATA] ∧ contexts w' = ∅.
Proof.
  intros w.
  destruct (do_submit_nothing_committed 42 true w) as (w' & Hrun & Ho & Hc & _);
    [reflexivity|].
  exists w'. by split_and!.
Defined.

(** The submission of a single committed draft that the limiter admits. *)
Lemma do_submit_single uid update w s d :
  sessions w !! uid = Some s → drafts s = [d] →
  (rate_limit_ok uid w).1 = Ok true →
  ∃ w1,
    do_submit uid update w = (Ok END, w1)
    ∧ contexts w1
      = <[pending_key (d_id d) := Pending (pending_of uid d)]> (contexts w).
Proof.
  intros Hs Hds Hrl.
  assert (drafts s ≠ []) as Hne by (by rewrite Hds).
  rewrite (do_submit_run uid update w s Hs Hne). rewrite Hds.
  set (wb := if update then _ else _).
  assert ((rate_limit_ok uid wb).1 = Ok true) as Hrlb.
  { rewrite <- Hrl. apply rate_limit_ok_ext; unfold wb; by destruct update. }
  destruct (rate_limit_ok uid wb) as [b w1] eqn:Hrun. cbn [fst] in Hrlb. subst b.
  rewrite (submit_loop_admit _ _ _ _ _ _ _ Hrun). cbn [submit_loop]. unfold ret.
  assert (contexts w1 = contexts w) as Hc1.
  { rewrite RateLimitFacts.rate_limit_ok_run in Hrun. injection Hrun as _ <-.
    unfold wb. by destruct update. }
  eexists. split; [reflexivity|]. cbn. by rewrite Hc1.
Qed.

(** An approval whose channel post goes through, with what it records. *)
Lemma approve_records user_id rev_id w p m :
  contexts w !! pending_key rev_id = Some (Pending p) →
  net w (n_net w) = Some m →
  ∃ w',
    _approve user_id rev_id w = (Ok tt, w')
    ∧ reviews w'
      = (reviews w
         ++ [{| rv_teacher := p_teacher p; rv_subject := p_subject p;
                rv_stream := p_stream p; rv_year := p_year p;
                rv_rating := p_rating p; rv_content := p_content p;
                rv_timestamp := clock w (ticks w); rv_msg_id := m |}])%list
    ∧ members_cache w' = {[user_id]} ∪ members_cache w
    ∧ contexts w' = <[token_of w := Resume (resume_of p m)]> (contexts w)
    ∧ n_net w' = (n_net w + 3)%nat
    ∧ net w' = net w.
Proof.
  intros Hctx Hnet. eexists. split.
  - unfold _approve. unfold bind at 1. unfold get_ctx, gets. rewrite Hctx.
    cbv beta iota. unfold bind at 1, uuid4. cbv beta iota.
    unfold bind at 1, try_send. unfold bind at 1, attempt.
    change (net (next_uuid w) (n_net (next_uuid w))) with (net w (n_net w)).
    rewrite Hnet. reflexivity.
  - cbn. split_and!; try reflexivity. lia.
Qed.

(** X11.  A draft comes out of moderation as it went in.  When a committed
    draft is submitted and admitted, and the moderator later approves it
    while its pending entry is stored and the channel post goes through,
    the review written to the [reviews] collection carries the draft's
    stream, year, subject, teacher, rating and body unchanged, the post
    sent to the channel carries its subject, teacher, rating and body (the
    post shows neither stream nor year) in reply to the draft's parent
    message, and the submitter becomes an approved member. *)
Theorem draft_round_trip_to_review
    (uid : Z) (update : bool) (w : World) (s : Session) (d : Draft) :
  sessions w !! uid = Some s → drafts s = [d] →
  (rate_limit_ok uid w).1 = Ok true →
  ∃ w1,
    do_submit uid update w = (Ok END, w1)
    ∧ ∀ w2 m,
        contexts w2 !! pending_key (d_id d) = contexts w1 !! pending_key (d_id d) →
        net w2 (n_net w2) = Some m →
        ∃ w3,
          _approve uid (d_id d) w2 = (Ok tt, w3)
          ∧ reviews w3
            = (reviews w2
               ++ [{| rv_teacher := d_teacher d; rv_subject := d_subject d;
                      rv_stream := d_stream d; rv_year := d_year d;
                      rv_rating := d_rating d; rv_content := d_content d;
                      rv_timestamp := clock w2 (ticks w2); rv_msg_id := m |}])%list
          ∧ outbox w3 !! length (outbox w2)
            = Some {| to := CHANNEL_ID;
                      body := CHANNEL_POST (d_id d) (d_is_additional d) (d_subject d)
                                (d_teacher d) (d_rating d) (d_content d)
                                (token_of w2);
                      reply_to := d_parent_msg_id d; delivered := true |}
          ∧ uid ∈ members_cache w3.
Proof.
  intros Hs Hds Hrl.
  destruct (do_submit_single uid update w s d Hs Hds Hrl) as (w1 & Hrun & Hc1).
  exists w1. split; [exact Hrun|]. intros w2 m Hkeep Hnet.
  rewrite Hc1, lookup_insert_eq in Hkeep.
  destruct (approve_records uid (d_id d) w2 _ m Hkeep Hnet)
    as (w3 & Happ & Hrev & Hmem & _).
  destruct (approve_run uid (d_id d) w2 _ m Hkeep Hnet)
    as (w3' & Happ' & _ & Hout & _).
  rewrite Happ in Happ'. injection Happ' as <-.
  exists w3. split_and!; [exact Happ|exact Hrev|exact Hout|].
  rewrite Hmem. by apply elem_of_union_l, elem_of_singleton.
Qed.

Lemma draft_round_trip_to_review_witness :
  let d := mkDraft "d1" "Law" "Year 1" "Logic" "Dr. Abebe" 4
             "Clear lectures, fair exams, strict attendance." false None 0 in
  let w := set_sessions (λ _, {[ 42 := mkSession 42 None [d] 0 [] ]})
             (start_world (λ i, Z.of_nat i) (λ _, "0123456789abcdef")
                (λ i, Some (100 + Z.of_nat i)) (λ _, "Sara")) in
  let w1 := (do_submit 42 true w).2 in
  ∃ w3, _approve 42 "d1" w1 = (Ok tt, w3)
        ∧ reviews w3
          = [mkReview "Dr. Abebe" "Logic" "Law" "Year 1" 4
               "Clear lectures, fair exams, strict attendance." 1 103].
Proof.
  intros d w w1.
  destruct (draft_round_trip_to_review 42 true w (mkSession 42 None [d] 0 []) d)
    as (w1' & Hrun & Hnext); [reflexivity|reflexivity|by vm_compute|].
  assert (w1' = w1) as -> by (unfold w1; by rewrite Hrun).
  destruct (Hnext w1 103 eq_refl) as (w3 & Happ & Hrev & _); [by vm_compute|].
  exists w3. split; [exact Happ|]. rewrite Hrev. by vm_compute.
Defined.

(** X12.  Nothing is published without a channel post.  When the pending entry is
    missing, or when it is there and the channel post fails, the moderator
    is told which, and the context store, the reviews and the approved
    members are as before: no deep-link token has been stored and the
    submitter has not been unlocked. *)
Theorem approve_without_post_publishes_nothing
    (user_id : Z) (rev_id : string) (w : World) :
  contexts w !! pending_key rev_id = None
  ∨ (∃ p, contexts w !! pending_key rev_id = Some (Pending p))
    ∧ net w (n_net w) = None →
  ∃ w',
    _approve user_id rev_id w = (Ok tt, w')
    ∧ contexts w' = contexts w
    ∧ reviews w' = reviews w
    ∧ members_cache w' = members_cache w
    ∧ members w' = members w
    ∧ last (outbox w')
      = Some (notice ADMIN_ID
                (if contexts w !! pending_key rev_id is Some _
                 then CHANNEL_POST_FAILED else PENDING_NOT_FOUND)).
Proof.
  intros [Hnone | [(p & Hp) Hnet]].
  - eexists. split.
    + unfold _approve. unfold bind at 1. unfold get_ctx, gets. rewrite Hnone.
      reflexivity.
    + rewrite Hnone. cbn. split_and!; try reflexivity. apply last_snoc.
  - eexists. split.
    + unfold _approve. unfold bind at 1. unfold get_ctx, gets. rewrite Hp.
      cbv beta iota. unfold bind at 1, uuid4. cbv beta iota.
      unfold bind at 1, try_send. unfold bind at 1, attempt.
      change (net (next_uuid w) (n_net (next_uuid w))) with (net w (n_net w)).
      rewrite Hnet. reflexivity.
    + rewrite Hp. cbn. split_and!; try reflexivity. apply last_snoc.
Qed.

Lemma approve_without_post_publishes_nothing_witness :
  let w := start_world (λ _, 0) (λ _, "") (λ _, None) (λ _, "") in
  ∃ w', _approve 42 "d1" w = (Ok tt, w')
        ∧ outbox w' = [notice ADMIN_ID PENDING_NOT_FOUND] ∧ reviews w' = [].
Proof.
  intros w.
  destruct (approve_without_post_publishes_nothing 42 "d1" w)
    as (w' & Hrun & _ & Hrev & _); [by left|].
  exists w'. split; [exact Hrun|]. split; [|exact Hrev].
  assert (outbox (_approve 42 "d1" w).2 = [notice ADMIN_ID PENDING_NOT_FOUND])
    as Ho by (by vm_compute).
  by rewrite Hrun in Ho.
Defined.

(** X13.  [_approve] does not consume the pending entry.  Unless the fresh token
    happens to be the pending key itself, the entry is still stored after a
    successful approval, so approving the same draft once more posts it to
    the channel again and writes a second review with the same content. *)
Theorem approve_twice_publishes_twice
    (user_id : Z) (rev_id : string) (w : World) (p : PendingData) (m1 m2 : Z) :
  contexts w !! pending_key rev_id = Some (Pending p) →
  token_of w ≠ pending_key rev_id →
  net w (n_net w) = Some m1 →
  net w (n_net w + 3)%nat = Some m2 →
  ∃ w1 w2 r1 r2,
    _approve user_id rev_id w = (Ok tt, w1)
    ∧ contexts w1 !! pending_key rev_id = Some (Pending p)
    ∧ _approve user_id rev_id w1 = (Ok tt, w2)
    ∧ reviews w2 = (reviews w ++ [r1; r2])%list
    ∧ rv_content r1 = p_content p ∧ rv_content r2 = p_content p
    ∧ rv_msg_id r1 = m1 ∧ rv_msg_id r2 = m2.
Proof.
  intros Hctx Htok Hnet1 Hnet2.
  destruct (approve_records user_id rev_id w p m1 Hctx Hnet1)
    as (w1 & Hrun1 & Hrev1 & _ & Hc1 & Hn1 & Hnet).
  assert (contexts w1 !! pending_key rev_id = Some (Pending p)) as Hctx1
    by (by rewrite Hc1, lookup_insert_ne).
  assert (net w1 (n_net w1) = Some m2) as Hnet2' by (by rewrite Hnet, Hn1).
  destruct (approve_records user_id rev_id w1 p m2 Hctx1 Hnet2')
    as (w2 & Hrun2 & Hrev2 & _).
  eexists w1, w2, _, _. split_and!; [exact Hrun1|exact Hctx1|exact Hrun2| |..].
  - rewrite Hrev2, Hrev1, <- (assoc_L (++)). reflexivity.
  - reflexivity.
  - reflexivity.
  - reflexivity.
  - reflexivity.
Qed.

Lemma approve_twice_publishes_twice_witness :
  let p := mkPending "Law" "Year 1" "Logic" "Dr. Abebe" 4
             "Clear lectures, fair exams, strict attendance." None false 42 in
  let w := set_contexts (λ _, {[ pending_key "d1" := Pending p ]})
             (start_world (λ i, Z.of_nat i) (λ _, "0123456789abcdef")
                (λ i, Some (100 + Z.of_nat i)) (λ _, "Sara")) in
  ∃ w1 w2, _approve 42 "d1" w = (Ok tt, w1)
           ∧ _approve 42 "d1" w1 = (Ok tt, w2)
           ∧ rv_msg_id <$> reviews w2 = [100; 103].
Proof.
  intros p w.
  destruct (approve_twice_publishes_twice 42 "d1" w p 100 103)
    as (w1 & w2 & r1 & r2 & Hrun1 & _ & Hrun2 & Hrev & _ & _ & Hm1 & Hm2);
    [reflexivity|by vm_compute|reflexivity|reflexivity|].
  exists w1, w2. split_and!; [exact Hrun1|exact Hrun2|].
  rewrite Hrev. cbn. by rewrite Hm1, Hm2.
Defined.

End PublishFacts.

Module StrikeFacts.
Import Text Bot ContentFacts StartFacts.
Local Open Scope bot_scope.

(** One flagged body, by the number of strikes the user had. *)
Lemma flagged_step uid raw w :
  30 ≤ len (strip raw) → contains_profanity (strip raw) = true →
  let n := default 0 (violations w !! str uid) in
  let st := if decide (MAX_PROFANITY_STRIKES ≤ n + 1) then END else ST_CONTENT in
  ∃ w',
    handler_content uid raw w = (Ok st, w')
    ∧ violations w' !! str uid = Some (n + 1)
    ∧ banned_cache w'
      = (if decide (MAX_PROFANITY_STRIKES ≤ n + 1)
         then {[uid]} ∪ banned_cache w else banned_cache w)
    ∧ (MAX_PROFANITY_STRIKES ≤ n + 1 → sessions w' !! uid = None).
Proof.
  intros Hlen Hprof n st.
  pose proof (handler_content_flagged uid raw w Hlen Hprof) as Hrun.
  destruct (session_keeps_rest uid w) as (Hb & _ & _ & Hv & _).
  cbv zeta in Hrun. rewrite Hv in Hrun. fold n in Hrun. rewrite Hrun.
  unfold st.
  destruct (decide (MAX_PROFANITY_STRIKES ≤ n + 1)).
  - eexists. split; [reflexivity|]. cbn. rewrite Hb.
    split_and!; [apply lookup_insert_eq|done|]. intros _. apply lookup_delete_eq.
  - eexists. split; [reflexivity|]. cbn. rewrite Hb.
    split_and!; [apply lookup_insert_eq|done|done].
Qed.

(** X14.  Three strikes.  A user without violation record who is not banned sends
    three bodies that are long enough and flagged: the first two are
    answered in place and leave the user unbanned, the third ends the
    conversation, bans the user and drops the session; a /start after that
    is refused. *)
Theorem third_flagged_body_bans
    (user : TgUser) (t1 t2 t3 : string) (args : list string) (w : World) :
  let uid := tg_id user in
  violations w !! str uid = None →
  uid ∉ banned_cache w →
  30 ≤ len (strip t1) → contains_profanity (strip t1) = true →
  30 ≤ len (strip t2) → contains_profanity (strip t2) = true →
  30 ≤ len (strip t3) → contains_profanity (strip t3) = true →
  let r1 := handler_content uid t1 w in
  let r2 := handler_content uid t2 r1.2 in
  let r3 := handler_content uid t3 r2.2 in
  r1.1 = Ok ST_CONTENT
  ∧ r2.1 = Ok ST_CONTENT
  ∧ (uid ∉ banned_cache r2.2)
  ∧ r3.1 = Ok END
  ∧ uid ∈ banned_cache r3.2
  ∧ sessions r3.2 !! uid = None
  ∧ (cmd_start user args r3.2).1 = Ok END
  ∧ sessions (cmd_start user args r3.2).2 !! uid = None.
Proof.
  intros uid Hnone Hban H1 P1 H2 P2 H3 P3 r1 r2 r3.
  destruct (flagged_step uid t1 w H1 P1) as (w1 & Hr1 & Hv1 & Hb1 & _).
  cbv zeta in Hr1. rewrite Hnone in Hr1, Hv1, Hb1. cbn [default id] in Hr1, Hv1, Hb1.
  rewrite decide_False in Hr1 by (unfold MAX_PROFANITY_STRIKES; lia).
  rewrite decide_False in Hb1 by (unfold MAX_PROFANITY_STRIKES; lia).
  destruct (flagged_step uid t2 w1 H2 P2) as (w2 & Hr2 & Hv2 & Hb2 & _).
  cbv zeta in Hr2. rewrite Hv1 in Hr2, Hv2, Hb2. cbn [default id] in Hr2, Hv2, Hb2.
  rewrite decide_False in Hr2 by (unfold MAX_PROFANITY_STRIKES; lia).
  rewrite decide_False in Hb2 by (unfold MAX_PROFANITY_STRIKES; lia).
  destruct (flagged_step uid t3 w2 H3 P3) as (w3 & Hr3 & Hv3 & Hb3 & Hs3).
  cbv zeta in Hr3. rewrite Hv2 in Hr3, Hv3, Hb3, Hs3. cbn [default id] in Hr3, Hv3, Hb3, Hs3.
  rewrite decide_True in Hr3 by (unfold MAX_PROFANITY_STRIKES; lia).
  rewrite decide_True in Hb3 by (unfold MAX_PROFANITY_STRIKES; lia).
  assert (r1 = (Ok ST_CONTENT, w1)) as -> by exact Hr1.
  assert (r2 = (Ok ST_CONTENT, w2)) as -> by exact Hr2.
  assert (r3 = (Ok END, w3)) as -> by exact Hr3.
  cbn [fst snd].
  assert (uid ∈ banned_cache w3) as Hin
    by (rewrite Hb3; by apply elem_of_union_l, elem_of_singleton).
  assert (sessions w3 !! uid = None) as Hs
    by (apply Hs3; unfold MAX_PROFANITY_STRIKES; lia).
  destruct (cmd_start_banned_refused user args w3 Hin) as (w4 & Hstart & Hs4).
  rewrite Hstart. cbn [fst snd]. rewrite Hs4.
  split_and!; try done. by rewrite Hb2, Hb1.
Qed.

Lemma third_flagged_body_bans_witness :
  let user := mkUser 42 "Sara" "sara" in
  let t := "This teacher is a complete idiot, honestly." in
  let w := start_world (λ _, 0) (λ _, "") (λ _, None) (λ _, "") in
  let w3 := (handler_content 42 t (handler_content 42 t (handler_content 42 t w).2).2).2 in
  42 ∈ banned_cache w3
  ∧ sessions w3 !! 42 = None
  ∧ (cmd_start user ["add_abc"] w3).1 = Ok END.
Proof.
  intros user t w w3.
  destruct (third_flagged_body_bans user t t t ["add_abc"] w)
    as (_ & _ & _ & _ & Hb & Hs & Hst & _).
  - reflexivity.
  - cbn. apply not_elem_of_empty.
  - by vm_compute.
  - by vm_compute.
  - by vm_compute.
  - by vm_compute.
  - by vm_compute.
  - by vm_compute.
  - by split_and!.
Defined.

End StrikeFacts.

Module KeyboardFacts.
Import Keyboards.

(** A slice with bounds that are not negative. *)
Lemma slice_take_drop {A} (l : list A) a c :
  0 ≤ a → 0 ≤ c →
  slice l a (a + c) = take (Z.to_nat c) (drop (Z.to_nat a) l).
Proof.
  intros Ha Hc. unfold slice, slice_bound.
  rewrite !decide_False by lia.
  destruct (decide (Z.of_nat (length l) ≤ a)) as [Hge|Hlt].
  - rewrite !(drop_ge l) by lia. by rewrite !take_nil.
  - rewrite (Z.min_l a) by lia.
    destruct (decide (a + c ≤ Z.of_nat (length l))) as [Hin|Hout].
    + rewrite Z.min_l by lia. f_equal. lia.
    + rewrite Z.min_r by lia.
      rewrite !take_ge; [done| |]; rewrite length_drop; lia.
Qed.

Lemma range_up_bounds fuel : ∀ i stop step j,
  0 < step → j ∈ range_up fuel i stop step → i ≤ j < stop.
Proof.
  induction fuel as [|fuel IH]; intros i stop step j Hstep Hj; cbn in Hj.
  - by apply elem_of_nil in Hj.
  - destruct (decide (i < stop)); [|by apply elem_of_nil in Hj].
    apply elem_of_cons in Hj as [->|Hj]; [lia|].
    apply IH in Hj; lia.
Qed.

Lemma chunks_from (items : list string) cols : 0 < cols →
  ∀ fuel i, 0 ≤ i → Z.of_nat (length items) - i ≤ Z.of_nat fuel →
  mjoin ((λ i, slice items i (i + cols))
           <$> range_up fuel i (Z.of_nat (length items)) cols)
  = drop (Z.to_nat i) items.
Proof.
  intros Hc. induction fuel as [|fuel IH]; intros i Hi Hfuel; cbn [range_up].
  - rewrite drop_ge by lia. reflexivity.
  - destruct (decide (i < Z.of_nat (length items))) as [Hlt|Hge].
    + rewrite fmap_cons. cbn [mjoin list_join].
      rewrite IH by lia. rewrite slice_take_drop by lia.
      replace (Z.to_nat (i + cols)) with (Z.to_nat i + Z.to_nat cols)%nat by lia.
      rewrite <- drop_drop. apply take_drop.
    + rewrite drop_ge by lia. reflexivity.
Qed.

(** X15.  The rows of a reply keyboard are the items, cut into rows of [cols]
    buttons from the first on: put end to end the rows give the items back
    in order, no row is empty and none is longer than [cols]. *)
Theorem kb_reply_rows_partition_items (items : list string) (cols : Z) :
  0 < cols →
  ∃ rows,
    kb_reply items cols = Some rows
    ∧ mjoin rows = items
    ∧ Forall (λ r, r ≠ [] ∧ Z.of_nat (length r) ≤ cols) rows.
Proof.
  intros Hc. unfold kb_reply, range.
  rewrite decide_False by lia. rewrite decide_True by lia.
  eexists. split; [reflexivity|]. split.
  - rewrite chunks_from by lia. reflexivity.
  - apply Forall_forall. intros r Hr.
    apply list_elem_of_fmap in Hr as (j & -> & Hj).
    apply range_up_bounds in Hj; [|done].
    rewrite slice_take_drop by lia. split.
    + intros Hnil. apply (f_equal length) in Hnil.
      rewrite length_take, length_drop in Hnil. cbn in Hnil. lia.
    + rewrite length_take. lia.
Qed.

Lemma kb_reply_rows_partition_items_witness :
  ∃ rows, kb_reply ["a"; "b"; "c"; "d"; "e"] 2 = Some rows
          ∧ mjoin rows = ["a"; "b"; "c"; "d"; "e"]
          ∧ Forall (λ r, r ≠ [] ∧ Z.of_nat (length r) ≤ 2) rows.
Proof. apply (kb_reply_rows_partition_items ["a"; "b"; "c"; "d"; "e"] 2). lia. Defined.

(** What a subject keyboard shows and where its navigation leads. *)
Lemma subjects_on_app k1 k2 :
  subjects_on (k1 ++ k2) = (subjects_on k1 ++ subjects_on k2)%list.
Proof. unfold subjects_on. by rewrite join_app, bind_app. Qed.

Lemma subjects_on_rows (l : list string) :
  subjects_on ((λ s, [SUBJECT s]) <$> l) = l.
Proof.
  induction l as [|x l IH]; [done|].
  rewrite fmap_cons. change (?a :: ?r) with ([a] ++ r)%list at 1.
  rewrite subjects_on_app, IH. reflexivity.
Qed.

Lemma targets_app k1 k2 : targets (k1 ++ k2) = (targets k1 ++ targets k2)%list.
Proof. unfold targets. by rewrite join_app, bind_app. Qed.

Lemma targets_rows (l : list string) : targets ((λ s, [SUBJECT s]) <$> l) = [].
Proof.
  induction l as [|x l IH]; [done|].
  rewrite fmap_cons. change (?a :: ?r) with ([a] ++ r)%list at 1.
  rewrite targets_app, IH. reflexivity.
Qed.

Lemma subjects_on_kb subjects page :
  subjects_on (kb_subjects subjects page)
  = slice subjects (page * SUBJECTS_PER_PAGE)
      (page * SUBJECTS_PER_PAGE + SUBJECTS_PER_PAGE).
Proof.
  unfold kb_subjects. cbv zeta.
  rewrite !subjects_on_app, subjects_on_rows.
  destruct (decide (0 < page)), (decide (_ < _)); cbn; by rewrite app_nil_r.
Qed.

Lemma targets_kb subjects page :
  targets (kb_subjects subjects page)
  = ((if decide (0 < page) then [page - 1] else [])
     ++ (if decide (page * SUBJECTS_PER_PAGE + SUBJECTS_PER_PAGE
                    < Z.of_nat (length subjects))
         then [page + 1] else []))%list.
Proof.
  unfold kb_subjects. cbv zeta.
  rewrite !targets_app, targets_rows.
  destruct (decide (0 < page)), (decide (_ < _)); reflexivity.
Qed.

Lemma total_pages_gt subjects p :
  p < total_pages subjects
  ↔ p * SUBJECTS_PER_PAGE < Z.of_nat (length subjects).
Proof.
  unfold total_pages, SUBJECTS_PER_PAGE.
  pose proof (Z.div_mod (Z.of_nat (length subjects) + 6 - 1) 6).
  pose proof (Z.mod_pos_bound (Z.of_nat (length subjects) + 6 - 1) 6).
  lia.
Qed.

Lemma pages_from (l : list string) : ∀ k i,
  mjoin ((λ p : nat, take 6 (drop (6 * p) l)) <$> seq i k)
  = take (6 * k) (drop (6 * i) l).
Proof.
  induction k as [|k IH]; intros i.
  - reflexivity.
  - cbn [seq]. rewrite fmap_cons. cbn [mjoin list_join]. rewrite IH.
    replace (6 * S i)%nat with (6 * i + 6)%nat by lia.
    rewrite <- drop_drop.
    replace (6 * S k)%nat with (6 + 6 * k)%nat by lia.
    by rewrite take_take_drop.
Qed.

Lemma browsing_in_range subjects p :
  browsing subjects p → 0 ≤ p < Z.max 1 (total_pages subjects).
Proof.
  induction 1 as [|p q _ IH Hq]; [lia|].
  rewrite targets_kb in Hq. apply elem_of_app in Hq as [Hq|Hq].
  - destruct (decide (0 < p)); [|by apply elem_of_nil in Hq].
    apply list_elem_of_singleton in Hq as ->. lia.
  - destruct (decide (_ < _)) as [Hlt|]; [|by apply elem_of_nil in Hq].
    apply list_elem_of_singleton in Hq as ->.
    assert (p + 1 < total_pages subjects) by (apply total_pages_gt; lia). lia.
Qed.

Lemma in_range_browsing subjects p :
  0 ≤ p < Z.max 1 (total_pages subjects) → browsing subjects p.
Proof.
  intros [H0 Hp]. revert Hp. pattern p. apply natlike_ind; [| |exact H0].
  - intros _. constructor.
  - intros x Hx IH Hlt. apply (browse_press subjects x); [apply IH; lia|].
    rewrite targets_kb. apply elem_of_app. right.
    assert (Z.succ x < total_pages subjects) as Hin by lia.
    apply total_pages_gt in Hin.
    rewrite decide_True by lia.
    apply list_elem_of_singleton. lia.
Qed.

(** X16.  The pages of the subject keyboard, taken from the first to the last,
    offer every subject of the list exactly once and in the order of the
    list. *)
Theorem kb_subjects_pages_show_every_subject_once (subjects : list string) :
  mjoin ((λ p : nat, subjects_on (kb_subjects subjects (Z.of_nat p)))
           <$> seq 0 (Z.to_nat (total_pages subjects)))
  = subjects.
Proof.
  rewrite (list_fmap_ext _ (λ p : nat, take 6 (drop (6 * p) subjects))).
  - rewrite pages_from. cbn [Nat.mul drop]. apply take_ge.
    assert (¬ total_pages subjects < total_pages subjects) as Hn by lia.
    rewrite total_pages_gt in Hn. unfold SUBJECTS_PER_PAGE in Hn. lia.
  - intros _ p _. rewrite subjects_on_kb. unfold SUBJECTS_PER_PAGE.
    rewrite slice_take_drop by lia. do 2 f_equal. lia.
Qed.

(** X17.  Browsing with the Prev and Next buttons, from the first page on, shows
    exactly the pages from 0 to the last one (page 0 alone when there is no
    subject): no button leads before the first page or past the last. *)
Theorem kb_subjects_browsing_stays_in_pages (subjects : list string) (p : Z) :
  browsing subjects p ↔ 0 ≤ p < Z.max 1 (total_pages subjects).
Proof. split; [apply browsing_in_range|apply in_range_browsing]. Qed.

(** X18.  A page reached by browsing a list that is not empty offers between one
    and [SUBJECTS_PER_PAGE] subjects, and the page number it is labelled
    with does not exceed the number of pages. *)
Theorem kb_subjects_browsed_page_not_empty (subjects : list string) (p : Z) :
  subjects ≠ [] → browsing subjects p →
  let shown := subjects_on (kb_subjects subjects p) in
  shown ≠ []
  ∧ Z.of_nat (length shown) ≤ SUBJECTS_PER_PAGE
  ∧ PAGE_OF (p + 1) (total_pages subjects) ∈ mjoin (kb_subjects subjects p)
  ∧ 1 ≤ p + 1 ≤ total_pages subjects.
Proof.
  intros Hne Hb shown. apply browsing_in_range in Hb.
  assert (0 < total_pages subjects) as Htot.
  { apply total_pages_gt. destruct subjects; [done|]. cbn [length]. lia. }
  assert (p < total_pages subjects) as Hp by lia.
  apply total_pages_gt in Hp. unfold SUBJECTS_PER_PAGE in Hp |- *.
  unfold shown. rewrite subjects_on_kb. unfold SUBJECTS_PER_PAGE.
  rewrite slice_take_drop by lia. split_and!.
  - intros Hnil. apply (f_equal length) in Hnil.
    rewrite length_take, length_drop in Hnil. cbn in Hnil. lia.
  - rewrite length_take. lia.
  - unfold kb_subjects. cbv zeta. rewrite !join_app.
    apply elem_of_app. right. apply elem_of_app. left.
    cbn [mjoin list_join]. rewrite app_nil_r.
    apply elem_of_app. right. apply elem_of_app. left.
    by apply list_elem_of_singleton.
  - lia.
  - lia.
Qed.

Lemma kb_subjects_browsed_page_not_empty_witness :
  let subjects := ["Maths"; "Physics"; "Chemistry"; "Biology"; "History";
                   "Civics"; "English"] in
  subjects_on (kb_subjects subjects 1) ≠ []
  ∧ 1 ≤ 1 + 1 ≤ total_pages subjects.
Proof.
  intros subjects.
  destruct (kb_subjects_browsed_page_not_empty subjects 1)
    as (Hne & _ & _ & Hp); [done| |by split].
  apply (browse_press subjects 0); [constructor|].
  vm_compute. apply list_elem_of_singleton. reflexivity.
Defined.

End KeyboardFacts.

Module ManageFacts.
Import Text Bot ContentFacts SubmitFacts.
Local Open Scope bot_scope.

(** X19.  Editing a committed draft.  [pop_for_edit] takes the draft out of the
    committed list and makes it the active one; when the new body passes
    the length test and the filter, the draft comes back with the new body
    at the end of the list.  The other drafts keep their order, so a draft
    that was not the last one changes its place. *)
Theorem edited_draft_moves_to_end
    (uid idx : Z) (raw : string) (w : World) (s : Session) (d : Draft) :
  0 ≤ idx → drafts s !! Z.to_nat idx = Some d →
  d_is_additional d = false →
  sessions w !! uid = Some (Sess.pop_for_edit idx s).2 →
  30 ≤ len (strip raw) → contains_profanity (strip raw) = false →
  ∃ w' s',
    (Sess.pop_for_edit idx s).1 = Some d
    ∧ handler_content uid raw w = (Ok ST_BATCH, w')
    ∧ sessions w' !! uid = Some s'
    ∧ draft s' = None
    ∧ drafts s'
      = (delete (Z.to_nat idx) (drafts s) ++ [set_content (strip raw) d])%list
    ∧ length (drafts s') = length (drafts s).
Proof.
  intros Hidx Hd Hadd Hs Hlen Hprof.
  assert (Z.to_nat idx < length (drafts s))%nat as Hlt
    by (by eapply lookup_lt_Some).
  unfold Sess.pop_for_edit in Hs |- *.
  rewrite decide_True in Hs |- * by lia. rewrite Hd in Hs |- *. cbn [fst snd] in Hs |- *.
  set (s0 := mkSession _ _ _ _ _) in Hs.
  set (d' := set_content (strip raw) d).
  set (s' := commit_draft (with_draft d' s0)).
  assert (drafts s' = (delete (Z.to_nat idx) (drafts s) ++ [d'])%list) as Hds'
    by reflexivity.
  eexists _, s'. split; [reflexivity|]. split.
  - unfold handler_content. unfold bind at 1.
    rewrite session_run, Hs. change (default (new_Session uid) (Some s0)) with s0.
    cbv beta iota. rewrite decide_False by lia. rewrite Hprof.
    change (draft s0) with (Some d). cbv beta iota.
    fold d'. fold s'. unfold bind at 1, store_session, modify. cbv beta iota.
    rewrite Hds', last_snoc. cbn [fmap option_fmap option_map default].
    change (d_is_additional d') with (d_is_additional d). rewrite Hadd.
    reflexivity.
  - split; [apply lookup_insert_eq|]. split; [done|]. split; [exact Hds'|].
    rewrite Hds', length_app, length_delete by (by eexists). cbn [length]. lia.
Qed.

Lemma edited_draft_moves_to_end_witness :
  let d1 := mkDraft "d1" "Law" "Year 1" "Logic" "Dr. Abebe" 4
              "Clear lectures, fair exams, strict attendance." false None 0 in
  let d2 := mkDraft "d2" "Law" "Year 1" "Ethics" "Dr. Sara" 5
              "Well prepared, answers every question asked." false None 0 in
  let s := mkSession 42 None [d1; d2] 0 [] in
  let w := set_sessions (λ _, {[ 42 := (Sess.pop_for_edit 0 s).2 ]})
             (start_world (λ _, 0) (λ _, "") (λ _, None) (λ _, "")) in
  ∃ w' s', handler_content 42 "Clear lectures, but the exams are very hard." w
           = (Ok ST_BATCH, w')
           ∧ sessions w' !! 42 = Some s'
           ∧ d_id <$> drafts s' = ["d2"; "d1"].
Proof.
  intros d1 d2 s w.
  destruct (edited_draft_moves_to_end 42 0
              "Clear lectures, but the exams are very hard." w s d1)
    as (w' & s' & _ & Hrun & Hs & _ & Hds & _).
  - lia.
  - reflexivity.
  - reflexivity.
  - reflexivity.
  - by vm_compute.
  - by vm_compute.
  - exists w', s'. split_and!; [exact Hrun|exact Hs|]. rewrite Hds. reflexivity.
Defined.

Lemma pending_key_inj a b : pending_key a = pending_key b → a = b.
Proof. unfold pending_key. cbn. intros H. by simplify_eq. Qed.

(** The loop of [do_submit] returns, and writes and sends for the drafts it
    is given only. *)
Lemma submit_loop_frame uid display : ∀ ds sub w,
  ∃ sub' w' extra,
    submit_loop uid display ds sub w = (Ok sub', w')
    ∧ (∀ k, (∀ d, d ∈ ds → k ≠ pending_key (d_id d)) →
         contexts w' !! k = contexts w !! k)
    ∧ outbox w' = (outbox w ++ extra)%list
    ∧ Forall (λ m, ∀ disp u d, body m = ADMIN_REVIEW disp u d → d ∈ ds) extra
    ∧ net w' = net w.
Proof.
  induction ds as [|d rest IH]; intros sub w.
  - exists sub, w, []. cbn. split_and!; try done. by rewrite app_nil_r.
  - destruct (rate_limit_ok uid w) as [[[|]|e] w1] eqn:Hrun.
    + rewrite (submit_loop_admit _ _ _ _ _ _ _ Hrun).
      rewrite RateLimitFacts.rate_limit_ok_run in Hrun.
      injection Hrun as _ <-.
      match goal with |- context [submit_loop _ _ _ ?s ?w0] =>
        destruct (IH s w0) as (sub' & w' & extra & Hloop & Hc & Ho & Hall & Hnet)
      end.
      eexists sub', w', (_ ++ extra)%list. split; [exact Hloop|]. split_and!.
      * intros k Hk. rewrite Hc.
        -- cbn. rewrite lookup_insert_ne; [done|].
           intros Heq. by apply (Hk d); [left|].
        -- intros d' Hd'. apply Hk. by right.
      * rewrite Ho. cbn. by rewrite <- (assoc_L (++)).
      * apply Forall_app. split.
        -- cbn. apply Forall_singleton. intros disp u d' Hb. cbn in Hb.
           injection Hb as _ _ <-. by left.
        -- eapply Forall_impl; [exact Hall|]. intros m Hm disp u d' Hb.
           right. by eapply Hm.
      * by rewrite Hnet.
    + rewrite (submit_loop_deny _ _ _ _ _ _ _ Hrun).
      rewrite RateLimitFacts.rate_limit_ok_run in Hrun.
      injection Hrun as _ <-.
      eexists _, _, [_]. split; [reflexivity|]. cbn. split_and!; try done.
      apply Forall_singleton. intros disp u d' Hb. discriminate Hb.
    + rewrite RateLimitFacts.rate_limit_ok_run in Hrun. discriminate Hrun.
Qed.

(** X20.  A deleted draft is never submitted.  Once [delete] has taken a draft
    out of the committed list, a submission of what is left parks no review
    under the key of that draft and sends none of its content to the
    moderator, whatever the rate limiter answers; the draft ids are taken
    to differ, as they do for ids drawn by [uuid4]. *)
Theorem deleted_draft_not_submitted
    (uid idx : Z) (update : bool) (w : World) (s : Session) (d : Draft) :
  0 ≤ idx → drafts s !! Z.to_nat idx = Some d →
  (∀ j d', drafts s !! j = Some d' → j ≠ Z.to_nat idx → d_id d' ≠ d_id d) →
  sessions w !! uid = Some (Sess.delete idx s).2 →
  ∃ w' extra,
    (Sess.delete idx s).1 = true
    ∧ do_submit uid update w = (Ok END, w')
    ∧ contexts w' !! pending_key (d_id d) = contexts w !! pending_key (d_id d)
    ∧ outbox w' = (outbox w ++ extra)%list
    ∧ ∀ m disp u, m ∈ extra → body m ≠ ADMIN_REVIEW disp u d.
Proof.
  intros Hidx Hd Hids Hs.
  assert (Z.to_nat idx < length (drafts s))%nat as Hlt
    by (by eapply lookup_lt_Some).
  unfold Sess.delete in Hs |- *. rewrite decide_True in Hs |- * by lia.
  cbn [fst snd] in Hs |- *. set (s0 := mkSession _ _ _ _ _) in Hs.
  assert (∀ d', d' ∈ drafts s0 → d_id d' ≠ d_id d) as Hother.
  { intros d' Hd'. change (drafts s0) with (delete (Z.to_nat idx) (drafts s)) in Hd'.
    apply list_elem_of_lookup in Hd' as [j Hj].
    destruct (decide (j < Z.to_nat idx)%nat).
    - rewrite list_lookup_delete_lt in Hj by done. apply (Hids j); [done|lia].
    - rewrite list_lookup_delete_ge in Hj by lia. apply (Hids (S j)); [done|lia]. }
  destruct (drafts s0) as [|d0 rest] eqn:Hds.
  - exists (if update then set_outbox (λ o, (o ++ [notice uid ERR_NO_DATA])%list) w
            else w), (if update then [notice uid ERR_NO_DATA] else []).
    split; [done|]. split.
    + unfold do_submit. unfold bind at 1. rewrite session_run, Hs.
      change (default (new_Session uid) (Some s0)) with s0. cbv beta iota.
      rewrite Hds. by destruct update.
    + destruct update; cbn.
      * split_and!; try done. intros m disp u Hm.
        apply list_elem_of_singleton in Hm as ->. done.
      * split_and!; try done; [by rewrite app_nil_r|].
        intros m disp u Hm. by apply elem_of_nil in Hm.
  - assert (drafts s0 ≠ []) as Hne by (by rewrite Hds).
    rewrite (do_submit_run uid update w s0 Hs Hne). rewrite Hds.
    set (wb := if update then _ else _).
    assert (contexts wb = contexts w) as Hcb by (unfold wb; by destruct update).
    assert (∃ pre, outbox wb = (outbox w ++ pre)%list
                   ∧ ∀ m, m ∈ pre → body m = TRANSMITTING) as (pre & Hob & Hpre).
    { unfold wb. destruct update.
      - exists [notice uid TRANSMITTING]. split; [done|].
        intros m Hm. by apply list_elem_of_singleton in Hm as ->.
      - exists []. split; [by rewrite app_nil_r|].
        intros m Hm. by apply elem_of_nil in Hm. }
    destruct (submit_loop_frame uid (display_of w uid) (d0 :: rest) 0 wb)
      as (sub' & wc & extra & Hloop & Hc & Ho & Hall & _).
    rewrite Hloop.
    eexists _, ((pre ++ extra) ++ [closing_notice uid (net wc (n_net wc))])%list.
    split; [done|]. split; [reflexivity|]. cbn. split_and!.
    + rewrite Hc, Hcb; [done|]. intros d' Hd' Heq.
      apply pending_key_inj in Heq. by apply (Hother d').
    + rewrite Ho, Hob. by rewrite <- !(assoc_L (++)).
    + intros m disp u Hm Hb.
      apply elem_of_app in Hm as [Hm|Hm].
      * apply elem_of_app in Hm as [Hm|Hm].
        -- apply Hpre in Hm. by rewrite Hm in Hb.
        -- rewrite Forall_forall in Hall. apply (Hall m Hm) in Hb.
           by apply (Hother d).
      * apply list_elem_of_singleton in Hm as ->. discriminate Hb.
Qed.

Lemma deleted_draft_not_submitted_witness :
  let d1 := mkDraft "d1" "Law" "Year 1" "Logic" "Dr. Abebe" 4
              "Clear lectures, fair exams, strict attendance." false None 0 in
  let d2 := mkDraft "d2" "Law" "Year 1" "Ethics" "Dr. Sara" 5
              "Well prepared, answers every question asked." false None 0 in
  let s := mkSession 42 None [d1; d2] 0 [] in
  let w := set_sessions (λ _, {[ 42 := (Sess.delete 0 s).2 ]})
             (start_world (λ i, Z.of_nat i) (λ _, "") (λ _, Some 7) (λ _, "Sara")) in
  ∃ w', do_submit 42 true w = (Ok END, w')
        ∧ contexts w' !! pending_key "d1" = None.
Proof.
  intros d1 d2 s w.
  destruct (deleted_draft_not_submitted 42 0 true w s d1)
    as (w' & extra & _ & Hrun & Hc & _).
  - lia.
  - reflexivity.
  - intros [|[|j]] d' Hj Hne; [done| |done].
    injection Hj as <-. discriminate.
  - reflexivity.
  - exists w'. split; [exact Hrun|]. exact Hc.
Defined.

End ManageFacts.

Module UnbanFacts.
Import Text Bot Bans ContentFacts StrikeFacts.
Local Open Scope bot_scope.

(** X21.  Lifting a ban does not clear the strikes.  [unban] takes the user out
    of the cache and of the [bans] collection and leaves the violation
    count where it was, so a user whose count had reached the ceiling (or
    was one short of it) is banned again by the next flagged body. *)
Theorem unban_keeps_strikes (uid n : Z) (raw : string) (w : World) :
  violations w !! str uid = Some n →
  MAX_PROFANITY_STRIKES - 1 ≤ n →
  30 ≤ len (strip raw) → contains_profanity (strip raw) = true →
  let w1 := (unban uid w).2 in
  let r := handler_content uid raw w1 in
  (unban uid w).1 = Ok tt
  ∧ (uid ∉ banned_cache w1) ∧ (uid ∉ bans w1)
  ∧ violations w1 = violations w
  ∧ r.1 = Ok END
  ∧ uid ∈ banned_cache r.2
  ∧ violations r.2 !! str uid = Some (n + 1).
Proof.
  intros Hv Hn Hlen Hprof w1 r.
  assert (violations w1 = violations w) as Hv1 by reflexivity.
  destruct (flagged_step uid raw w1 Hlen Hprof) as (w2 & Hrun & Hv2 & Hb2 & _).
  cbv zeta in Hrun. rewrite Hv1, Hv in Hrun, Hv2, Hb2.
  cbn [default id] in Hrun, Hv2, Hb2.
  rewrite decide_True in Hrun by lia. rewrite decide_True in Hb2 by lia.
  assert (r = (Ok END, w2)) as -> by exact Hrun.
  cbn [fst snd]. split_and!; try done.
  - cbn. intros Hin. apply elem_of_difference in Hin as [_ Hin].
    by apply Hin, elem_of_singleton.
  - cbn. intros Hin. apply elem_of_difference in Hin as [_ Hin].
    by apply Hin, elem_of_singleton.
  - rewrite Hb2. by apply elem_of_union_l, elem_of_singleton.
Qed.

Lemma unban_keeps_strikes_witness :
  let w := set_banned (λ _, {[42]})
             (set_violations (λ _, {[ "42" := 3 ]})
                (start_world (λ _, 0) (λ _, "") (λ _, None) (λ _, ""))) in
  let w1 := (unban 42 w).2 in
  (42 ∉ banned_cache w1)
  ∧ 42 ∈ banned_cache
           (handler_content 42 "This teacher is a complete idiot, honestly." w1).2.
Proof.
  intros w w1.
  destruct (unban_keeps_strikes 42 3
              "This teacher is a complete idiot, honestly." w)
    as (_ & Hout & _ & _ & _ & Hin & _).
  - reflexivity.
  - by vm_compute.
  - by vm_compute.
  - by vm_compute.
  - by split.
Defined.

End UnbanFacts.

Module RegisterFacts.
Import Text Bot StartFacts.
Local Open Scope bot_scope.

(** The [users] collection after [/start]. *)
Lemma cmd_start_users user args w :
  users (cmd_start user args w).2
  = match users w !! str (tg_id user) with
    | Some _ => users w
    | None => <[str (tg_id user) :=
                 {| u_name := tg_first_name user;
                    u_username := tg_username user;
                    u_joined := clock w (ticks w) |}]> (users w)
    end.
Proof.
  rewrite cmd_start_head. cbv zeta.
  destruct (bool_decide _); [reflexivity|].
  destruct args as [|a args]; [reflexivity|].
  destruct (String.prefix "add_" a); [|reflexivity].
  destruct (contexts w !! drop4 a); reflexivity.
Qed.

(** X22.  The first registration stays.  A user's document is written by the
    first [/start] and by no later one: whatever name, username or deep
    link a later [/start] of the same user id comes with, banned or not,
    the [users] collection is as the first [/start] left it, with the name
    and the joining time of that first call. *)
Theorem cmd_start_keeps_first_registration
    (user user' : TgUser) (args args' : list string) (w : World) :
  tg_id user' = tg_id user →
  users w !! str (tg_id user) = None →
  let w1 := (cmd_start user args w).2 in
  let w2 := (cmd_start user' args' w1).2 in
  users w2 = users w1
  ∧ users w2 !! str (tg_id user)
    = Some {| u_name := tg_first_name user; u_username := tg_username user;
              u_joined := clock w (ticks w) |}.
Proof.
  intros Hid Hnone w1 w2.
  assert (users w1 !! str (tg_id user)
          = Some {| u_name := tg_first_name user; u_username := tg_username user;
                    u_joined := clock w (ticks w) |}) as H1.
  { unfold w1. rewrite cmd_start_users, Hnone. apply lookup_insert_eq. }
  assert (users w2 = users w1) as H2.
  { unfold w2. rewrite cmd_start_users, Hid, H1. reflexivity. }
  split; [exact H2|]. by rewrite H2.
Qed.

Lemma cmd_start_keeps_first_registration_witness :
  let w := start_world (λ i, 100 + Z.of_nat i) (λ _, "") (λ _, None) (λ _, "") in
  let w1 := (cmd_start (mkUser 42 "Sara" "sara") [] w).2 in
  let w2 := (cmd_start (mkUser 42 "Sara B." "sarab") ["add_abc"] w1).2 in
  users w2 !! "42" = Some {| u_name := "Sara"; u_username := "sara"; u_joined := 100 |}.
Proof.
  intros w w1 w2.
  destruct (cmd_start_keeps_first_registration
              (mkUser 42 "Sara" "sara") (mkUser 42 "Sara B." "sarab")
              [] ["add_abc"] w) as [_ Hdoc]; [reflexivity|reflexivity|].
  exact Hdoc.
Defined.

End RegisterFacts.
